(** * The OpenAPI synthesis core of [scripts/generate_api_docs.py]

    A shallow embedding of the methods of [APIDocumentationGenerator] that
    build and enrich the in-memory specification: framework detection,
    the search for the FastAPI application, pattern-based route extraction,
    route insertion, tag derivation, example synthesis and enrichment, and
    of the method names of the generated Python client.

    Conventions of the embedding.
    - Python values that travel through the specification are the values
      [json.loads] produces; they are the inductive type [json].
    - A Python [dict] is an association list in insertion order: the
      iteration order of [items()] and the position a key keeps under
      [d[k] = v] and under a dict display with [**] are observable, so the
      order is part of the value.
    - An exception is a value of [exn]; a method that may raise returns
      [result].  A method that mutates its argument returns the new value;
      where a caller observes the argument after an exception the state
      is returned next to the outcome.
    - Text is 7-bit ASCII carried by [string]; on that range [lower],
      [title] and the white space class are those of Python's [str]. *)

From Stdlib Require Import Bool Arith List ZArith Ascii String.
From Stdlib Require Import Sorting.Sorted.
From Stdlib Require OrderedTypeEx.
Import ListNotations.

Set Implicit Arguments.
Local Open Scope string_scope.

(** ** Outcomes *)

Inductive exn : Type :=
| TypeError
| AttributeError
| KeyError
| OSError
| UnicodeDecodeError.

Inductive result (A : Type) : Type :=
| Ok (a : A)
| Raise (e : exn).

Arguments Ok {A} a.
Arguments Raise {A} e.

Definition bind {A B : Type} (m : result A) (k : A -> result B) : result B :=
  match m with
  | Ok a => k a
  | Raise e => Raise e
  end.

Notation "x <- m ;; k" := (bind m (fun x => k))
  (at level 61, m at next level, right associativity).

(** ** Python [str] methods, on ASCII *)

Module PyStr.

Definition code (c : ascii) : nat := nat_of_ascii c.

Definition between (lo hi : nat) (c : ascii) : bool :=
  ((lo <=? code c)%nat && (code c <=? hi)%nat)%bool.

Definition is_upper : ascii -> bool := between 65 90.
Definition is_lower : ascii -> bool := between 97 122.
Definition is_digit : ascii -> bool := between 48 57.
Definition is_cased (c : ascii) : bool := is_upper c || is_lower c.

(** [str.isspace] on one character: TAB..CR, FS..US and the space. *)
Definition is_space (c : ascii) : bool :=
  between 9 13 c || between 28 32 c.

(** The class [\w] of [re] restricted to ASCII. *)
Definition is_word (c : ascii) : bool :=
  is_cased c || is_digit c || (c =? "_")%char.

Definition lower_char (c : ascii) : ascii :=
  if is_upper c then ascii_of_nat (code c + 32) else c.

Definition upper_char (c : ascii) : ascii :=
  if is_lower c then ascii_of_nat (code c - 32) else c.

(** [s.lower()] *)
Fixpoint lower (s : string) : string :=
  match s with
  | EmptyString => EmptyString
  | String c t => String (lower_char c) (lower t)
  end.

(** [s.title()]: a cased character that follows an uncased one (or
    starts the string) is upper-cased, every other one lower-cased. *)
Fixpoint title_from (previous_is_cased : bool) (s : string) : string :=
  match s with
  | EmptyString => EmptyString
  | String c t =>
      String (if previous_is_cased then lower_char c else upper_char c)
             (title_from (is_cased c) t)
  end.

Definition title (s : string) : string := title_from false s.

(** [s.startswith(p)] *)
Definition startswith (p s : string) : bool := prefix p s.

(** [s.endswith(p)] *)
Definition endswith (p s : string) : bool :=
  (length p <=? length s)%nat
  && (substring (length s - length p) (length p) s =? p).

(** [sub in s] *)
Fixpoint contains (sub s : string) : bool :=
  prefix sub s
  || match s with
     | EmptyString => false
     | String _ t => contains sub t
     end.

Fixpoint lstrip (drop : ascii -> bool) (s : string) : string :=
  match s with
  | EmptyString => EmptyString
  | String c t => if drop c then lstrip drop t else s
  end.

Fixpoint rstrip (drop : ascii -> bool) (s : string) : string :=
  match s with
  | EmptyString => EmptyString
  | String c t =>
      match rstrip drop t with
      | EmptyString => if drop c then EmptyString else String c EmptyString
      | t' => String c t'
      end
  end.

(** [s.strip(chars)] with [drop] the membership test of [chars];
    [s.strip()] is [strip is_space]. *)
Definition strip (drop : ascii -> bool) (s : string) : string :=
  rstrip drop (lstrip drop s).

Definition one_of (chars : string) (c : ascii) : bool :=
  existsb (Ascii.eqb c) (list_ascii_of_string chars).

(** [s.split(sep)] for a separator of one character. *)
Fixpoint split (sep : ascii) (s : string) : list string :=
  match s with
  | EmptyString => [EmptyString]
  | String c t =>
      if (c =? sep)%char then EmptyString :: split sep t
      else match split sep t with
           | h :: r => String c h :: r
           | [] => [String c EmptyString]
           end
  end.

(** [sep.join(parts)] *)
Definition join (sep : string) (parts : list string) : string :=
  concat sep parts.

(** [s[n:]] and [s[:-n]] for [n] within the string. *)
Definition drop_first (n : nat) (s : string) : string :=
  substring n (length s - n) s.

Definition drop_last (n : nat) (s : string) : string :=
  substring 0 (length s - n) s.

End PyStr.

(** ** JSON values and Python's operations on them *)

(** [JFloat m e] is the decimal [m * 10 ^ e]; the synthesised examples
    [19.99], [75.5] and [3.14] are [JFloat 1999 (-2)], [JFloat 755 (-1)]
    and [JFloat 314 (-2)]. *)
#[warnings="-register-all"]
Inductive json : Type :=
| JNull
| JBool (b : bool)
| JInt (z : Z)
| JFloat (mantissa exponent : Z)
| JStr (s : string)
| JList (l : list json)
| JDict (d : list (string * json)).

Definition dict : Type := list (string * json).

Section DictOps.
Variable V : Type.

(** [d.get(k)] *)
Fixpoint dict_get (k : string) (d : list (string * V)) : option V :=
  match d with
  | [] => None
  | (k', v) :: d' => if k' =? k then Some v else dict_get k d'
  end.

(** [k in d] *)
Definition dict_has (k : string) (d : list (string * V)) : bool :=
  match dict_get k d with
  | Some _ => true
  | None => false
  end.

(** [d[k] = v]: an existing key keeps its position, a new key goes last. *)
Fixpoint dict_set (k : string) (v : V) (d : list (string * V)) : list (string * V) :=
  match d with
  | [] => [(k, v)]
  | (k', v') :: d' =>
      if k' =? k then (k, v) :: d' else (k', v') :: dict_set k v d'
  end.

(** [{**d, k1: v1, ..., kn: vn}] *)
Definition dict_update (extra d : list (string * V)) : list (string * V) :=
  fold_left (fun acc kv => dict_set (fst kv) (snd kv) acc) extra d.

Definition dict_keys (d : list (string * V)) : list string := map fst d.

End DictOps.

Section DictTraversal.
Variables V R : Type.

(** [present(d[k]) if k in d else absent], with the looked-up value handed
    to [present]. *)
Section Case.
Variables (k : string) (absent : R) (present : V -> R).
Fixpoint dict_case (d : list (string * V)) : R :=
  match d with
  | [] => absent
  | (k', v) :: d' => if k' =? k then present v else dict_case d'
  end.
End Case.

(** [for name, v in items: acc[name] = body(name, v)], stopping at the
    first exception. *)
Section ForItems.
Variable body : string -> V -> result R.
Fixpoint for_items (items : list (string * V)) (acc : list (string * R))
  : result (list (string * R)) :=
  match items with
  | [] => Ok acc
  | (name, v) :: rest =>
      match body name v with
      | Ok r => for_items rest (dict_set name r acc)
      | Raise e => Raise e
      end
  end.
End ForItems.

(** [for k, v in d.items(): body(k, v)] where [body] mutates [v] in place:
    every value is replaced by what [body] leaves, keys and order stay. *)
Section ForEach.
Variable body : string -> V -> result V.
Fixpoint for_each (d : list (string * V)) : result (list (string * V)) :=
  match d with
  | [] => Ok []
  | (k, v) :: d' =>
      match body k v with
      | Ok v' =>
          match for_each d' with
          | Ok r => Ok ((k, v') :: r)
          | Raise e => Raise e
          end
      | Raise e => Raise e
      end
  end.
End ForEach.

End DictTraversal.

(** [v == s] for a string literal [s] *)
Definition py_is_str (v : json) (s : string) : bool :=
  match v with
  | JStr t => t =? s
  | _ => false
  end.

(** [s in v] for a string [s] *)
Definition py_in (s : string) (v : json) : result bool :=
  match v with
  | JDict d => Ok (dict_has s d)
  | JList l => Ok (existsb (fun x => py_is_str x s) l)
  | JStr t => Ok (PyStr.contains s t)
  | _ => Raise TypeError
  end.

(** [v[s]] for a string [s] *)
Definition py_getitem (v : json) (s : string) : result json :=
  match v with
  | JDict d =>
      match dict_get s d with
      | Some x => Ok x
      | None => Raise KeyError
      end
  | _ => Raise TypeError
  end.

(** [v.get(s, default)] *)
Definition py_get (v : json) (s : string) (default : json) : result json :=
  match v with
  | JDict d =>
      match dict_get s d with
      | Some x => Ok x
      | None => Ok default
      end
  | _ => Raise AttributeError
  end.

(** [v.items()] ([v.keys()] is its first projection) *)
Definition py_items (v : json) : result dict :=
  match v with
  | JDict d => Ok d
  | _ => Raise AttributeError
  end.

(** [v[s] = x] *)
Definition py_setitem (v : json) (s : string) (x : json) : result json :=
  match v with
  | JDict d => Ok (JDict (dict_set s x d))
  | _ => Raise TypeError
  end.

(** ** Example synthesis *)

(** The branch [field_type == 'string'] of [_create_example_value]. *)
Definition string_example (field_name : string) (format_type : json) : json :=
  if py_is_str format_type "email" then JStr "user@example.com"
  else if py_is_str format_type "date" then JStr "2023-12-01"
  else if py_is_str format_type "date-time" then JStr "2023-12-01T10:00:00Z"
  else if py_is_str format_type "uri" then JStr "https://example.com"
  else if PyStr.contains "password" (PyStr.lower field_name) then JStr "SecurePassword123!"
  else if PyStr.contains "email" (PyStr.lower field_name) then JStr "user@example.com"
  else if PyStr.contains "name" (PyStr.lower field_name) then JStr "John Doe"
  else if PyStr.contains "title" (PyStr.lower field_name) then JStr "Example Title"
  else if PyStr.contains "description" (PyStr.lower field_name)
       then JStr "This is an example description"
  else if PyStr.endswith "_id" field_name || (field_name =? "id") then JStr "abc123"
  else JStr ("example_" ++ field_name).

(** The branch [field_type == 'integer']. *)
Definition integer_example (field_name : string) : json :=
  if PyStr.contains "age" (PyStr.lower field_name) then JInt 25
  else if PyStr.contains "count" (PyStr.lower field_name) then JInt 10
  else if PyStr.contains "port" (PyStr.lower field_name) then JInt 8080
  else if PyStr.endswith "_id" field_name || (field_name =? "id") then JInt 123
  else JInt 42.

(** The branch [field_type == 'number']. *)
Definition number_example (field_name : string) : json :=
  if PyStr.contains "price" (PyStr.lower field_name) then JFloat 1999 (-2)
  else if PyStr.contains "percentage" (PyStr.lower field_name) then JFloat 755 (-1)
  else JFloat 314 (-2).

(** The items schema used when an array schema has none. *)
Definition default_items : json := JDict [("type", JStr "string")].

(** [_create_example_value(field_name, schema)].

    The recursion follows the schema.  The two recursive calls of the
    source are reached through [dict_case], which hands the value found
    under ['items'] or ['properties'] to the recursive call; the call on
    the constant [default_items] is written as its value, and the call of
    [_create_example_from_schema] on the same schema as the loop that call
    runs.  [_create_example_value_unfold] below states the body in the
    shape of the source. *)
Fixpoint _create_example_value (field_name : string) (schema : json) {struct schema}
  : result json :=
  match schema with
  | JDict d =>
      let field_type :=
        match dict_get "type" d with Some t => t | None => JStr "string" end in
      let format_type :=
        match dict_get "format" d with Some f => f | None => JNull end in
      match dict_get "example" d with
      | Some example => Ok example
      | None =>
          if py_is_str field_type "string" then
            Ok (string_example field_name format_type)
          else if py_is_str field_type "integer" then
            Ok (integer_example field_name)
          else if py_is_str field_type "number" then
            Ok (number_example field_name)
          else if py_is_str field_type "boolean" then
            Ok (JBool true)
          else if py_is_str field_type "array" then
            match dict_case "items"
                    (Ok (string_example "item" JNull))
                    (fun item_schema => _create_example_value "item" item_schema) d
            with
            | Ok item => Ok (JList [item])
            | Raise e => Raise e
            end
          else if py_is_str field_type "object" then
            dict_case "properties"
              (Ok (JDict []))
              (fun properties =>
                 match properties with
                 | JDict items =>
                     match for_items
                             (fun prop_name prop_schema =>
                                _create_example_value prop_name prop_schema)
                             items []
                     with
                     | Ok example => Ok (JDict example)
                     | Raise e => Raise e
                     end
                 | _ => Raise AttributeError
                 end) d
          else Ok JNull
      end
  | _ => Raise AttributeError
  end.

(** [_create_example_from_schema(schema)] *)
Definition _create_example_from_schema (schema : json) : result json :=
  schema_type <- py_get schema "type" JNull ;;
  if py_is_str schema_type "object" then
    properties <- py_get schema "properties" (JDict []) ;;
    items <- py_items properties ;;
    example <- for_items _create_example_value items [] ;;
    Ok (JDict example)
  else if py_is_str schema_type "array" then
    item_schema <- py_get schema "items" default_items ;;
    item <- _create_example_value "item" item_schema ;;
    Ok (JList [item])
  else _create_example_value "value" schema.

(** [for x in v]: the elements of a list, the keys of a dict, the
    characters of a string. *)
Definition py_iter (v : json) : result (list json) :=
  match v with
  | JList l => Ok l
  | JDict d => Ok (map (fun kv => JStr (fst kv)) d)
  | JStr s => Ok (map (fun c => JStr (String c EmptyString)) (list_ascii_of_string s))
  | _ => Raise TypeError
  end.

(** [_create_minimal_example(schema)].

    [properties] is a dict whenever the method runs: its only caller has
    iterated [properties.items()] just before.  The test
    [field_name in properties] hashes [field_name], so a list or a dict
    raises and a number, a boolean or [None] is no key of a JSON object;
    for a [properties] that is no dict the model raises. *)
Fixpoint minimal_fields (properties : dict) (required_fields : list json) (example : dict)
  : result dict :=
  match required_fields with
  | [] => Ok example
  | JStr field_name :: rest =>
      match dict_get field_name properties with
      | Some field_schema =>
          value <- _create_example_value field_name field_schema ;;
          minimal_fields properties rest (dict_set field_name value example)
      | None => minimal_fields properties rest example
      end
  | JList _ :: _ | JDict _ :: _ => Raise TypeError
  | _ :: rest => minimal_fields properties rest example
  end.

Definition _create_minimal_example (schema : json) : result json :=
  required_fields <- py_get schema "required" (JList []) ;;
  properties <- py_get schema "properties" (JDict []) ;;
  fields <- py_iter required_fields ;;
  props <- py_items properties ;;
  example <- minimal_fields props fields [] ;;
  Ok (JDict example).

(** [_generate_examples_from_schema(schema)] *)
Definition _generate_examples_from_schema (schema : json) : result json :=
  schema_type <- py_get schema "type" JNull ;;
  if py_is_str schema_type "object" then
    example_data <- _create_example_from_schema schema ;;
    let examples :=
      [("example_1",
        JDict [("summary", JStr "Valid request example");
               ("description", JStr "A complete example with all available fields");
               ("value", example_data)])] in
    has_required <- py_in "required" schema ;;
    if (has_required : bool) then
      minimal_data <- _create_minimal_example schema ;;
      Ok (JDict (dict_set "minimal_example"
                   (JDict [("summary", JStr "Minimal request example");
                           ("description", JStr "Example with only required fields");
                           ("value", minimal_data)])
                   examples))
    else Ok (JDict examples)
  else Ok (JDict []).

(** [_generate_response_examples(status_code, schema)] *)
Definition _generate_response_examples (status_code : string) (schema : json)
  : result json :=
  if PyStr.startswith "2" status_code then
    value <- _create_example_from_schema schema ;;
    Ok (JDict [("success",
                JDict [("summary", JStr "Successful response"); ("value", value)])])
  else if PyStr.startswith "4" status_code then
    Ok (JDict [("error",
                JDict [("summary", JStr "Error response");
                       ("value",
                        JDict [("error", JStr "Bad Request");
                               ("message", JStr "Invalid input provided");
                               ("details", JList [JStr "Field validation failed"])])])])
  else if PyStr.startswith "5" status_code then
    Ok (JDict [("server_error",
                JDict [("summary", JStr "Server error response");
                       ("value",
                        JDict [("error", JStr "Internal Server Error");
                               ("message", JStr "An unexpected error occurred")])])])
  else Ok (JDict []).

(** ** Enrichment *)

(** A value reached as [holder[k]] was mutated in place and is now [v]:
    the holder shows the new value.  A holder without the key was read
    through a default that nobody else holds, and stays as it is. *)
Definition store_back (k : string) (v : json) (holder : json) : json :=
  match holder with
  | JDict h => if dict_has k h then JDict (dict_set k v h) else holder
  | _ => holder
  end.

(** The body shared by the two loops of [_enhance_operation]:
    [if 'schema' in content and 'examples' not in content:
         content['examples'] = examples_for(content['schema'])] *)
Definition enhance_content (examples_for : json -> result json) (content : json)
  : result json :=
  has_schema <- py_in "schema" content ;;
  if (has_schema : bool) then
    has_examples <- py_in "examples" content ;;
    if negb has_examples then
      schema <- py_getitem content "schema" ;;
      examples <- examples_for schema ;;
      py_setitem content "examples" examples
    else Ok content
  else Ok content.

(** [for content_type, content in holder.get('content', {}).items(): ...] *)
Definition enhance_contents (examples_for : json -> result json) (holder : json)
  : result json :=
  contents <- py_get holder "content" (JDict []) ;;
  items <- py_items contents ;;
  items' <- for_each (fun _ content => enhance_content examples_for content) items ;;
  Ok (store_back "content" (JDict items') holder).

(** [_enhance_operation(operation)], returning the operation it leaves. *)
Definition _enhance_operation (operation : json) : result json :=
  has_body <- py_in "requestBody" operation ;;
  operation <-
    (if (has_body : bool) then
       request_body <- py_getitem operation "requestBody" ;;
       request_body' <- enhance_contents _generate_examples_from_schema request_body ;;
       Ok (store_back "requestBody" request_body' operation)
     else Ok operation) ;;
  responses <- py_get operation "responses" (JDict []) ;;
  items <- py_items responses ;;
  items' <-
    for_each (fun status_code response =>
                enhance_contents (_generate_response_examples status_code) response)
             items ;;
  Ok (store_back "responses" (JDict items') operation).

(** *** Tags *)

(** The tag a path contributes in the loop of [_generate_tags_from_paths],
    [None] when the guard [parts and parts[0]] fails. *)
Definition path_tag (path : string) : option string :=
  let parts := PyStr.split "/" (PyStr.strip (PyStr.one_of "/") path) in
  match parts with
  | [] => None
  | first :: _ =>
      if (first =? EmptyString) then None
      else if (first =? "api") && (1 <? List.length parts)%nat
           then Some (nth 1 parts EmptyString)
           else Some first
  end.

(** [tags.add(tag)] on a set kept as a duplicate-free list. *)
Definition set_add (tag : string) (tags : list string) : list string :=
  if existsb (String.eqb tag) tags then tags else tags ++ [tag].

(** The set [tags] after the loop over [paths.keys()]. *)
Definition collect_tags (keys : list string) : list string :=
  fold_left (fun tags path =>
               match path_tag path with
               | Some tag => set_add tag tags
               | None => tags
               end)
            keys [].

Fixpoint insert_sorted (x : string) (l : list string) : list string :=
  match l with
  | [] => [x]
  | y :: l' => if (x <=? y) then x :: l else y :: insert_sorted x l'
  end.

(** [sorted(tags)]: ascending by code points. *)
Definition sorted (l : list string) : list string :=
  fold_right insert_sorted [] l.

(** The order of the tags in the result: strictly ascending, so that equal
    neighbours are excluded. *)
Definition ascending (a b : string) : Prop := (a <? b) = true.

Definition tag_entry (tag : string) : json :=
  JDict [("name", JStr tag);
         ("description", JStr (PyStr.title tag ++ " operations"))].

(** [_generate_tags_from_paths(paths)] *)
Definition _generate_tags_from_paths (paths : json) : result json :=
  items <- py_items paths ;;
  Ok (JList (map tag_entry (sorted (collect_tags (dict_keys items))))).

(** *** The enrichment pass *)

Definition default_servers : json :=
  JList [JDict [("url", JStr "http://localhost:8000");
                ("description", JStr "Development server")];
         JDict [("url", JStr "http://localhost:5000");
                ("description", JStr "Alternative development server")];
         JDict [("url", JStr "https://api.example.com");
                ("description", JStr "Production server")]].

Definition info_extras : dict :=
  [("contact", JDict [("name", JStr "API Support");
                      ("email", JStr "api-support@example.com");
                      ("url", JStr "https://example.com/support")]);
   ("license", JDict [("name", JStr "MIT");
                      ("url", JStr "https://opensource.org/licenses/MIT")]);
   ("termsOfService", JStr "https://example.com/terms")].

Definition bearerAuth : json :=
  JDict [("type", JStr "http"); ("scheme", JStr "bearer"); ("bearerFormat", JStr "JWT")].

Definition apiKey : json :=
  JDict [("type", JStr "apiKey"); ("in", JStr "header"); ("name", JStr "X-API-Key")].

Definition default_security_schemes : json :=
  JDict [("bearerAuth", bearerAuth); ("apiKey", apiKey)].

(** [{**info, 'contact': ..., 'license': ..., 'termsOfService': ...}] *)
Definition merge_info (info : json) : result json :=
  match info with
  | JDict d => Ok (JDict (dict_update info_extras d))
  | _ => Raise TypeError
  end.

(** The loop [for path, methods in ...: for method, operation in
    methods.items(): self._enhance_operation(operation)]. *)
Definition enhance_paths (path_items : dict) : result dict :=
  for_each (fun _ methods =>
              operations <- py_items methods ;;
              operations' <- for_each (fun _ operation => _enhance_operation operation)
                                      operations ;;
              Ok (JDict operations'))
           path_items.

(** [_enhance_openapi_spec(spec)], one definition for each of its five
    commented blocks, in the order of the source. *)

(** "Add comprehensive server information" *)
Definition add_servers (spec : json) : result json :=
  py_setitem spec "servers" default_servers.

(** "Enhance info section" *)
Definition enhance_info (spec : json) : result json :=
  info <- py_get spec "info" (JDict []) ;;
  info' <- merge_info info ;;
  py_setitem spec "info" info'.

(** "Add security schemes if not present" *)
Definition add_security_schemes (spec : json) : result json :=
  has_components <- py_in "components" spec ;;
  spec <- (if negb has_components then py_setitem spec "components" (JDict [])
           else Ok spec) ;;
  components <- py_getitem spec "components" ;;
  has_schemes <- py_in "securitySchemes" components ;;
  if negb has_schemes then
    components' <- py_setitem components "securitySchemes" default_security_schemes ;;
    py_setitem spec "components" components'
  else Ok spec.

(** "Add tags for organization" *)
Definition add_tags (spec : json) : result json :=
  has_tags <- py_in "tags" spec ;;
  if negb has_tags then
    paths <- py_get spec "paths" (JDict []) ;;
    tags <- _generate_tags_from_paths paths ;;
    py_setitem spec "tags" tags
  else Ok spec.

(** "Enhance paths with examples" *)
Definition enhance_all_paths (spec : json) : result json :=
  paths <- py_get spec "paths" (JDict []) ;;
  path_items <- py_items paths ;;
  path_items' <- enhance_paths path_items ;;
  Ok (store_back "paths" (JDict path_items') spec).

Definition _enhance_openapi_spec (spec : json) : result json :=
  spec <- add_servers spec ;;
  spec <- enhance_info spec ;;
  spec <- add_security_schemes spec ;;
  spec <- add_tags spec ;;
  enhance_all_paths spec.

(** ** The builder *)

(** [_get_base_spec()] *)
Definition _get_base_spec : json :=
  JDict [("openapi", JStr "3.0.0");
         ("info",
          JDict [("title", JStr "API Documentation");
                 ("version", JStr "1.0.0");
                 ("description",
                  JStr "Comprehensive API documentation generated automatically")]);
         ("paths", JDict []);
         ("components",
          JDict [("schemas", JDict []); ("securitySchemes", JDict [])])].

(** ** Pattern-based route extraction *)

(** A route as [_extract_flask_routes] appends it: a dict with exactly the
    keys ['path'], ['methods'], ['function'] and ['docstring'], the last
    one holding a string or [None]. *)
Record Route : Type := {
  path : string;
  methods : list string;
  function : string;
  docstring : option string
}.

Definition dquote : ascii := "034"%char.
Definition squote : ascii := "'"%char.
Definition is_quote (c : ascii) : bool := (c =? squote)%char || (c =? dquote)%char.
Definition triple (c : ascii) : string := String c (String c (String c EmptyString)).
Definition newline : ascii := "010"%char.

(** The longest prefix of [s] made of characters in [p], and what follows:
    a greedy character class. *)
Fixpoint span (p : ascii -> bool) (s : string) : string * string :=
  match s with
  | EmptyString => (EmptyString, EmptyString)
  | String c t =>
      if p c then let (a, b) := span p t in (String c a, b)
      else (EmptyString, s)
  end.

(** [s] without its prefix [p], when it has it: a literal of a pattern. *)
Definition after (p s : string) : option string :=
  if prefix p s then Some (PyStr.drop_first (length p) s) else None.

(** [re.search(pattern, s)] for a pattern given by its match at the start
    of a string: the leftmost position that matches wins. *)
Section Search.
Variable G : Type.
Variable match_at : string -> option G.
Fixpoint re_search (s : string) : option G :=
  match match_at s with
  | Some g => Some g
  | None =>
      match s with
      | EmptyString => None
      | String _ t => re_search t
      end
  end.
End Search.

(** [route_pattern] at the start of [s]: the literal text up to the opening
    parenthesis, a quote, the path (one or more characters that are no
    quote, group 1), a quote, then either the closing parenthesis or a
    comma, white space, the literal that opens the method list, one or more
    characters other than a closing bracket (group 2), that bracket and the
    closing parenthesis.  Each character class is followed in the pattern
    by a character outside it, so the longest run is the only one that can
    lead to a match. *)
Definition route_match_at (s : string) : option (string * option string) :=
  match after "@app.route(" s with
  | Some (String q r2) =>
      if is_quote q then
        match span (fun c => negb (is_quote c)) r2 with
        | (String p ps, String _ r4) =>
            if prefix ")" r4 then Some (String p ps, None)
            else
              match after "," r4 with
              | Some r5 =>
                  match after "methods=[" (PyStr.lstrip PyStr.is_space r5) with
                  | Some r6 =>
                      match span (fun c => negb (c =? "]")%char) r6 with
                      | (String m ms, r7) =>
                          if prefix "])" r7 then Some (String p ps, Some (String m ms))
                          else None
                      | _ => None
                      end
                  | None => None
                  end
              | None => None
              end
        | _ => None
        end
      else None
  | _ => None
  end.

(** [func_pattern]: [def], white space, the name (group 1), an opening
    parenthesis, anything up to the first closing one, and a colon. *)
Definition func_match_at (s : string) : option string :=
  match after "def" s with
  | Some r1 =>
      match span PyStr.is_space r1 with
      | (String _ _, r2) =>
          match span PyStr.is_word r2 with
          | (String n ns, r3) =>
              match after "(" r3 with
              | Some r4 =>
                  if prefix "):" (snd (span (fun c => negb (c =? ")")%char) r4))
                  then Some (String n ns) else None
              | None => None
              end
          | _ => None
          end
      | _ => None
      end
  | None => None
  end.

(** The first loop of [_extract_docstring]: skip blank lines. *)
Fixpoint skip_blank (lines : list string) : list string :=
  match lines with
  | [] => []
  | raw :: rest =>
      if (PyStr.strip PyStr.is_space raw =? EmptyString) then skip_blank rest
      else lines
  end.

(** Its second loop: the lines of a docstring that spans several lines,
    up to and including the first one that ends with the quote. *)
Fixpoint docstring_tail (quote : string) (lines : list string) : list string :=
  match lines with
  | [] => []
  | raw :: rest =>
      let line := PyStr.strip PyStr.is_space raw in
      if PyStr.endswith quote line then [PyStr.drop_last 3 line]
      else line :: docstring_tail quote rest
  end.

(** [_extract_docstring(lines, start_line)] *)
Definition _extract_docstring (lines : list string) (start_line : nat) : option string :=
  match skip_blank (skipn start_line lines) with
  | [] => None
  | raw :: rest =>
      let line := PyStr.strip PyStr.is_space raw in
      if PyStr.startswith (triple dquote) line || PyStr.startswith (triple squote) line then
        let quote := substring 0 3 line in
        if PyStr.endswith quote line && (6 <? length line)%nat then
          Some (PyStr.strip PyStr.is_space (substring 3 (length line - 6) line))
        else
          Some (PyStr.strip PyStr.is_space
                  (PyStr.join (String newline EmptyString)
                     (PyStr.drop_first 3 line :: docstring_tail quote rest)))
      else None
  end.

(** [while j < len(lines) and not lines[j].strip().startswith('def'): j += 1]
    run on the lines from [j] on; the value of [j] after the loop. *)
Fixpoint find_def (from_j : list string) (j : nat) : nat :=
  match from_j with
  | [] => j
  | raw :: rest =>
      if PyStr.startswith "def" (PyStr.strip PyStr.is_space raw) then j
      else find_def rest (S j)
  end.

(** The body of the main loop of [_extract_flask_routes] at line [i],
    [after_i] being the lines that follow it. *)
Definition route_at (lines : list string) (i : nat) (raw : string) (after_i : list string)
  : list Route :=
  let line := PyStr.strip PyStr.is_space raw in
  match re_search route_match_at line with
  | Some (route_path, group2) =>
      let methods_str :=
        match group2 with
        | Some g => g
        | None => "'GET'"
        end in
      let route_methods := map (PyStr.strip is_quote) (PyStr.split "," methods_str) in
      let j := find_def after_i (S i) in
      match nth_error lines j with
      | Some def_line =>
          match re_search func_match_at def_line with
          | Some func_name =>
              [{| path := route_path;
                  methods := route_methods;
                  function := func_name;
                  docstring := _extract_docstring lines (S j) |}]
          | None => []
          end
      | None => []
      end
  | None => []
  end.

Fixpoint scan_routes (lines from_i : list string) (i : nat) : list Route :=
  match from_i with
  | [] => []
  | raw :: after_i => route_at lines i raw after_i ++ scan_routes lines after_i (S i)
  end.

(** [_extract_flask_routes(content)] *)
Definition _extract_flask_routes (content : string) : list Route :=
  let lines := PyStr.split newline content in
  scan_routes lines lines 0.

(** ** Route insertion *)

Definition object_schema_content : json :=
  JDict [("application/json", JDict [("schema", JDict [("type", JStr "object")])])].

(** [route.get('docstring', default)].  ['docstring'] is a key of every
    route, so [dict.get] returns what is stored under it, [None] included,
    and never the default. *)
Definition get_docstring (route : Route) (default : string) : option string :=
  docstring route.

(** [value.split('\n')[0]]: the first line of a string; [None] has no
    [split]. *)
Definition first_line (value : option string) : result string :=
  match value with
  | Some text => Ok (hd EmptyString (PyStr.split newline text))
  | None => Raise AttributeError
  end.

(** The truth value of a string or [None]: a non-empty string. *)
Definition truthy (value : option string) : bool :=
  match value with
  | Some (String _ _) => true
  | _ => false
  end.

(** The dict [operation] built in the loop of [_add_route_to_spec]. *)
Definition build_operation (route : Route) (method : string) : result json :=
  let method_lower := PyStr.lower method in
  summary <- first_line (get_docstring route (method ++ " " ++ path route)) ;;
  let operation :=
    [("summary", JStr summary);
     ("operationId", JStr (method_lower ++ "_" ++ function route));
     ("responses",
      JDict [("200", JDict [("description", JStr "Successful response");
                            ("content", object_schema_content)])])] in
  let operation :=
    if truthy (get_docstring route EmptyString) then
      match docstring route with
      | Some text => dict_set "description" (JStr text) operation
      | None => operation
      end
    else operation in
  let operation :=
    if existsb (String.eqb method_lower) ["post"; "put"; "patch"] then
      dict_set "requestBody" (JDict [("content", object_schema_content)]) operation
    else operation in
  Ok (JDict operation).

(** [spec['paths'][path][key] = value] *)
Definition set_in_path (spec : json) (route_path key : string) (value : json)
  : result json :=
  paths <- py_getitem spec "paths" ;;
  entry <- py_getitem paths route_path ;;
  entry' <- py_setitem entry key value ;;
  paths' <- py_setitem paths route_path entry' ;;
  py_setitem spec "paths" paths'.

(** The loop [for method in route['methods']]: the specification it leaves
    and how it ended. *)
Fixpoint add_methods (spec : json) (route : Route) (todo : list string)
  : json * result unit :=
  match todo with
  | [] => (spec, Ok tt)
  | method :: rest =>
      match (operation <- build_operation route method ;;
             set_in_path spec (path route) (PyStr.lower method) operation) with
      | Ok spec' => add_methods spec' route rest
      | Raise e => (spec, Raise e)
      end
  end.

(** [_add_route_to_spec(spec, route)]: the specification the call leaves,
    also when it raises, and its outcome. *)
Definition _add_route_to_spec (spec : json) (route : Route) : json * result unit :=
  match (paths <- py_getitem spec "paths" ;;
         known <- py_in (path route) paths ;;
         if negb known then
           paths' <- py_setitem paths (path route) (JDict []) ;;
           py_setitem spec "paths" paths'
         else Ok spec) with
  | Ok spec' => add_methods spec' route (methods route)
  | Raise e => (spec, Raise e)
  end.

(** The loop [for route in routes: self._add_route_to_spec(spec, route)],
    left at the first exception. *)
Fixpoint add_routes (spec : json) (routes : list Route) : json * result unit :=
  match routes with
  | [] => (spec, Ok tt)
  | route :: rest =>
      match _add_route_to_spec spec route with
      | (spec', Ok _) => add_routes spec' rest
      | (spec', Raise e) => (spec', Raise e)
      end
  end.

(** [_analyze_flask_routes()] over the files [rglob("*.py")] yields, each
    given by what [read_text()] does on it.  The [try] around the body of
    the loop turns any exception into [continue]. *)
Fixpoint analyze_files (spec : json) (py_files : list (result string)) : json :=
  match py_files with
  | [] => spec
  | Raise _ :: rest => analyze_files spec rest
  | Ok content :: rest =>
      analyze_files (fst (add_routes spec (_extract_flask_routes content))) rest
  end.

Definition _analyze_flask_routes (py_files : list (result string)) : json :=
  analyze_files _get_base_spec py_files.

(** ** Framework detection *)

(** What [detect_framework] reads: the three manifests in the order of
    [requirements_files], each absent ([None]) or given by what
    [read_text()] does on it, and the Python files in [rglob] order. *)
Record Project : Type := {
  requirements_files : list (option (result string));
  py_files : list (result string)
}.

(** The chain of tests on the lower-cased text of a manifest; [None] when
    the loop goes on to the next manifest. *)
Definition manifest_framework (content : string) : option string :=
  if PyStr.contains "fastapi" content then Some "fastapi"
  else if PyStr.contains "flask-restx" content then Some "flask-restx"
  else if PyStr.contains "djangorestframework" content then Some "django-drf"
  else if PyStr.contains "flask" content then Some "flask"
  else None.

(** The chain of tests on the text of a Python file. *)
Definition import_framework (content : string) : option string :=
  if PyStr.contains "from fastapi import" content || PyStr.contains "import fastapi" content
  then Some "fastapi"
  else if PyStr.contains "from flask_restx import" content then Some "flask-restx"
  else if PyStr.contains "from rest_framework" content then Some "django-drf"
  else if PyStr.contains "from flask import" content then Some "flask"
  else None.

(** The second loop, with its [try: ... except: continue]. *)
Fixpoint scan_py_files (files : list (result string)) : string :=
  match files with
  | [] => "unknown"
  | Raise _ :: rest => scan_py_files rest
  | Ok content :: rest =>
      match import_framework content with
      | Some framework => framework
      | None => scan_py_files rest
      end
  end.

(** The first loop; nothing catches what [read_text()] raises here. *)
Fixpoint scan_requirements (files : list (option (result string))) (sources : list (result string))
  : result string :=
  match files with
  | [] => Ok (scan_py_files sources)
  | None :: rest => scan_requirements rest sources
  | Some (Raise e) :: _ => Raise e
  | Some (Ok text) :: rest =>
      match manifest_framework (PyStr.lower text) with
      | Some framework => Ok framework
      | None => scan_requirements rest sources
      end
  end.

(** [detect_framework()] *)
Definition detect_framework (project : Project) : result string :=
  scan_requirements (requirements_files project) (py_files project).

(** The five names [detect_framework] can return. *)
Definition framework_kinds : list string :=
  ["fastapi"; "flask-restx"; "django-drf"; "flask"; "unknown"].

(** A manifest that is absent or can be read. *)
Definition readable (file : option (result string)) : Prop :=
  forall e, file <> Some (Raise e).

(** ** The name heuristics as ordered tables

    The reading of the heuristics the properties below compare the code
    with: a list of (keyword, canned value) pairs tried from the top on the
    lower-cased field name, the first keyword it contains winning. *)

Definition first_match (table : list (string * json)) (lowered : string) : option json :=
  option_map snd (find (fun entry => PyStr.contains (fst entry) lowered) table).

Definition heuristics (field_type : string) : list (string * json) :=
  if field_type =? "string" then
    [("password", JStr "SecurePassword123!");
     ("email", JStr "user@example.com");
     ("name", JStr "John Doe");
     ("title", JStr "Example Title");
     ("description", JStr "This is an example description")]
  else if field_type =? "integer" then
    [("age", JInt 25); ("count", JInt 10); ("port", JInt 8080)]
  else if field_type =? "number" then
    [("price", JFloat 1999 (-2)); ("percentage", JFloat 755 (-1))]
  else [].

(** The id rule: it looks at the field name as given. *)
Definition id_like (field_name : string) : bool :=
  PyStr.endswith "_id" field_name || (field_name =? "id").

(** What a field gets when no keyword of its table matches. *)
Definition fallback (field_type field_name : string) : json :=
  if field_type =? "string" then
    if id_like field_name then JStr "abc123" else JStr ("example_" ++ field_name)
  else if field_type =? "integer" then
    if id_like field_name then JInt 123 else JInt 42
  else JFloat 314 (-2).

(** ** Finding the FastAPI application *)







(** ** Method names of the Python client *)

(** The truth value of a JSON value. *)
Definition py_truthy (v : json) : bool :=
  match v with
  | JNull => false
  | JBool b => b
  | JInt z => negb (z =? 0)%Z
  | JFloat mantissa _ => negb (mantissa =? 0)%Z
  | JStr s => negb (s =? EmptyString)
  | JList l => match l with [] => false | _ :: _ => true end
  | JDict d => match d with [] => false | _ :: _ => true end
  end.

(** An underscore before every capital letter of [s]. *)
Fixpoint underscore_capitals (s : string) : string :=
  match s with
  | EmptyString => EmptyString
  | String c t =>
      if PyStr.is_upper c then String "_" (String c (underscore_capitals t))
      else String c (underscore_capitals t)
  end.

(** [re.sub(r'(?<!^)(?=[A-Z])', '_', s)]: an underscore before every
    capital letter that is not the first character. *)
Definition snake (s : string) : string :=
  match s with
  | EmptyString => EmptyString
  | String c t => String c (underscore_capitals t)
  end.

(** [re.sub(r'[^a-zA-Z0-9_]', '_', s)] *)
Fixpoint clean (s : string) : string :=
  match s with
  | EmptyString => EmptyString
  | String c t => String (if PyStr.is_word c then c else "_"%char) (clean t)
  end.

(** [re.sub(r'_+', '_', s)]: every run of underscores becomes one. *)
Fixpoint squeeze (s : string) : string :=
  match s with
  | EmptyString => EmptyString
  | String c t =>
      match t with
      | String c' _ =>
          if (c =? "_")%char && (c' =? "_")%char then squeeze t
          else String c (squeeze t)
      | EmptyString => String c EmptyString
      end
  end.

(** [[part for part in path.split('/') if part and not part.startswith('{')]] *)
Definition path_parts (route_path : string) : list string :=
  filter (fun part => negb (part =? EmptyString) && negb (PyStr.startswith "{" part))
         (PyStr.split "/" route_path).

(** [_generate_python_method_name(path, method, operation)] *)
Definition _generate_python_method_name (route_path method : string) (operation : json)
  : result string :=
  operation_id <- py_get operation "operationId" JNull ;;
  if py_truthy operation_id then
    match operation_id with
    | JStr s => Ok (PyStr.lower (snake s))
    | _ => Raise TypeError
    end
  else
    let method_name :=
      PyStr.lower method ++ "_" ++ PyStr.join "_" (path_parts route_path) in
    let method_name := clean method_name in
    let method_name := squeeze method_name in
    Ok (PyStr.strip (PyStr.one_of "_") method_name).

(** Two underscores in a row somewhere in [s]. *)
Fixpoint has_run (s : string) : bool :=
  match s with
  | EmptyString => false
  | String c t =>
      match t with
      | String c' _ => ((c =? "_")%char && (c' =? "_")%char) || has_run t
      | EmptyString => false
      end
  end.


(** ** Projections of a specification used to state properties *)

(** [spec['components']['securitySchemes']], when both keys are there. *)
Definition security_schemes (spec : json) : option json :=
  match spec with
  | JDict d =>
      match dict_get "components" d with
      | Some (JDict c) => dict_get "securitySchemes" c
      | _ => None
      end
  | _ => None
  end.

(** [scheme_map] holds the two default entries. *)
Definition has_default_schemes (scheme_map : json) : Prop :=
  exists m, scheme_map = JDict m
            /\ dict_get "bearerAuth" m = Some bearerAuth
            /\ dict_get "apiKey" m = Some apiKey.

(** [spec['info']], when it is a dict. *)
Definition info_of (spec : json) : option dict :=
  match spec with
  | JDict d =>
      match dict_get "info" d with
      | Some (JDict i) => Some i
      | _ => None
      end
  | _ => None
  end.

(** [spec['paths'][path][method]] *)
Definition operation_at (spec : json) (route_path method : string) : option json :=
  match spec with
  | JDict d =>
      match dict_get "paths" d with
      | Some (JDict ps) =>
          match dict_get route_path ps with
          | Some (JDict ms) => dict_get method ms
          | _ => None
          end
      | _ => None
      end
  | _ => None
  end.

(** [d'] differs from [d] at most under the key [k]. *)
Definition same_except (k : string) (d d' : dict) : Prop :=
  forall k', k' <> k -> dict_get k' d' = dict_get k' d.

(** ** Well-formed specifications

    The shape of the documents enrichment is meant for, as checks that
    compute: every mapping the pass walks through is a dict and every schema
    it synthesises from is one the synthesis accepts. *)

(** The schemas [_create_example_value] accepts. *)
Fixpoint schema_ok (schema : json) : bool :=
  match schema with
  | JDict d =>
      dict_has "example" d
      || (let field_type :=
            match dict_get "type" d with Some t => t | None => JStr "string" end in
          if py_is_str field_type "array" then
            dict_case "items" true (fun item_schema => schema_ok item_schema) d
          else if py_is_str field_type "object" then
            dict_case "properties" true
              (fun properties =>
                 match properties with
                 | JDict items => forallb (fun entry => schema_ok (snd entry)) items
                 | _ => false
                 end) d
          else true)
  | _ => false
  end.

(** The schemas [_create_example_from_schema] accepts. *)
Definition top_schema_ok (schema : json) : bool :=
  match schema with
  | JDict d =>
      let schema_type := match dict_get "type" d with Some t => t | None => JNull end in
      if py_is_str schema_type "object" then
        match dict_get "properties" d with
        | None => true
        | Some (JDict items) => forallb (fun entry => schema_ok (snd entry)) items
        | Some _ => false
        end
      else if py_is_str schema_type "array" then
        match dict_get "items" d with
        | None => true
        | Some item_schema => schema_ok item_schema
        end
      else schema_ok schema
  | _ => false
  end.

Definition hashable (v : json) : bool :=
  match v with
  | JList _ | JDict _ => false
  | _ => true
  end.

(** The values of ['required'] the minimal example can iterate. *)
Definition required_ok (required_fields : json) : bool :=
  match required_fields with
  | JList l => forallb hashable l
  | JDict _ | JStr _ => true
  | _ => false
  end.

(** The schemas [_generate_examples_from_schema] accepts. *)
Definition request_schema_ok (schema : json) : bool :=
  match schema with
  | JDict d =>
      let schema_type := match dict_get "type" d with Some t => t | None => JNull end in
      if py_is_str schema_type "object" then
        top_schema_ok schema
        && match dict_get "required" d with
           | None => true
           | Some required_fields => required_ok required_fields
           end
      else true
  | _ => false
  end.

(** The schemas [_generate_response_examples] accepts for a status code. *)
Definition response_schema_ok (status_code : string) (schema : json) : bool :=
  if PyStr.startswith "2" status_code then top_schema_ok schema else true.

Definition content_ok (accepts : json -> bool) (content : json) : bool :=
  match content with
  | JDict c =>
      match dict_get "schema" c with
      | None => true
      | Some schema => dict_has "examples" c || accepts schema
      end
  | _ => false
  end.

(** A request body or a response: a dict whose ['content'], if any, maps
    content types to contents. *)
Definition holder_ok (accepts : json -> bool) (holder : json) : bool :=
  match holder with
  | JDict h =>
      match dict_get "content" h with
      | None => true
      | Some (JDict items) => forallb (fun entry => content_ok accepts (snd entry)) items
      | Some _ => false
      end
  | _ => false
  end.

Definition operation_ok (operation : json) : bool :=
  match operation with
  | JDict o =>
      match dict_get "requestBody" o with
      | None => true
      | Some request_body => holder_ok request_schema_ok request_body
      end
      && match dict_get "responses" o with
         | None => true
         | Some (JDict responses) =>
             forallb (fun entry => holder_ok (response_schema_ok (fst entry)) (snd entry))
                     responses
         | Some _ => false
         end
  | _ => false
  end.

Definition methods_ok (methods : json) : bool :=
  match methods with
  | JDict operations => forallb (fun entry => operation_ok (snd entry)) operations
  | _ => false
  end.

Definition is_dict (v : json) : bool :=
  match v with
  | JDict _ => true
  | _ => false
  end.

Definition absent_or {A : Type} (check : A -> bool) (v : option A) : bool :=
  match v with
  | None => true
  | Some a => check a
  end.

(** A specification enrichment returns on. *)
Definition spec_ok (spec : json) : bool :=
  match spec with
  | JDict d =>
      absent_or is_dict (dict_get "info" d)
      && absent_or is_dict (dict_get "components" d)
      && absent_or (fun paths =>
                      match paths with
                      | JDict path_items =>
                          forallb (fun entry => methods_ok (snd entry)) path_items
                      | _ => false
                      end)
                   (dict_get "paths" d)
  | _ => false
  end.

(** ** Vocabulary of the further properties *)

(** The effective type of a schema: [schema.get('type', 'string')]. *)
Definition declared_type (d : dict) : json :=
  match dict_get "type" d with
  | Some t => t
  | None => JStr "string"
  end.

(** A value is of the JSON kind a type name stands for; an array example
    holds exactly one element and a boolean example is [True]. *)
Definition has_kind (field_type : string) (v : json) : bool :=
  match v with
  | JStr _ => field_type =? "string"
  | JInt _ => field_type =? "integer"
  | JFloat _ _ => field_type =? "number"
  | JBool b => (field_type =? "boolean") && b
  | JList l => (field_type =? "array") && (List.length l =? 1)%nat
  | JDict _ => field_type =? "object"
  | JNull => false
  end.


(** The top-level keys enrichment writes to. *)
Definition enriched_keys : list string :=
  ["servers"; "info"; "components"; "tags"; "paths"].

(** The contents of a request body or a response, by content type:
    [holder['content']] when that is a dict. *)
Definition contents_of (holder : json) : dict :=
  match holder with
  | JDict h =>
      match dict_get "content" h with
      | Some (JDict items) => items
      | _ => []
      end
  | _ => []
  end.

(** The responses of an operation, by status code. *)
Definition responses_of (operation : json) : dict :=
  match operation with
  | JDict o =>
      match dict_get "responses" o with
      | Some (JDict items) => items
      | _ => []
      end
  | _ => []
  end.

(** [content'] is [content], or [content] with an ['examples'] entry it
    did not have put after its other entries. *)
Definition adds_examples (content content' : json) : Prop :=
  content' = content
  \/ exists c examples,
       content = JDict c
       /\ dict_has "schema" c = true
       /\ dict_get "examples" c = None
       /\ content' = JDict (c ++ [("examples", examples)]).

(** A content that has a schema has examples. *)
Definition content_complete (content : json) : Prop :=
  py_in "schema" content = Ok true -> py_in "examples" content = Ok true.


(** The request body of an operation ([None]) or its response for a status
    code ([Some code]). *)
Definition holder_at (operation : json) (position : option string) : option json :=
  match position with
  | None =>
      match operation with
      | JDict o => dict_get "requestBody" o
      | _ => None
      end
  | Some status_code => dict_get status_code (responses_of operation)
  end.


(** Every character of [s] satisfies [p]. *)
Definition all_chars (p : ascii -> bool) (s : string) : bool :=
  forallb p (list_ascii_of_string s).


(** [spec.get(k)] on a specification that is a dict. *)
Definition top_level (spec : json) (k : string) : option json :=
  match spec with
  | JDict d => dict_get k d
  | _ => None
  end.

(** Every operation of [spec] is the one [_add_route_to_spec] builds for a
    method of a route in [known], and sits under that route's path and the
    lower-cased method. *)
Definition built_from (known : Route -> Prop) (spec : json) : Prop :=
  forall p k op,
    operation_at spec p k = Some op ->
    exists route method,
      known route
      /\ In method (methods route)
      /\ p = path route
      /\ k = PyStr.lower method
      /\ build_operation route method = Ok op.


(** [s] without its underscores. *)
Fixpoint without_underscores (s : string) : string :=
  match s with
  | EmptyString => EmptyString
  | String c t =>
      if (c =? "_")%char then without_underscores t
      else String c (without_underscores t)
  end.

(** No capital letter in [s]. *)
Definition no_capital (s : string) : bool :=
  all_chars (fun c => negb (PyStr.is_upper c)) s.


(** ** Sample inputs *)

Definition object_schema_with_example : json :=
  JDict [("type", JStr "object");
         ("properties", JDict [("id", JDict [("type", JStr "integer")])]);
         ("example", JDict [("id", JInt 7)])].

Definition array_schema_with_example : json :=
  JDict [("type", JStr "array");
         ("items", JDict [("type", JStr "integer")]);
         ("example", JList [JInt 1; JInt 2; JInt 3])].

Definition integer_schema : json := JDict [("type", JStr "integer")].

(** The object schema of the example-synthesis test of the specification. *)
Definition account_schema : json :=
  JDict [("type", JStr "object");
         ("properties",
          JDict [("email", JDict [("type", JStr "string")]);
                 ("age", JDict [("type", JStr "integer")]);
                 ("active", JDict [("type", JStr "boolean")])])].

Definition four_paths : json :=
  JDict [("/users", JDict []); ("/api/orders", JDict []);
         ("/api", JDict []); ("/health", JDict [])].


(** A specification as introspection may hand it over: it has its own
    contact entry in [info] and one operation. *)
Definition shop_info : dict :=
  [("title", JStr "Shop");
   ("contact", JDict [("name", JStr "Shop Team")]);
   ("version", JStr "2.1")].

Definition shop_fields : dict :=
  [("openapi", JStr "3.0.0");
   ("info", JDict shop_info);
   ("paths",
    JDict [("/api/orders",
            JDict [("post",
                    JDict [("operationId", JStr "create_order");
                           ("requestBody",
                            JDict [("content",
                                    JDict [("application/json",
                                            JDict [("schema", account_schema)])])]);
                           ("responses",
                            JDict [("201",
                                    JDict [("description", JStr "Created");
                                           ("content",
                                            JDict [("application/json",
                                                    JDict [("schema", integer_schema)])])]);
                                   ("422",
                                    JDict [("description", JStr "Invalid");
                                           ("content",
                                            JDict [("application/json",
                                                    JDict [("schema", integer_schema)])])])])])])])].

Definition shop_spec : json := JDict shop_fields.

(** The same with security schemes of its own. *)
Definition secured_spec : json :=
  JDict [("info", JDict [("title", JStr "Shop")]);
         ("components",
          JDict [("securitySchemes",
                  JDict [("oauth", JDict [("type", JStr "oauth2")])])])].


(** A Flask module with one route whose handler has no docstring. *)
Definition users_source : string :=
  PyStr.join (String newline EmptyString)
    ["from flask import Flask, jsonify";
     "app = Flask(__name__)";
     "@app.route('/users')";
     "def list_users():";
     "    return jsonify([])"].

Definition users_route : Route :=
  {| path := "/users"; methods := ["GET"]; function := "list_users"; docstring := None |}.

(** The same handler with a docstring. *)
Definition documented_source : string :=
  PyStr.join (String newline EmptyString)
    ["@app.route('/users')";
     "def list_users():";
     "    " ++ triple dquote ++ "List the users." ++ triple dquote;
     "    return jsonify([])"].

(** The base specification with the empty entry [_add_route_to_spec] makes
    for ['/users'] before it builds any operation. *)
Definition base_spec_with_empty_users : json :=
  JDict [("openapi", JStr "3.0.0");
         ("info",
          JDict [("title", JStr "API Documentation");
                 ("version", JStr "1.0.0");
                 ("description",
                  JStr "Comprehensive API documentation generated automatically")]);
         ("paths", JDict [("/users", JDict [])]);
         ("components",
          JDict [("schemas", JDict []); ("securitySchemes", JDict [])])].

(** A project whose [requirements.txt] exists and is no valid text. *)
Definition undecodable_manifest : Project :=
  {| requirements_files := [Some (Raise UnicodeDecodeError); None; None];
     py_files := [Ok "from flask import Flask"] |}.

(** A project without manifest whose first Python file is no valid text. *)
Definition undecodable_source : Project :=
  {| requirements_files := [None; None; None];
     py_files := [Raise UnicodeDecodeError; Ok "from flask import Flask"] |}.


(** A handler with two methods and a docstring over several lines. *)
Definition orders_source : string :=
  PyStr.join (String newline EmptyString)
    ["@app.route('/orders', methods=['GET','POST'])";
     "def orders():";
     "";
     "    " ++ triple squote;
     "    List or create orders.";
     "";
     "    Returns JSON.";
     "    " ++ triple squote;
     "    return jsonify([])"].


(** An object schema that requires one of its two properties and a name it
    does not declare. *)
Definition profile_properties : dict :=
  [("name", JDict [("type", JStr "string")]);
   ("email", JDict [("type", JStr "string")])].

Definition profile_fields : dict :=
  [("type", JStr "object");
   ("required", JList [JStr "name"; JStr "nickname"]);
   ("properties", JDict profile_properties)].


(** An operation with a request body that has a schema and no examples and
    a response whose content has examples already. *)
Definition upload_body : json :=
  JDict [("content",
          JDict [("application/json", JDict [("schema", account_schema)])])].

Definition upload_response : json :=
  JDict [("description", JStr "Stored");
         ("content",
          JDict [("application/json",
                  JDict [("schema", integer_schema);
                         ("examples", JDict [("stored", JDict [("value", JInt 7)])])])])].

Definition upload_operation : json :=
  JDict [("operationId", JStr "upload");
         ("requestBody", upload_body);
         ("responses", JDict [("200", upload_response)])].


(** The route [_extract_flask_routes] yields on [orders_source]. *)
Definition orders_route : Route :=
  {| path := "/orders";
     methods := ["GET"; "POST"];
     function := "orders";
     docstring :=
       Some (PyStr.join (String newline EmptyString)
               ["List or create orders."; EmptyString; "Returns JSON."]) |}.




(** * Properties *)

(** ** Python string methods on sample inputs *)

Example lower_mixed : PyStr.lower "User_ID" = "user_id".
Proof. reflexivity. Qed.

Example title_words : PyStr.title "api-keys v2x" = "Api-Keys V2X".
Proof. reflexivity. Qed.

Example strip_split_path :
  PyStr.split "/" (PyStr.strip (PyStr.one_of "/") "/api/orders/") = ["api"; "orders"].
Proof. reflexivity. Qed.

Example split_empty : PyStr.split "/" EmptyString = [EmptyString].
Proof. reflexivity. Qed.

Example endswith_id :
  PyStr.endswith "_id" "user_id" = true /\ PyStr.endswith "_id" "id" = false.
Proof. split; reflexivity. Qed.

(** ** Dictionaries *)

Section DictFacts.
Variable V : Type.
Implicit Types (d : list (string * V)) (k : string) (v : V).

Lemma dict_get_set_same k v d : dict_get k (dict_set k v d) = Some v.
Proof.
  induction d as [|[k' v'] d IH]; simpl.
  - now rewrite String.eqb_refl.
  - destruct (k' =? k) eqn:E; simpl.
    + now rewrite String.eqb_refl.
    + now rewrite E.
Qed.

Lemma dict_get_set_other k k' v d :
  k' <> k -> dict_get k (dict_set k' v d) = dict_get k d.
Proof.
  intros Hne. induction d as [|[k0 v0] d IH]; simpl.
  - apply String.eqb_neq in Hne. now rewrite Hne.
  - destruct (k0 =? k') eqn:E; simpl.
    + apply String.eqb_eq in E. subst k0.
      apply String.eqb_neq in Hne. now rewrite Hne.
    + now rewrite IH.
Qed.

(** Storing the value a key already has changes nothing. *)
Lemma dict_set_same k v d : dict_get k d = Some v -> dict_set k v d = d.
Proof.
  induction d as [|[k' v'] d IH]; simpl; [discriminate|].
  destruct (k' =? k) eqn:E.
  - intros [= ->]. apply String.eqb_eq in E. now subst.
  - intros H. now rewrite IH.
Qed.

Lemma dict_has_set_same k v d : dict_has k (dict_set k v d) = true.
Proof. unfold dict_has. now rewrite dict_get_set_same. Qed.

Lemma dict_has_set_other k k' v d :
  k' <> k -> dict_has k (dict_set k' v d) = dict_has k d.
Proof. intros. unfold dict_has. now rewrite dict_get_set_other. Qed.

Lemma dict_has_true k d : dict_has k d = true -> exists v, dict_get k d = Some v.
Proof. unfold dict_has. destruct (dict_get k d); [eauto | discriminate]. Qed.

Lemma dict_has_false k d : dict_has k d = false -> dict_get k d = None.
Proof. unfold dict_has. destruct (dict_get k d); [discriminate | reflexivity]. Qed.

End DictFacts.

Lemma dict_case_get (V R : Type) (k : string) (absent : R) (present : V -> R) d :
  dict_case k absent present d =
  match dict_get k d with
  | Some v => present v
  | None => absent
  end.
Proof.
  induction d as [|[k' v] d IH]; simpl; [reflexivity|].
  now destruct (k' =? k).
Qed.

Lemma py_is_str_true v s : py_is_str v s = true -> v = JStr s.
Proof.
  destruct v; simpl; try discriminate.
  intros H. apply String.eqb_eq in H. now subst.
Qed.

(** ** Example synthesis *)

(** The body of [_create_example_value] in the shape of the source. *)
Lemma _create_example_value_unfold field_name schema :
  _create_example_value field_name schema =
  (field_type <- py_get schema "type" (JStr "string") ;;
   format_type <- py_get schema "format" JNull ;;
   has_example <- py_in "example" schema ;;
   if (has_example : bool) then py_getitem schema "example"
   else if py_is_str field_type "string" then Ok (string_example field_name format_type)
   else if py_is_str field_type "integer" then Ok (integer_example field_name)
   else if py_is_str field_type "number" then Ok (number_example field_name)
   else if py_is_str field_type "boolean" then Ok (JBool true)
   else if py_is_str field_type "array" then
     item_schema <- py_get schema "items" default_items ;;
     item <- _create_example_value "item" item_schema ;;
     Ok (JList [item])
   else if py_is_str field_type "object" then _create_example_from_schema schema
   else Ok JNull).
Proof.
  destruct schema as [| | | | | |d]; try reflexivity.
  cbn [_create_example_value py_get py_in py_getitem bind].
  unfold dict_has.
  destruct (dict_get "type" d) as [t|] eqn:Ht;
    destruct (dict_get "format" d) as [f|] eqn:Hf;
    destruct (dict_get "example" d) as [ex|] eqn:Hex;
    cbn [bind]; try reflexivity.
  all: repeat match goal with
         | |- (if ?c then _ else _) = (if ?c then _ else _) =>
             destruct c eqn:?; [try reflexivity | ]
         end; try reflexivity.
  all: try (rewrite dict_case_get; unfold default_items;
            destruct (dict_get "items" d); cbn; reflexivity).
  all: try (rewrite dict_case_get; unfold _create_example_from_schema;
            cbn [py_get bind]; rewrite Ht;
            match goal with
            | H : py_is_str ?t "object" = true |- _ =>
                apply py_is_str_true in H; subst; cbn
            end;
            destruct (dict_get "properties" d) as [[]|]; reflexivity).
Qed.

(** An ['example'] key decides [_create_example_value] before the type and
    the field name are looked at. *)
Lemma example_key_wins_in_value field_name d example :
  dict_get "example" d = Some example ->
  _create_example_value field_name (JDict d) = Ok example.
Proof.
  intros H. cbn [_create_example_value]. now rewrite H.
Qed.

(** [_create_example_from_schema] hands a schema that is neither an object
    nor an array to [_create_example_value], so the key decides there too. *)
Lemma example_key_wins_outside_object_and_array d example :
  dict_get "example" d = Some example ->
  (forall t, dict_get "type" d = Some t ->
             py_is_str t "object" = false /\ py_is_str t "array" = false) ->
  _create_example_from_schema (JDict d) = Ok example.
Proof.
  intros Hex Ht. unfold _create_example_from_schema. cbn [py_get bind].
  destruct (dict_get "type" d) as [t|] eqn:E; cbn [bind].
  - destruct (Ht t eq_refl) as [-> ->]. now apply example_key_wins_in_value.
  - cbn. now apply example_key_wins_in_value.
Qed.

(** C6, at an object schema and an array schema that carry their own
    ['example']: as the schema of a field [_create_example_value] returns the
    example verbatim, while [_create_example_from_schema], and through it the
    response examples, builds a value from the properties or the items and
    drops the example. *)
Theorem C6_top_level_example_is_dropped :
  _create_example_value "payload" object_schema_with_example
    = Ok (JDict [("id", JInt 7)])
  /\ _create_example_from_schema object_schema_with_example
    = Ok (JDict [("id", JInt 123)])
  /\ _create_example_value "payload" array_schema_with_example
    = Ok (JList [JInt 1; JInt 2; JInt 3])
  /\ _create_example_from_schema array_schema_with_example
    = Ok (JList [JInt 42])
  /\ _generate_response_examples "200" object_schema_with_example
    = Ok (JDict [("success",
                  JDict [("summary", JStr "Successful response");
                         ("value", JDict [("id", JInt 123)])])]).
Proof. repeat split; reflexivity. Qed.

(** C7, as stated, fails: ["ID"] and ["id"] have the same lower-cased name
    and so have ["order_ID"] and ["order_id"], yet only the lower-case
    spellings get the id placeholder 123. *)
Lemma C7_id_rule_reads_the_name_as_given :
  PyStr.lower "ID" = PyStr.lower "id"
  /\ _create_example_value "id" integer_schema = Ok (JInt 123)
  /\ _create_example_value "ID" integer_schema = Ok (JInt 42)
  /\ PyStr.lower "order_ID" = PyStr.lower "order_id"
  /\ _create_example_value "order_id" integer_schema = Ok (JInt 123)
  /\ _create_example_value "order_ID" integer_schema = Ok (JInt 42).
Proof. repeat split; reflexivity. Qed.

(** C7, amended: for a string, integer or number schema without example
    (and, for a string, without one of the four formats that come first),
    the keyword rules are tried in table order on the lower-cased field name
    and the first that matches gives the value; only when none matches is
    the name as given looked at, by the id rule and the string default. *)
Theorem C7_keyword_rules_read_the_lowered_name :
  forall field_name field_type d,
    dict_get "example" d = None ->
    match dict_get "type" d with Some t => t | None => JStr "string" end
      = JStr field_type ->
    In field_type ["string"; "integer"; "number"] ->
    (field_type = "string" ->
     forall format_type, dict_get "format" d = Some format_type ->
       ~ In format_type [JStr "email"; JStr "date"; JStr "date-time"; JStr "uri"]) ->
    _create_example_value field_name (JDict d) =
    Ok (match first_match (heuristics field_type) (PyStr.lower field_name) with
        | Some canned => canned
        | None => fallback field_type field_name
        end).
Proof.
  intros field_name field_type d Hex Hty Hin Hfmt.
  cbn [_create_example_value]. rewrite Hex, Hty.
  destruct Hin as [<-|[<-|[<-|[]]]]; cbn [py_is_str String.eqb Ascii.eqb Bool.eqb].
  - f_equal.
    assert (Hno : forall s, In (JStr s) [JStr "email"; JStr "date"; JStr "date-time"; JStr "uri"] ->
                  py_is_str match dict_get "format" d with
                            | Some f => f
                            | None => JNull
                            end s = false).
    { intros s Hs. destruct (dict_get "format" d) as [f|] eqn:Ef; [|reflexivity].
      destruct (py_is_str f s) eqn:E; [|reflexivity].
      apply py_is_str_true in E. subst f. now destruct (Hfmt eq_refl _ eq_refl). }
    unfold string_example, first_match, heuristics, fallback, id_like.
    rewrite !Hno by (simpl; tauto).
    cbn [String.eqb Ascii.eqb Bool.eqb find fst snd option_map].
    repeat (destruct (PyStr.contains _ (PyStr.lower field_name)); [reflexivity|]).
    reflexivity.
  - f_equal.
    unfold integer_example, first_match, heuristics, fallback, id_like.
    cbn [String.eqb Ascii.eqb Bool.eqb find fst snd option_map].
    repeat (destruct (PyStr.contains _ (PyStr.lower field_name)); [reflexivity|]).
    reflexivity.
  - f_equal.
    unfold number_example, first_match, heuristics, fallback.
    cbn [String.eqb Ascii.eqb Bool.eqb find fst snd option_map].
    repeat (destruct (PyStr.contains _ (PyStr.lower field_name)); [reflexivity|]).
    reflexivity.
Qed.

Lemma C7_keyword_rules_witness :
  _create_example_value "Item_COUNT" integer_schema = Ok (JInt 10)
  /\ _create_example_value "userEmail" (JDict [("format", JStr "binary")])
     = Ok (JStr "user@example.com").
Proof.
  split.
  - unfold integer_schema.
    rewrite (@C7_keyword_rules_read_the_lowered_name
               "Item_COUNT" "integer" [("type", JStr "integer")]).
    + reflexivity.
    + reflexivity.
    + reflexivity.
    + simpl; auto.
    + discriminate.
  - rewrite (@C7_keyword_rules_read_the_lowered_name
               "userEmail" "string" [("format", JStr "binary")]).
    + reflexivity.
    + reflexivity.
    + reflexivity.
    + simpl; auto.
    + intros _ format_type [= <-] Hin. simpl in Hin.
      repeat (destruct Hin as [Hin|Hin]; [discriminate|]). exact Hin.
Defined.

(** C9: the object schema with a string [email], an integer [age] and a
    boolean [active] synthesises to exactly
    [{"email": "user@example.com", "age": 25, "active": true}]; the email and
    age keywords fire, so neither the string default nor the integer default
    42 is used, and a boolean schema without example gives [True] whatever
    the field is called. *)
Theorem C9_account_example :
  _create_example_from_schema account_schema
    = Ok (JDict [("email", JStr "user@example.com");
                 ("age", JInt 25);
                 ("active", JBool true)])
  /\ _create_example_value "email" (JDict [("type", JStr "string")])
       <> Ok (JStr "example_email")
  /\ _create_example_value "age" integer_schema <> Ok (JInt 42)
  /\ (forall field_name d,
        dict_get "example" d = None ->
        dict_get "type" d = Some (JStr "boolean") ->
        _create_example_value field_name (JDict d) = Ok (JBool true)).
Proof.
  split; [reflexivity|].
  split; [discriminate|].
  split; [discriminate|].
  intros field_name d Hex Hty.
  cbn [_create_example_value]. now rewrite Hex, Hty.
Qed.

Lemma C9_account_example_witness :
  _create_example_value "active" (JDict [("type", JStr "boolean")]) = Ok (JBool true).
Proof.
  apply (proj2 (proj2 (proj2 C9_account_example))); reflexivity.
Defined.

(** C10: a schema without example whose ['type'] is none of the six
    recognised names falls through every branch and yields [None]. *)
Theorem C10_unrecognised_type_gives_null :
  forall field_name d t,
    dict_get "example" d = None ->
    dict_get "type" d = Some t ->
    (forall s, In s ["string"; "integer"; "number"; "boolean"; "array"; "object"] ->
               t <> JStr s) ->
    _create_example_value field_name (JDict d) = Ok JNull.
Proof.
  intros field_name d t Hex Hty Hnone.
  assert (Hno : forall s,
             In s ["string"; "integer"; "number"; "boolean"; "array"; "object"] ->
             py_is_str t s = false).
  { intros s Hs. destruct (py_is_str t s) eqn:E; [|reflexivity].
    apply py_is_str_true in E. now destruct (Hnone s Hs). }
  cbn [_create_example_value]. rewrite Hex, Hty.
  rewrite !Hno by (simpl; tauto). reflexivity.
Qed.

Lemma C10_unrecognised_type_witness :
  _create_example_value "nothing" (JDict [("type", JStr "null")]) = Ok JNull
  /\ _create_example_value "tags" (JDict [("type", JList [JStr "string"; JStr "null"])])
     = Ok JNull.
Proof.
  split.
  - apply (@C10_unrecognised_type_gives_null "nothing" [("type", JStr "null")] (JStr "null"));
      [reflexivity | reflexivity |].
    intros s Hs. simpl in Hs.
    repeat (destruct Hs as [<-|Hs]; [discriminate|]). destruct Hs.
  - apply (@C10_unrecognised_type_gives_null "tags" _ (JList [JStr "string"; JStr "null"]));
      [reflexivity | reflexivity |].
    intros s _. discriminate.
Defined.

(** ** Tag derivation *)

Lemma ascending_trans a b c : ascending a b -> ascending b c -> ascending a c.
Proof.
  unfold ascending, String.ltb. intros Hab Hbc.
  destruct (a ?= b) eqn:Eab; try discriminate.
  destruct (b ?= c) eqn:Ebc; try discriminate.
  apply OrderedTypeEx.String_as_OT.cmp_lt in Eab, Ebc.
  pose proof (@OrderedTypeEx.String_as_OT.lt_trans _ _ _ Eab Ebc) as Hac.
  apply OrderedTypeEx.String_as_OT.cmp_lt in Hac.
  unfold OrderedTypeEx.String_as_OT.cmp in Hac. now rewrite Hac.
Qed.

Lemma leb_neq_ascending a b : (a <=? b) = true -> a <> b -> ascending a b.
Proof.
  unfold ascending, String.leb, String.ltb. intros Hle Hne.
  destruct (a ?= b) eqn:E; try reflexivity; try discriminate.
  apply String.compare_eq_iff in E. contradiction.
Qed.

Lemma set_add_in tag t tags : In t (set_add tag tags) <-> t = tag \/ In t tags.
Proof.
  unfold set_add. destruct (existsb (String.eqb tag) tags) eqn:E.
  - split; [tauto|]. intros [->|H]; [|assumption].
    apply existsb_exists in E. destruct E as [x [Hx Heq]].
    apply String.eqb_eq in Heq. now subst.
  - rewrite in_app_iff. simpl. intuition.
Qed.

Lemma set_add_nodup tag tags : NoDup tags -> NoDup (set_add tag tags).
Proof.
  intros Hnd. unfold set_add.
  destruct (existsb (String.eqb tag) tags) eqn:E; [assumption|].
  apply NoDup_app.
  - assumption.
  - constructor; [intros [] | constructor].
  - intros a Ha [<-|[]].
    assert (existsb (String.eqb tag) tags = true) as Habs.
    { apply existsb_exists. exists tag. split; [assumption | apply String.eqb_refl]. }
    congruence.
Qed.

Lemma collect_from_spec keys : forall acc t,
  In t (fold_left (fun tags p =>
                     match path_tag p with
                     | Some tag => set_add tag tags
                     | None => tags
                     end) keys acc)
  <-> In t acc \/ exists p, In p keys /\ path_tag p = Some t.
Proof.
  induction keys as [|p keys IH]; intros acc t; simpl.
  - split; [tauto|]. intros [H|[p [[] _]]]. assumption.
  - rewrite IH. destruct (path_tag p) as [tag|] eqn:E.
    + rewrite set_add_in. split.
      * intros [[->|H]|[q [Hq Ht]]]; eauto.
      * intros [H|[q [[<-|Hq] Ht]]]; eauto.
        rewrite E in Ht. injection Ht as ->. auto.
    + split.
      * intros [H|[q [Hq Ht]]]; eauto.
      * intros [H|[q [[<-|Hq] Ht]]]; eauto. congruence.
Qed.

Lemma collect_from_nodup keys : forall acc,
  NoDup acc ->
  NoDup (fold_left (fun tags p =>
                      match path_tag p with
                      | Some tag => set_add tag tags
                      | None => tags
                      end) keys acc).
Proof.
  induction keys as [|p keys IH]; intros acc Hnd; simpl; [assumption|].
  apply IH. destruct (path_tag p); [now apply set_add_nodup | assumption].
Qed.

Lemma insert_sorted_in x l t : In t (insert_sorted x l) <-> t = x \/ In t l.
Proof.
  induction l as [|y l IH]; simpl.
  - intuition.
  - destruct (x <=? y); simpl; [intuition | rewrite IH; intuition].
Qed.

Lemma sorted_in l t : In t (sorted l) <-> In t l.
Proof.
  induction l as [|x l IH]; simpl; [tauto|].
  rewrite insert_sorted_in, IH. intuition.
Qed.

Lemma insert_sorted_ascending x l :
  ~ In x l -> StronglySorted ascending l -> StronglySorted ascending (insert_sorted x l).
Proof.
  intros Hnin Hs. induction Hs as [|y l Hs IH Hall]; simpl.
  - repeat constructor.
  - assert (x <> y) as Hxy by (intros ->; apply Hnin; now left).
    destruct (x <=? y) eqn:E.
    + pose proof (leb_neq_ascending E Hxy) as Hlt.
      constructor; [now constructor|].
      constructor; [assumption|].
      eapply Forall_impl; [|exact Hall]. intros z Hz. eapply ascending_trans; eauto.
    + constructor.
      * apply IH. intros H. apply Hnin. now right.
      * apply Forall_forall. intros z Hz. apply insert_sorted_in in Hz.
        destruct Hz as [->|Hz].
        -- destruct (String.leb_total x y) as [H|H]; [congruence|].
           apply leb_neq_ascending; [assumption | congruence].
        -- rewrite Forall_forall in Hall. now apply Hall.
Qed.

Lemma sorted_ascending l : NoDup l -> StronglySorted ascending (sorted l).
Proof.
  induction 1 as [|x l Hnin Hnd IH]; simpl; [constructor|].
  apply insert_sorted_ascending; [|assumption].
  now rewrite sorted_in.
Qed.

(** C8: the tags come out strictly ascending, one entry
    [{name, description: name.title() + " operations"}] per distinct tag of
    a path; the tag of a path is its first segment once the slashes around
    it are stripped, or the second one when the first is [api] and a second
    exists, and a path whose first segment is empty has none.  The paths
    [/users], [/api/orders], [/api], [/health] give api, health, orders,
    users. *)
Theorem C8_tags_from_paths :
  (forall d, exists names,
      _generate_tags_from_paths (JDict d)
      = Ok (JList (map (fun tag =>
                          JDict [("name", JStr tag);
                                 ("description",
                                  JStr (PyStr.title tag ++ " operations"))])
                       names))
      /\ StronglySorted ascending names
      /\ (forall tag, In tag names <->
                      exists p, In p (dict_keys d) /\ path_tag p = Some tag))
  /\ (forall p,
        path_tag p =
        match PyStr.split "/" (PyStr.strip (PyStr.one_of "/") p) with
        | first :: second :: _ =>
            if first =? EmptyString then None
            else if first =? "api" then Some second else Some first
        | [first] => if first =? EmptyString then None else Some first
        | [] => None
        end)
  /\ _generate_tags_from_paths four_paths
     = Ok (JList [JDict [("name", JStr "api"); ("description", JStr "Api operations")];
                  JDict [("name", JStr "health"); ("description", JStr "Health operations")];
                  JDict [("name", JStr "orders"); ("description", JStr "Orders operations")];
                  JDict [("name", JStr "users"); ("description", JStr "Users operations")]]).
Proof.
  split; [|split; [|reflexivity]].
  - intros d. exists (sorted (collect_tags (dict_keys d))). split; [reflexivity|].
    split.
    + apply sorted_ascending. apply collect_from_nodup. constructor.
    + intros tag. rewrite sorted_in. unfold collect_tags.
      rewrite collect_from_spec. simpl. tauto.
  - intros p. unfold path_tag.
    destruct (PyStr.split "/" (PyStr.strip (PyStr.one_of "/") p)) as [|first [|second rest]];
      try reflexivity.
    + simpl. destruct (first =? EmptyString); [reflexivity|].
      now rewrite Bool.andb_false_r.
    + simpl. destruct (first =? EmptyString); [reflexivity|].
      now rewrite Bool.andb_true_r.
Qed.

(** ** Enrichment, block by block *)

Lemma bind_ok (A B : Type) (m : result A) (k : A -> result B) b :
  bind m k = Ok b -> exists a, m = Ok a /\ k a = Ok b.
Proof. destruct m; simpl; [eauto | discriminate]. Qed.

Ltac bind_inv H :=
  let a := fresh "a" in
  let Ha := fresh "Ha" in
  apply bind_ok in H; destruct H as [a [Ha H]].

Lemma dict_set_twice (V : Type) k (v w : V) d :
  dict_set k v (dict_set k w d) = dict_set k v d.
Proof.
  induction d as [|[k' v'] d IH]; simpl.
  - now rewrite String.eqb_refl.
  - destruct (k' =? k) eqn:E; simpl.
    + now rewrite String.eqb_refl.
    + now rewrite E, IH.
Qed.

Lemma same_except_refl k d : same_except k d d.
Proof. now intros k' _. Qed.

Lemma same_except_set k v d : same_except k d (dict_set k v d).
Proof. intros k' Hne. apply dict_get_set_other. congruence. Qed.

Lemma store_back_present k v h :
  dict_has k h = true -> store_back k v (JDict h) = JDict (dict_set k v h).
Proof. intros H. simpl. now rewrite H. Qed.

Lemma store_back_absent k v h :
  dict_has k h = false -> store_back k v (JDict h) = JDict h.
Proof. intros H. simpl. now rewrite H. Qed.

Lemma add_servers_ok spec out :
  add_servers spec = Ok out ->
  exists d, spec = JDict d /\ out = JDict (dict_set "servers" default_servers d).
Proof.
  unfold add_servers. destruct spec; simpl; try discriminate.
  intros [= <-]. eauto.
Qed.

Lemma enhance_info_ok d out :
  enhance_info (JDict d) = Ok out ->
  exists i, py_get (JDict d) "info" (JDict []) = Ok (JDict i)
            /\ out = JDict (dict_set "info" (JDict (dict_update info_extras i)) d).
Proof.
  unfold enhance_info. intros H. bind_inv H. bind_inv H.
  destruct a as [| | | | | |i]; simpl in Ha0; try discriminate.
  injection Ha0 as <-. simpl in H. injection H as <-. eauto.
Qed.

(** The three ways the security block can end. *)
Lemma add_security_schemes_ok d out :
  add_security_schemes (JDict d) = Ok out ->
  (dict_get "components" d = None
   /\ out = JDict (dict_set "components"
                     (JDict [("securitySchemes", default_security_schemes)]) d))
  \/ (exists c, dict_get "components" d = Some (JDict c)
                /\ dict_get "securitySchemes" c = None
                /\ out = JDict (dict_set "components"
                                  (JDict (dict_set "securitySchemes"
                                            default_security_schemes c)) d))
  \/ (exists components, dict_get "components" d = Some components
                         /\ py_in "securitySchemes" components = Ok true
                         /\ out = JDict d).
Proof.
  unfold add_security_schemes. cbn [py_in bind]. unfold dict_has.
  destruct (dict_get "components" d) as [components|] eqn:E; cbn [negb bind py_setitem].
  - cbn [py_getitem]. rewrite E. cbn [bind]. intros H. bind_inv H.
    destruct a; cbn [negb] in H.
    + injection H as <-. right. right. eauto.
    + bind_inv H. destruct components; simpl in Ha0; try discriminate.
      injection Ha0 as <-. simpl in H. injection H as <-.
      simpl in Ha. injection Ha as Ha. apply dict_has_false in Ha.
      right. left. eauto.
  - cbn [py_getitem]. rewrite dict_get_set_same. cbn.
    rewrite dict_set_twice. intros [= <-]. now left.
Qed.

Lemma add_tags_ok d out :
  add_tags (JDict d) = Ok out ->
  (dict_has "tags" d = true /\ out = JDict d)
  \/ (dict_has "tags" d = false
      /\ exists paths tags,
           py_get (JDict d) "paths" (JDict []) = Ok paths
           /\ _generate_tags_from_paths paths = Ok tags
           /\ out = JDict (dict_set "tags" tags d)).
Proof.
  unfold add_tags. cbn [py_in bind].
  destruct (dict_has "tags" d) eqn:E; cbn [negb].
  - intros [= <-]. now left.
  - intros H. bind_inv H. bind_inv H. simpl in H. injection H as <-.
    right. split; [reflexivity|]. eauto.
Qed.

Lemma enhance_all_paths_ok d out :
  enhance_all_paths (JDict d) = Ok out ->
  (dict_get "paths" d = None /\ out = JDict d)
  \/ (exists items items',
        dict_get "paths" d = Some (JDict items)
        /\ enhance_paths items = Ok items'
        /\ out = JDict (dict_set "paths" (JDict items') d)).
Proof.
  unfold enhance_all_paths. cbn [py_get bind].
  destruct (dict_get "paths" d) as [paths|] eqn:E; cbn [bind].
  - destruct paths; simpl; try discriminate.
    intros H. bind_inv H. injection H as <-.
    right. exists d0, a. unfold dict_has. rewrite E. auto.
  - simpl. unfold dict_has. rewrite E. intros [= <-]. now left.
Qed.

(** Each block leaves every key but its own as it was. *)
Lemma enhance_info_frame d out :
  enhance_info (JDict d) = Ok out ->
  exists d', out = JDict d' /\ same_except "info" d d'.
Proof.
  intros H. apply enhance_info_ok in H. destruct H as [i [_ ->]].
  eexists. split; [reflexivity | apply same_except_set].
Qed.

Lemma add_security_schemes_frame d out :
  add_security_schemes (JDict d) = Ok out ->
  exists d', out = JDict d' /\ same_except "components" d d'.
Proof.
  intros H. apply add_security_schemes_ok in H.
  destruct H as [[_ ->]|[[c [_ [_ ->]]]|[c [_ [_ ->]]]]];
    eexists; (split; [reflexivity|]);
    auto using same_except_set, same_except_refl.
Qed.

Lemma add_tags_frame d out :
  add_tags (JDict d) = Ok out ->
  exists d', out = JDict d' /\ same_except "tags" d d' /\ dict_has "tags" d' = true.
Proof.
  intros H. apply add_tags_ok in H.
  destruct H as [[Hhas ->]|[_ [paths [tags [_ [_ ->]]]]]]; eexists;
    (split; [reflexivity|]).
  - split; [apply same_except_refl | assumption].
  - split; [apply same_except_set | apply dict_has_set_same].
Qed.

Lemma enhance_all_paths_frame d out :
  enhance_all_paths (JDict d) = Ok out ->
  exists d', out = JDict d' /\ same_except "paths" d d'.
Proof.
  intros H. apply enhance_all_paths_ok in H.
  destruct H as [[_ ->]|[items [items' [_ [_ ->]]]]]; eexists;
    (split; [reflexivity|]); auto using same_except_set, same_except_refl.
Qed.

(** The run of [_enhance_openapi_spec] that returns, block after block. *)
Lemma _enhance_openapi_spec_ok spec out :
  _enhance_openapi_spec spec = Ok out ->
  exists d s1 s2 s3 s4 s5,
    spec = JDict d /\ out = JDict s5
    /\ s1 = dict_set "servers" default_servers d
    /\ enhance_info (JDict s1) = Ok (JDict s2)
    /\ add_security_schemes (JDict s2) = Ok (JDict s3)
    /\ add_tags (JDict s3) = Ok (JDict s4)
    /\ enhance_all_paths (JDict s4) = Ok (JDict s5).
Proof.
  unfold _enhance_openapi_spec. intros H.
  bind_inv H. apply add_servers_ok in Ha. destruct Ha as [d [-> ->]].
  bind_inv H. destruct (enhance_info_frame _ Ha) as [s2 [-> _]].
  bind_inv H. destruct (add_security_schemes_frame _ Ha0) as [s3 [-> _]].
  bind_inv H. destruct (add_tags_frame _ Ha1) as [s4 [-> _]].
  destruct (enhance_all_paths_frame _ H) as [s5 [-> _]].
  exists d, (dict_set "servers" default_servers d), s2, s3, s4, s5. auto 10.
Qed.

(** ** Enrichment returns on well-formed specifications *)

Unset Implicit Arguments.

(** Induction on a JSON value with the hypothesis for every element of a
    list and every value of a dict. *)
Lemma json_nested_ind (P : json -> Prop) :
  P JNull ->
  (forall b, P (JBool b)) ->
  (forall z, P (JInt z)) ->
  (forall m e, P (JFloat m e)) ->
  (forall s, P (JStr s)) ->
  (forall l, Forall P l -> P (JList l)) ->
  (forall d, Forall (fun entry => P (snd entry)) d -> P (JDict d)) ->
  forall j, P j.
Proof.
  intros HN HB HI HF HS HL HD. fix IH 1. intros [| b | z | m e | s | l | d].
  - exact HN.
  - apply HB.
  - apply HI.
  - apply HF.
  - apply HS.
  - apply HL. induction l as [|x l IHl]; constructor; [apply IH | exact IHl].
  - apply HD. induction d as [|[k v] d IHd]; constructor; [apply IH | exact IHd].
Qed.

Lemma dict_get_in (V : Type) k (v : V) d : dict_get k d = Some v -> In (k, v) d.
Proof.
  induction d as [|[k' v'] d IH]; simpl; [discriminate|].
  destruct (String.eqb_spec k' k) as [->|_].
  - intros [= ->]. now left.
  - intros H. right. now apply IH.
Qed.

Lemma for_items_returns (V R : Type) (body : string -> V -> result R) items :
  Forall (fun entry => exists r, body (fst entry) (snd entry) = Ok r) items ->
  forall acc, exists out, for_items body items acc = Ok out.
Proof.
  induction 1 as [|[k v] items [r Hr] _ IH]; intros acc; simpl.
  - eauto.
  - simpl in Hr. rewrite Hr. apply IH.
Qed.

Lemma for_each_returns (V : Type) (body : string -> V -> result V) d :
  Forall (fun entry => exists v', body (fst entry) (snd entry) = Ok v') d ->
  exists d', for_each body d = Ok d'.
Proof.
  induction 1 as [|[k v] d [v' Hv] _ [d' IH]]; simpl.
  - eauto.
  - simpl in Hv. rewrite Hv, IH. eauto.
Qed.

(** [forallb] over the entries, as a [Forall] of what each check gives. *)
Lemma forallb_entries (V : Type) (check : string * V -> bool) (Q : string * V -> Prop) d :
  (forall entry, In entry d -> check entry = true -> Q entry) ->
  forallb check d = true -> Forall Q d.
Proof.
  intros Hq Hall. apply Forall_forall. intros entry Hin.
  apply Hq; [assumption|]. rewrite forallb_forall in Hall. now apply Hall.
Qed.

Lemma schema_ok_returns_both schema :
  (schema_ok schema = true ->
   forall field_name, exists v, _create_example_value field_name schema = Ok v)
  /\ (forall items,
        schema = JDict items ->
        forallb (fun entry => schema_ok (snd entry)) items = true ->
        forall acc, exists out, for_items _create_example_value items acc = Ok out).
Proof.
  induction schema as [| | | | | |d IH] using json_nested_ind;
    try (split; [discriminate | intros ? [=]]).
  rewrite Forall_forall in IH. split.
  - cbn [schema_ok _create_example_value]. unfold dict_has.
    intros Hok field_name.
    destruct (dict_get "example" d) as [example|]; [eauto|].
    cbn [orb] in Hok.
    set (field_type := match dict_get "type" d with
                       | Some t => t
                       | None => JStr "string"
                       end) in *.
    destruct (py_is_str field_type "string") eqn:Es.
    { eauto. }
    destruct (py_is_str field_type "integer") eqn:Ei; [eauto|].
    destruct (py_is_str field_type "number") eqn:En; [eauto|].
    destruct (py_is_str field_type "boolean") eqn:Eb; [eauto|].
    destruct (py_is_str field_type "array") eqn:Ea.
    { rewrite dict_case_get in *.
      destruct (dict_get "items" d) as [item_schema|] eqn:E; [|eauto].
      destruct (proj1 (IH _ (dict_get_in _ _ _ _ E)) Hok "item") as [v Hv].
      simpl in Hv. rewrite Hv. eauto. }
    destruct (py_is_str field_type "object") eqn:Eo; [|eauto].
    rewrite dict_case_get in *.
    destruct (dict_get "properties" d) as [properties|] eqn:E; [|eauto].
    destruct properties as [| | | | | |items]; try discriminate.
    destruct (proj2 (IH _ (dict_get_in _ _ _ _ E)) items eq_refl Hok []) as [out Hout].
    change (fun prop_name prop_schema => _create_example_value prop_name prop_schema)
      with _create_example_value.
    rewrite Hout. eauto.
  - intros items [= <-] Hall acc. apply for_items_returns.
    apply forallb_entries with (check := fun entry => schema_ok (snd entry));
      [|assumption].
    intros entry Hin Hok. apply (proj1 (IH entry Hin) Hok).
Qed.

Lemma schema_ok_returns schema field_name :
  schema_ok schema = true ->
  exists v, _create_example_value field_name schema = Ok v.
Proof. intros H. now apply (proj1 (schema_ok_returns_both schema)). Qed.

Lemma properties_ok_return items acc :
  forallb (fun entry => schema_ok (snd entry)) items = true ->
  exists out, for_items _create_example_value items acc = Ok out.
Proof. intros H. now apply (proj2 (schema_ok_returns_both (JDict items)) items). Qed.

Lemma top_schema_ok_returns schema :
  top_schema_ok schema = true ->
  exists v, _create_example_from_schema schema = Ok v.
Proof.
  destruct schema as [| | | | | |d]; try discriminate.
  unfold top_schema_ok, _create_example_from_schema. cbn [py_get].
  destruct (dict_get "type" d) as [t|] eqn:Et; cbn [bind].
  - destruct (py_is_str t "object").
    + destruct (dict_get "properties" d) as [[| | | | | |items]|]; try discriminate;
        cbn [bind py_items]; intros Hok.
      * destruct (properties_ok_return items [] Hok) as [out ->]. simpl. eauto.
      * simpl. eauto.
    + destruct (py_is_str t "array").
      * destruct (dict_get "items" d) as [item_schema|]; cbn [bind]; intros Hok.
        -- destruct (schema_ok_returns item_schema "item" Hok) as [v ->]. simpl. eauto.
        -- simpl. eauto.
      * apply schema_ok_returns.
  - cbn [py_is_str]. apply schema_ok_returns.
Qed.

Lemma minimal_fields_return properties required_fields :
  forallb (fun entry => schema_ok (snd entry)) properties = true ->
  forallb hashable required_fields = true ->
  forall example, exists out, minimal_fields properties required_fields example = Ok out.
Proof.
  intros Hprops. induction required_fields as [|field rest IH]; simpl; intros Hh example.
  - eauto.
  - apply andb_prop in Hh. destruct Hh as [Hfield Hrest].
    destruct field; try discriminate; try (now apply IH).
    destruct (dict_get s properties) as [field_schema|] eqn:E; [|now apply IH].
    assert (schema_ok field_schema = true) as Hok.
    { rewrite forallb_forall in Hprops.
      apply (Hprops (s, field_schema)). now apply dict_get_in. }
    destruct (schema_ok_returns field_schema s Hok) as [v ->]. simpl. now apply IH.
Qed.

Lemma required_ok_iterates required_fields :
  required_ok required_fields = true ->
  exists fields, py_iter required_fields = Ok fields /\ forallb hashable fields = true.
Proof.
  destruct required_fields as [| | | |s|l|d]; try discriminate; simpl; intros H.
  - eexists. split; [reflexivity|]. now induction (list_ascii_of_string s).
  - eauto.
  - eexists. split; [reflexivity|]. now induction d.
Qed.

Lemma request_schema_ok_returns schema :
  request_schema_ok schema = true ->
  exists examples, _generate_examples_from_schema schema = Ok examples.
Proof.
  destruct schema as [| | | | | |d]; try discriminate.
  unfold request_schema_ok, _generate_examples_from_schema. cbn [py_get bind].
  destruct (dict_get "type" d) as [t|] eqn:Et; cbn [bind py_is_str]; [|eauto].
  destruct (py_is_str t "object") eqn:Eobj; [|eauto].
  intros H. apply andb_prop in H. destruct H as [Htop Hreq].
  destruct (top_schema_ok_returns _ Htop) as [example_data ->].
  cbn [bind py_in]. unfold dict_has.
  destruct (dict_get "required" d) as [required_fields|] eqn:Er; [|eauto].
  unfold _create_minimal_example. cbn [py_get bind]. rewrite Er. cbn [bind].
  destruct (required_ok_iterates _ Hreq) as [fields [-> Hfields]].
  unfold top_schema_ok in Htop. rewrite Et, Eobj in Htop.
  destruct (dict_get "properties" d) as [[| | | | | |items]|]; try discriminate;
    cbn [bind py_items].
  - destruct (minimal_fields_return items fields Htop Hfields []) as [out ->].
    simpl. eauto.
  - destruct (minimal_fields_return [] fields eq_refl Hfields []) as [out ->].
    simpl. eauto.
Qed.

Lemma response_schema_ok_returns status_code schema :
  response_schema_ok status_code schema = true ->
  exists examples, _generate_response_examples status_code schema = Ok examples.
Proof.
  unfold response_schema_ok, _generate_response_examples.
  destruct (PyStr.startswith "2" status_code).
  - intros H. destruct (top_schema_ok_returns _ H) as [v ->]. simpl. eauto.
  - intros _. destruct (PyStr.startswith "4" status_code); [eauto|].
    destruct (PyStr.startswith "5" status_code); eauto.
Qed.

Section Holders.
Variable accepts : json -> bool.
Variable examples_for : json -> result json.
Hypothesis accepted_returns :
  forall schema, accepts schema = true -> exists examples, examples_for schema = Ok examples.

Lemma content_ok_returns content :
  content_ok accepts content = true ->
  exists content', enhance_content examples_for content = Ok content'.
Proof.
  destruct content as [| | | | | |c]; try discriminate.
  unfold content_ok, enhance_content. cbn [py_in bind]. unfold dict_has.
  destruct (dict_get "schema" c) as [schema|] eqn:Es; [|eauto].
  destruct (dict_get "examples" c) as [examples|] eqn:Ee; cbn [negb orb]; [eauto|].
  intros H. cbn [py_getitem]. rewrite Es. cbn [bind].
  destruct (accepted_returns _ H) as [examples ->]. simpl. eauto.
Qed.

Lemma holder_ok_returns holder :
  holder_ok accepts holder = true ->
  exists holder', enhance_contents examples_for holder = Ok holder'.
Proof.
  destruct holder as [| | | | | |h]; try discriminate.
  unfold holder_ok, enhance_contents. cbn [py_get].
  destruct (dict_get "content" h) as [[| | | | | |items]|]; try discriminate;
    cbn [bind py_items]; [|simpl; eauto].
  intros H.
  destruct (for_each_returns _ (fun _ content => enhance_content examples_for content) items)
    as [items' ->].
  - apply forallb_entries with (check := fun entry => content_ok accepts (snd entry));
      [|assumption].
    intros entry _ Hok. now apply content_ok_returns.
  - simpl. eauto.
Qed.
End Holders.

Lemma operation_ok_returns operation :
  operation_ok operation = true ->
  exists operation', _enhance_operation operation = Ok operation'.
Proof.
  destruct operation as [| | | | | |o]; try discriminate.
  unfold operation_ok, _enhance_operation. cbn [py_in bind].
  intros H. apply andb_prop in H. destruct H as [Hbody Hresp].
  assert (exists o1,
             (if dict_has "requestBody" o
              then request_body <- py_getitem (JDict o) "requestBody" ;;
                   request_body' <- enhance_contents _generate_examples_from_schema
                                                     request_body ;;
                   Ok (store_back "requestBody" request_body' (JDict o))
              else Ok (JDict o)) = Ok (JDict o1)
             /\ dict_get "responses" o1 = dict_get "responses" o) as [o1 [-> Hsame]].
  { unfold dict_has. cbn [py_getitem].
    destruct (dict_get "requestBody" o) as [request_body|] eqn:E; [|eauto].
    cbn [bind].
    destruct (holder_ok_returns request_schema_ok _generate_examples_from_schema
                request_schema_ok_returns _ Hbody) as [request_body' ->].
    cbn [bind]. rewrite store_back_present by (unfold dict_has; now rewrite E).
    eexists. split; [reflexivity|]. now apply dict_get_set_other. }
  cbn [bind py_get]. rewrite Hsame.
  destruct (dict_get "responses" o) as [[| | | | | |responses]|]; try discriminate;
    cbn [bind py_items]; [|simpl; eauto].
  destruct (for_each_returns _
              (fun status_code response =>
                 enhance_contents (_generate_response_examples status_code) response)
              responses) as [items' ->].
  - apply forallb_entries
      with (check := fun entry => holder_ok (response_schema_ok (fst entry)) (snd entry));
      [|assumption].
    intros [status_code response] _ Hok. simpl in *.
    apply holder_ok_returns with (accepts := response_schema_ok status_code);
      [|assumption].
    intros schema. apply response_schema_ok_returns.
  - simpl. eauto.
Qed.

Lemma paths_ok_return path_items :
  forallb (fun entry => methods_ok (snd entry)) path_items = true ->
  exists path_items', enhance_paths path_items = Ok path_items'.
Proof.
  intros H. unfold enhance_paths. apply for_each_returns.
  apply forallb_entries with (check := fun entry => methods_ok (snd entry));
    [|assumption].
  intros [route_path methods] _ Hok. simpl in *.
  destruct methods as [| | | | | |operations]; try discriminate.
  cbn [py_items bind].
  destruct (for_each_returns _ (fun _ operation => _enhance_operation operation) operations)
    as [operations' ->].
  - apply forallb_entries with (check := fun entry => operation_ok (snd entry));
      [|assumption].
    intros entry _ Hentry. now apply operation_ok_returns.
  - simpl. eauto.
Qed.

(** Enrichment returns on every well-formed specification. *)
Theorem _enhance_openapi_spec_returns spec :
  spec_ok spec = true -> exists out, _enhance_openapi_spec spec = Ok out.
Proof.
  destruct spec as [| | | | | |d]; try discriminate.
  unfold spec_ok. intros H.
  apply andb_prop in H. destruct H as [H Hpaths].
  apply andb_prop in H. destruct H as [Hinfo Hcomp].
  unfold _enhance_openapi_spec, add_servers. cbn [py_setitem bind].
  set (s1 := dict_set "servers" default_servers d).
  (* info *)
  assert (exists s2, enhance_info (JDict s1) = Ok (JDict s2)
                     /\ same_except "info" s1 s2) as [s2 [-> F2]].
  { unfold enhance_info. cbn [py_get]. unfold s1.
    rewrite dict_get_set_other by discriminate.
    destruct (dict_get "info" d) as [[| | | | | |i]|]; try discriminate;
      cbn [bind merge_info py_setitem];
      (eexists; split; [reflexivity | apply same_except_set]). }
  cbn [bind].
  assert (forall k, k <> "info" -> k <> "servers" -> dict_get k s2 = dict_get k d) as G2.
  { intros k H1 H2. rewrite F2 by assumption. unfold s1.
    apply dict_get_set_other. congruence. }
  (* security schemes *)
  assert (exists s3, add_security_schemes (JDict s2) = Ok (JDict s3)
                     /\ same_except "components" s2 s3) as [s3 [-> F3]].
  { unfold add_security_schemes. cbn [py_in bind]. unfold dict_has.
    rewrite G2 by discriminate.
    destruct (dict_get "components" d) as [[| | | | | |c]|] eqn:Ec; try discriminate;
      cbn [negb bind py_setitem py_getitem].
    - rewrite G2, Ec by discriminate. cbn [bind py_in].
      destruct (dict_has "securitySchemes" c); cbn [negb bind py_setitem];
        (eexists; split; [reflexivity|]);
        auto using same_except_set, same_except_refl.
    - rewrite dict_get_set_same. cbn. rewrite dict_set_twice.
      eexists; split; [reflexivity | apply same_except_set]. }
  cbn [bind].
  assert (dict_get "paths" s3 = dict_get "paths" d) as G3.
  { rewrite F3 by discriminate. apply G2; discriminate. }
  (* tags *)
  assert (exists s4, add_tags (JDict s3) = Ok (JDict s4)
                     /\ same_except "tags" s3 s4) as [s4 [-> F4]].
  { unfold add_tags. cbn [py_in bind].
    destruct (dict_has "tags" s3); cbn [negb bind py_get].
    - eexists; split; [reflexivity | apply same_except_refl].
    - rewrite G3.
      destruct (dict_get "paths" d) as [[| | | | | |path_items]|]; try discriminate;
        cbn; (eexists; split; [reflexivity | apply same_except_set]). }
  cbn [bind].
  (* paths *)
  unfold enhance_all_paths. cbn [py_get]. rewrite F4, G3 by discriminate.
  destruct (dict_get "paths" d) as [[| | | | | |path_items]|]; try discriminate;
    cbn [bind py_items absent_or] in *.
  - destruct (paths_ok_return _ Hpaths) as [path_items' ->]. simpl. eauto.
  - simpl. eauto.
Qed.

Set Implicit Arguments.

(** ** Security schemes *)

(** What the blocks around the security block leave of ['components']. *)
Lemma components_through_run d s1 s2 s3 s4 s5 :
  s1 = dict_set "servers" default_servers d ->
  enhance_info (JDict s1) = Ok (JDict s2) ->
  add_tags (JDict s3) = Ok (JDict s4) ->
  enhance_all_paths (JDict s4) = Ok (JDict s5) ->
  dict_get "components" s2 = dict_get "components" d
  /\ dict_get "components" s5 = dict_get "components" s3.
Proof.
  intros -> Hi Ht Hp.
  destruct (enhance_info_frame _ Hi) as [x [[= <-] Fi]].
  destruct (add_tags_frame _ Ht) as [y [[= <-] [Ft _]]].
  destruct (enhance_all_paths_frame _ Hp) as [z [[= <-] Fp]].
  split.
  - rewrite Fi by discriminate. apply dict_get_set_other. discriminate.
  - rewrite Fp by discriminate. apply Ft. discriminate.
Qed.

(** C2, as stated, fails on the builder's base specification: its
    [components] already has the key ['securitySchemes'], holding an empty
    mapping, so enrichment adds nothing to it. *)
Lemma C2_base_spec_gets_no_default_scheme :
  (exists out, _enhance_openapi_spec _get_base_spec = Ok out
               /\ security_schemes out = Some (JDict []))
  /\ ~ (exists out scheme_map,
          _enhance_openapi_spec _get_base_spec = Ok out
          /\ security_schemes out = Some scheme_map
          /\ has_default_schemes scheme_map).
Proof.
  split.
  - eexists. split; reflexivity.
  - intros [out [scheme_map [Hrun [Hsec [m [-> [Hbearer _]]]]]]].
    vm_compute in Hrun. injection Hrun as <-.
    vm_compute in Hsec. injection Hsec as <-. discriminate.
Qed.

(** C2, amended: when enrichment returns, [components.securitySchemes] is
    exactly the two defaults if the input had no ['components'] or its
    ['components'] had no ['securitySchemes'] key; if the key was there,
    whatever it held, even an empty mapping, is still there untouched. *)
Theorem C2_default_schemes_when_key_absent :
  forall d out,
    _enhance_openapi_spec (JDict d) = Ok out ->
    ((dict_get "components" d = None
      \/ exists c, dict_get "components" d = Some (JDict c)
                   /\ dict_get "securitySchemes" c = None) ->
     security_schemes out = Some default_security_schemes
     /\ has_default_schemes default_security_schemes)
    /\ (forall c scheme_map,
          dict_get "components" d = Some (JDict c) ->
          dict_get "securitySchemes" c = Some scheme_map ->
          security_schemes out = Some scheme_map).
Proof.
  intros d out Hrun.
  apply _enhance_openapi_spec_ok in Hrun.
  destruct Hrun as [d0 [s1 [s2 [s3 [s4 [s5 [[= <-] [-> [Hs [Hi [Hc [Ht Hp]]]]]]]]]]]].
  destruct (@components_through_run d s1 s2 s3 s4 s5 Hs Hi Ht Hp) as [Hin Hout].
  apply add_security_schemes_ok in Hc. rewrite Hin in Hc.
  unfold security_schemes. rewrite Hout.
  split.
  - intros Habsent. split.
    + destruct Hc as [[_ [= ->]]|[[c [Hd [Hn [= ->]]]]|[comp [Hd [Hhas [= ->]]]]]].
      * rewrite dict_get_set_same. reflexivity.
      * rewrite dict_get_set_same. apply dict_get_set_same.
      * destruct Habsent as [Hnone|[c [Hsome Hn]]]; [congruence|].
        rewrite Hin, Hd. rewrite Hsome in Hd. injection Hd as <-.
        simpl in Hhas. unfold dict_has in Hhas. rewrite Hn in Hhas. discriminate.
    + exists [("bearerAuth", bearerAuth); ("apiKey", apiKey)]. repeat split.
  - intros c scheme_map Hsome Hkey.
    destruct Hc as [[Hnone _]|[[c' [Hd [Hn _]]]|[comp [Hd [_ [= ->]]]]]].
    + congruence.
    + rewrite Hsome in Hd. injection Hd as <-. congruence.
    + rewrite Hin, Hsome. assumption.
Qed.

Lemma C2_default_schemes_witness :
  (exists out, _enhance_openapi_spec shop_spec = Ok out
               /\ security_schemes out = Some default_security_schemes)
  /\ (exists out, _enhance_openapi_spec secured_spec = Ok out
                  /\ security_schemes out
                     = Some (JDict [("oauth", JDict [("type", JStr "oauth2")])])).
Proof.
  split.
  - destruct (_enhance_openapi_spec_returns shop_spec eq_refl) as [out Hrun].
    exists out. split; [exact Hrun|].
    apply (proj1 (@C2_default_schemes_when_key_absent shop_fields out Hrun)). now left.
  - destruct (_enhance_openapi_spec_returns secured_spec eq_refl) as [out Hrun].
    exists out. split; [exact Hrun|].
    eapply (proj2 (@C2_default_schemes_when_key_absent _ out Hrun)); reflexivity.
Defined.

(** ** The info mapping *)

Lemma info_through_run d s1 s2 s3 s4 s5 i :
  s1 = dict_set "servers" default_servers d ->
  py_get (JDict s1) "info" (JDict []) = Ok (JDict i) ->
  s2 = dict_set "info" (JDict (dict_update info_extras i)) s1 ->
  add_security_schemes (JDict s2) = Ok (JDict s3) ->
  add_tags (JDict s3) = Ok (JDict s4) ->
  enhance_all_paths (JDict s4) = Ok (JDict s5) ->
  py_get (JDict d) "info" (JDict []) = Ok (JDict i)
  /\ dict_get "info" s5 = Some (JDict (dict_update info_extras i)).
Proof.
  intros -> Hi -> Hc Ht Hp.
  destruct (add_security_schemes_frame _ Hc) as [x [[= <-] Fc]].
  destruct (add_tags_frame _ Ht) as [y [[= <-] [Ft _]]].
  destruct (enhance_all_paths_frame _ Hp) as [z [[= <-] Fp]].
  split.
  - cbn [py_get] in *. rewrite dict_get_set_other in Hi by discriminate. exact Hi.
  - rewrite Fp, Ft, Fc by discriminate. apply dict_get_set_same.
Qed.

(** The merged mapping, key by key. *)
Lemma merged_info_lookup i k :
  dict_get k (dict_update info_extras i) =
  match dict_get k info_extras with
  | Some fixed => Some fixed
  | None => dict_get k i
  end.
Proof.
  unfold dict_update, info_extras. cbn [fold_left fst snd].
  destruct (String.eqb_spec "termsOfService" k) as [<-|H3].
  { now rewrite dict_get_set_same. }
  rewrite dict_get_set_other by assumption.
  destruct (String.eqb_spec "license" k) as [<-|H2].
  { now rewrite dict_get_set_same. }
  rewrite dict_get_set_other by assumption.
  destruct (String.eqb_spec "contact" k) as [<-|H1].
  { now rewrite dict_get_set_same. }
  rewrite dict_get_set_other by assumption.
  cbn [dict_get].
  apply String.eqb_neq in H1, H2, H3. now rewrite H1, H2, H3.
Qed.

(** C3, as stated, fails: a [contact] entry the specification brought along
    is replaced by the fixed one. *)
Lemma C3_existing_contact_is_replaced :
  exists info out info',
    info_of shop_spec = Some info
    /\ _enhance_openapi_spec shop_spec = Ok out
    /\ info_of out = Some info'
    /\ dict_get "contact" info = Some (JDict [("name", JStr "Shop Team")])
    /\ dict_get "contact" info' <> dict_get "contact" info.
Proof.
  do 3 eexists. repeat split; try reflexivity. discriminate.
Qed.

(** C3, amended: the info mapping is merged, not replaced.  Every key other
    than [contact], [license] and [termsOfService] keeps its value; those
    three always end up with the fixed values, whether they were present or
    not; and no further key appears. *)
Theorem C3_info_is_merged :
  forall d info out,
    py_get (JDict d) "info" (JDict []) = Ok (JDict info) ->
    _enhance_openapi_spec (JDict d) = Ok out ->
    exists info',
      info_of out = Some info'
      /\ (forall k v, dict_get k info_extras = None ->
                      dict_get k info = Some v -> dict_get k info' = Some v)
      /\ (forall k fixed, dict_get k info_extras = Some fixed ->
                          dict_get k info' = Some fixed)
      /\ (forall k, dict_has k info' = true ->
                    dict_has k info = true \/ dict_has k info_extras = true).
Proof.
  intros d info out Hinfo Hrun.
  apply _enhance_openapi_spec_ok in Hrun.
  destruct Hrun as [d0 [s1 [s2 [s3 [s4 [s5 [[= <-] [-> [Hs [Hi [Hc [Ht Hp]]]]]]]]]]]].
  apply enhance_info_ok in Hi. destruct Hi as [i [Hget [= ->]]].
  destruct (@info_through_run d s1 _ s3 s4 s5 i Hs Hget eq_refl Hc Ht Hp) as [Hd Hout].
  rewrite Hinfo in Hd. injection Hd as <-.
  exists (dict_update info_extras info). unfold info_of. rewrite Hout.
  split; [reflexivity|]. repeat split.
  - intros k v Hk Hv. rewrite merged_info_lookup, Hk. assumption.
  - intros k fixed Hk. now rewrite merged_info_lookup, Hk.
  - intros k. unfold dict_has. rewrite merged_info_lookup.
    destruct (dict_get k info_extras); [now right | now left].
Qed.

Lemma C3_info_is_merged_witness :
  exists out info',
    _enhance_openapi_spec shop_spec = Ok out
    /\ info_of out = Some info'
    /\ dict_get "title" info' = Some (JStr "Shop")
    /\ dict_get "version" info' = Some (JStr "2.1")
    /\ dict_get "termsOfService" info' = Some (JStr "https://example.com/terms").
Proof.
  destruct (_enhance_openapi_spec_returns shop_spec eq_refl) as [out Hrun].
  destruct (@C3_info_is_merged shop_fields shop_info out eq_refl Hrun)
    as [info' [Hinfo [Hkeep [Hfixed _]]]].
  exists out, info'. repeat split.
  - exact Hrun.
  - exact Hinfo.
  - apply Hkeep; reflexivity.
  - apply Hkeep; reflexivity.
  - apply Hfixed; reflexivity.
Defined.

(** ** A second enrichment changes nothing *)

Section Settling.
Variable V : Type.
Variable body : string -> V -> result V.
Hypothesis body_settles : forall k v v', body k v = Ok v' -> body k v' = Ok v'.

Lemma for_each_settles d : forall d',
  for_each body d = Ok d' -> for_each body d' = Ok d'.
Proof.
  induction d as [|[k v] d IH]; simpl; intros d' H.
  - injection H as <-. reflexivity.
  - destruct (body k v) as [v'|] eqn:Hb; [|discriminate].
    destruct (for_each body d) as [r|] eqn:Hr; [|discriminate].
    injection H as <-. simpl.
    now rewrite (body_settles Hb), (IH r eq_refl).
Qed.
End Settling.

(** What [enhance_content] leaves: the content itself, or a dict content
    with its new ['examples']. *)
Lemma enhance_content_ok examples_for content content' :
  enhance_content examples_for content = Ok content' ->
  content' = content
  \/ exists c examples,
       content = JDict c
       /\ dict_has "schema" c = true
       /\ content' = JDict (dict_set "examples" examples c).
Proof.
  unfold enhance_content. intros H. bind_inv H.
  destruct a.
  - bind_inv H. destruct a; cbn [negb] in H.
    + injection H as <-. now left.
    + bind_inv H. bind_inv H.
      destruct content; simpl in Ha1; try discriminate.
      simpl in H. injection H as <-. simpl in Ha. injection Ha as Ha.
      right. eauto.
  - injection H as <-. now left.
Qed.

Lemma enhance_content_settles examples_for content content' :
  enhance_content examples_for content = Ok content' ->
  enhance_content examples_for content' = Ok content'.
Proof.
  intros H. destruct (enhance_content_ok _ _ H) as [->|[c [ex [-> [Hs ->]]]]].
  - exact H.
  - unfold enhance_content. cbn [py_in bind].
    rewrite dict_has_set_other by discriminate. rewrite Hs.
    rewrite dict_has_set_same. reflexivity.
Qed.

Lemma enhance_contents_settles examples_for holder holder' :
  enhance_contents examples_for holder = Ok holder' ->
  enhance_contents examples_for holder' = Ok holder'.
Proof.
  unfold enhance_contents. intros H. bind_inv H. bind_inv H. bind_inv H.
  injection H as <-.
  destruct holder as [| | | | | |h]; simpl in Ha; try discriminate.
  destruct (dict_get "content" h) as [contents|] eqn:E.
  - injection Ha as <-.
    destruct contents; simpl in Ha0; try discriminate. injection Ha0 as <-.
    rewrite store_back_present by (unfold dict_has; now rewrite E).
    cbn [py_get]. rewrite dict_get_set_same. cbn [bind py_items].
    pose proof Ha1 as Hsettled.
    apply for_each_settles in Hsettled;
      [|intros ? ? ?; apply enhance_content_settles].
    rewrite Hsettled. cbn [bind]. rewrite store_back_present by apply dict_has_set_same.
    now rewrite dict_set_twice.
  - injection Ha as <-. simpl in Ha0. injection Ha0 as <-.
    simpl in Ha1. injection Ha1 as <-.
    rewrite store_back_absent by (unfold dict_has; now rewrite E).
    cbn [py_get]. rewrite E. cbn.
    unfold dict_has. now rewrite E.
Qed.

Lemma _enhance_operation_settles operation operation' :
  _enhance_operation operation = Ok operation' ->
  _enhance_operation operation' = Ok operation'.
Proof.
  unfold _enhance_operation. intros H. bind_inv H. bind_inv H. bind_inv H.
  bind_inv H. bind_inv H. injection H as <-.
  rename a0 into after_body, a1 into responses, a2 into items, a3 into items'.
  (* the operation is a dict, or reading its responses had raised *)
  assert (exists o, operation = JDict o) as [o ->].
  { destruct operation; try discriminate; eauto;
      destruct a; simpl in Ha0; try bind_inv Ha0; try discriminate;
      injection Ha0 as <-; discriminate. }
  simpl in Ha. injection Ha as <-.
  assert (exists o1, after_body = JDict o1
                     /\ dict_has "requestBody" o1 = dict_has "requestBody" o
                     /\ (dict_has "requestBody" o = true ->
                         exists rb, dict_get "requestBody" o1 = Some rb
                                    /\ enhance_contents _generate_examples_from_schema rb
                                       = Ok rb))
    as [o1 [-> [Hhas Hbody]]].
  { destruct (dict_has "requestBody" o) eqn:E.
    - bind_inv Ha0. bind_inv Ha0. injection Ha0 as <-.
      rewrite E in *.
      eexists. split; [reflexivity|]. split; [apply dict_has_set_same|].
      intros _. exists a0. split; [apply dict_get_set_same|].
      now apply enhance_contents_settles with (holder := a).
    - injection Ha0 as <-. exists o. split; [reflexivity|]. split; [assumption|].
      discriminate. }
  assert (forall status_code response response',
             enhance_contents (_generate_response_examples status_code) response
               = Ok response' ->
             enhance_contents (_generate_response_examples status_code) response'
               = Ok response') as Hresp
    by (intros; eapply enhance_contents_settles; eassumption).
  pose proof Ha3 as Hitems.
  apply for_each_settles in Hitems; [|exact Hresp].
  cbn [py_get] in Ha1.
  destruct (dict_get "responses" o1) as [r|] eqn:E.
  - injection Ha1 as <-. destruct r; simpl in Ha2; try discriminate.
    injection Ha2 as <-.
    rewrite store_back_present by (unfold dict_has; now rewrite E).
    cbn [py_in bind]. rewrite dict_has_set_other by discriminate. rewrite Hhas.
    destruct (dict_has "requestBody" o) eqn:Eb.
    + destruct (Hbody eq_refl) as [rb [Hrb Hsettled]].
      cbn [py_getitem]. rewrite dict_get_set_other by discriminate.
      rewrite Hrb. cbn [bind]. rewrite Hsettled. cbn [bind].
      rewrite store_back_present
        by (rewrite dict_has_set_other by discriminate; congruence).
      rewrite (dict_set_same "requestBody")
        by (now rewrite dict_get_set_other by discriminate).
      cbn [py_get]. rewrite dict_get_set_same. cbn [bind py_items].
      rewrite Hitems. cbn [bind].
      rewrite store_back_present by apply dict_has_set_same.
      now rewrite dict_set_twice.
    + cbn [bind py_get]. rewrite dict_get_set_same. cbn [bind py_items].
      rewrite Hitems. cbn [bind].
      rewrite store_back_present by apply dict_has_set_same.
      now rewrite dict_set_twice.
  - injection Ha1 as <-. simpl in Ha2. injection Ha2 as <-.
    simpl in Ha3. injection Ha3 as <-.
    rewrite store_back_absent by (unfold dict_has; now rewrite E).
    cbn [py_in bind]. rewrite Hhas.
    destruct (dict_has "requestBody" o) eqn:Eb.
    + destruct (Hbody eq_refl) as [rb [Hrb Hsettled]].
      cbn [py_getitem]. rewrite Hrb. cbn [bind]. rewrite Hsettled. cbn [bind].
      rewrite store_back_present by congruence.
      rewrite (dict_set_same "requestBody") by assumption.
      cbn [py_get]. rewrite E. cbn.
      unfold dict_has. now rewrite E.
    + cbn [bind py_get]. rewrite E. cbn. unfold dict_has. now rewrite E.
Qed.

Lemma enhance_paths_settles items items' :
  enhance_paths items = Ok items' -> enhance_paths items' = Ok items'.
Proof.
  unfold enhance_paths. apply for_each_settles.
  intros _ methods methods' H. bind_inv H. bind_inv H. injection H as <-.
  cbn [py_items bind].
  apply for_each_settles in Ha0;
    [|intros ? ? ?; apply _enhance_operation_settles].
  now rewrite Ha0.
Qed.

Lemma merged_info_twice i :
  dict_update info_extras (dict_update info_extras i) = dict_update info_extras i.
Proof.
  set (m := dict_update info_extras i).
  unfold dict_update, info_extras. cbn [fold_left fst snd].
  rewrite (dict_set_same "contact") by (unfold m; now rewrite merged_info_lookup).
  rewrite (dict_set_same "license") by (unfold m; now rewrite merged_info_lookup).
  apply dict_set_same. unfold m. now rewrite merged_info_lookup.
Qed.

(** A specification enrichment returned is one it returns unchanged. *)
Lemma enriched_is_settled spec out :
  _enhance_openapi_spec spec = Ok out -> _enhance_openapi_spec out = Ok out.
Proof.
  intros Hrun. apply _enhance_openapi_spec_ok in Hrun.
  destruct Hrun as [d [s1 [s2 [s3 [s4 [s5 [-> [-> [Hs [Hi [Hc [Ht Hp]]]]]]]]]]]].
  destruct (enhance_info_frame _ Hi) as [x [[= <-] Fi]].
  destruct (add_security_schemes_frame _ Hc) as [y [[= <-] Fc]].
  destruct (add_tags_frame _ Ht) as [z [[= <-] [Ft Htags]]].
  destruct (enhance_all_paths_frame _ Hp) as [w [[= <-] Fp]].
  (* servers *)
  assert (dict_get "servers" s5 = Some default_servers) as Hservers.
  { rewrite Fp, Ft, Fc, Fi by discriminate. subst s1. apply dict_get_set_same. }
  (* info *)
  assert (exists i, dict_get "info" s5 = Some (JDict (dict_update info_extras i)))
    as [i Hinfo].
  { apply enhance_info_ok in Hi. destruct Hi as [i [_ [= ->]]]. exists i.
    rewrite Fp, Ft, Fc by discriminate. apply dict_get_set_same. }
  (* components *)
  assert (exists components, dict_get "components" s5 = Some components
                             /\ py_in "securitySchemes" components = Ok true)
    as [components [Hcomp Hschemes]].
  { rewrite Fp, Ft by discriminate. apply add_security_schemes_ok in Hc.
    destruct Hc as [[_ [= ->]]|[[c [_ [_ [= ->]]]]|[comp [Hd [Hhas [= ->]]]]]].
    - eexists. split; [apply dict_get_set_same | reflexivity].
    - eexists. split; [apply dict_get_set_same|]. simpl.
      now rewrite dict_has_set_same.
    - eauto. }
  (* tags *)
  assert (dict_has "tags" s5 = true) as Htags5.
  { unfold dict_has in *. now rewrite Fp by discriminate. }
  (* paths *)
  assert (enhance_all_paths (JDict s5) = Ok (JDict s5)) as Hpaths.
  { pose proof Hp as Hp'. apply enhance_all_paths_ok in Hp'.
    destruct Hp' as [[_ [= ->]]|[items [items' [_ [Henh [= ->]]]]]]; [exact Hp|].
    unfold enhance_all_paths. cbn [py_get]. rewrite dict_get_set_same.
    cbn [bind py_items]. rewrite (enhance_paths_settles _ Henh). cbn [bind].
    rewrite store_back_present by apply dict_has_set_same.
    now rewrite dict_set_twice. }
  unfold _enhance_openapi_spec, add_servers. cbn [py_setitem bind].
  rewrite (dict_set_same _ _ Hservers).
  unfold enhance_info. cbn [py_get]. rewrite Hinfo. cbn [bind merge_info].
  rewrite merged_info_twice. cbn [py_setitem bind].
  rewrite (dict_set_same _ _ Hinfo).
  unfold add_security_schemes. cbn [py_in bind]. unfold dict_has at 1.
  rewrite Hcomp. cbn [negb bind py_getitem]. rewrite Hcomp. cbn [bind].
  rewrite Hschemes. cbn [bind negb].
  unfold add_tags. cbn [py_in bind]. rewrite Htags5. cbn [negb bind].
  exact Hpaths.
Qed.

(** The blocks that test for presence leave what is present alone. *)
Lemma add_security_schemes_when_present d components :
  dict_get "components" d = Some components ->
  py_in "securitySchemes" components = Ok true ->
  add_security_schemes (JDict d) = Ok (JDict d).
Proof.
  intros Hc Hs. unfold add_security_schemes. cbn [py_in bind]. unfold dict_has.
  rewrite Hc. cbn [negb bind py_getitem]. rewrite Hc. cbn [bind].
  now rewrite Hs.
Qed.

Lemma add_tags_when_present d :
  dict_has "tags" d = true -> add_tags (JDict d) = Ok (JDict d).
Proof. intros H. unfold add_tags. cbn [py_in bind]. now rewrite H. Qed.

Lemma enhance_content_when_examples_present examples_for c :
  dict_has "examples" c = true ->
  enhance_content examples_for (JDict c) = Ok (JDict c).
Proof.
  intros H. unfold enhance_content. cbn [py_in bind]. rewrite H.
  now destruct (dict_has "schema" c).
Qed.

Lemma enriched_servers spec out :
  _enhance_openapi_spec spec = Ok out ->
  exists d, out = JDict d /\ dict_get "servers" d = Some default_servers.
Proof.
  intros Hrun. apply _enhance_openapi_spec_ok in Hrun.
  destruct Hrun as [d [s1 [s2 [s3 [s4 [s5 [-> [-> [Hs [Hi [Hc [Ht Hp]]]]]]]]]]]].
  destruct (enhance_info_frame _ Hi) as [x [[= <-] Fi]].
  destruct (add_security_schemes_frame _ Hc) as [y [[= <-] Fc]].
  destruct (add_tags_frame _ Ht) as [z [[= <-] [Ft _]]].
  destruct (enhance_all_paths_frame _ Hp) as [w [[= <-] Fp]].
  exists s5. split; [reflexivity|].
  rewrite Fp, Ft, Fc, Fi by discriminate. subst s1. apply dict_get_set_same.
Qed.

(** C5: enriching twice gives what enriching once gives, an exception
    included.  The server list of an enriched specification is the fixed
    one, not a longer one; security schemes that are present, the two
    defaults of a first pass among them, are not added again; tags that are
    present are not derived again; and a content that has examples keeps
    them. *)
Theorem C5_enrichment_is_idempotent :
  (forall spec,
      (once <- _enhance_openapi_spec spec ;; _enhance_openapi_spec once)
      = _enhance_openapi_spec spec)
  /\ (forall spec once twice,
        _enhance_openapi_spec spec = Ok once ->
        _enhance_openapi_spec once = Ok twice ->
        exists d, twice = JDict d /\ dict_get "servers" d = Some default_servers)
  /\ (forall d components,
        dict_get "components" d = Some components ->
        py_in "securitySchemes" components = Ok true ->
        add_security_schemes (JDict d) = Ok (JDict d))
  /\ (forall d, dict_has "tags" d = true -> add_tags (JDict d) = Ok (JDict d))
  /\ (forall examples_for c,
        dict_has "examples" c = true ->
        enhance_content examples_for (JDict c) = Ok (JDict c)).
Proof.
  split; [|split; [|split; [|split]]].
  - intros spec. destruct (_enhance_openapi_spec spec) as [out|e] eqn:Hrun; simpl.
    + now apply enriched_is_settled with (spec := spec).
    + reflexivity.
  - intros spec once twice _ Hsecond. now apply enriched_servers with (spec := once).
  - exact add_security_schemes_when_present.
  - exact add_tags_when_present.
  - exact enhance_content_when_examples_present.
Qed.

(** On the sample specification both passes return, and the same value. *)
Lemma C5_enrichment_witness :
  exists out,
    _enhance_openapi_spec shop_spec = Ok out
    /\ _enhance_openapi_spec out = Ok out
    /\ out <> shop_spec.
Proof.
  destruct (_enhance_openapi_spec_returns shop_spec eq_refl) as [out Hrun].
  exists out. split; [exact Hrun|]. split.
  - pose proof (proj1 C5_enrichment_is_idempotent shop_spec) as H.
    rewrite Hrun in H. exact H.
  - vm_compute in Hrun. injection Hrun as <-. discriminate.
Defined.

(** ** Route extraction *)

Example orders_route_is_extracted :
  _extract_flask_routes orders_source
  = [{| path := "/orders";
        methods := ["GET"; "POST"];
        function := "orders";
        docstring :=
          Some (PyStr.join (String newline EmptyString)
                  ["List or create orders."; EmptyString; "Returns JSON."]) |}].
Proof. reflexivity. Qed.

(** One declared route with two methods gives two operations under the
    same path, each with its own [operationId]; only the second gets a
    request body. *)
Example orders_route_gives_two_operations :
  exists get post,
    operation_at (_analyze_flask_routes [Ok orders_source]) "/orders" "get" = Some (JDict get)
    /\ operation_at (_analyze_flask_routes [Ok orders_source]) "/orders" "post"
       = Some (JDict post)
    /\ dict_get "operationId" get = Some (JStr "get_orders")
    /\ dict_get "operationId" post = Some (JStr "post_orders")
    /\ dict_get "summary" get = Some (JStr "List or create orders.")
    /\ dict_has "requestBody" get = false
    /\ dict_has "requestBody" post = true.
Proof. do 2 eexists. repeat split; reflexivity. Qed.

(** ** Route insertion *)

(** With a docstring the summary is its first line and the operation sits
    under the lower-cased method. *)
Example documented_route_is_inserted :
  operation_at (_analyze_flask_routes [Ok documented_source]) "/users" "get"
  = Some (JDict [("summary", JStr "List the users.");
                 ("operationId", JStr "get_list_users");
                 ("responses",
                  JDict [("200", JDict [("description", JStr "Successful response");
                                        ("content", object_schema_content)])]);
                 ("description", JStr "List the users.")]).
Proof. reflexivity. Qed.

(** Without docstring no operation can be built, whatever the method. *)
Lemma build_operation_without_docstring route method :
  docstring route = None -> build_operation route method = Raise AttributeError.
Proof. intros H. unfold build_operation, get_docstring. now rewrite H. Qed.

(** So the insertion of a route without docstring that declares a method
    never returns normally. *)
Lemma add_route_without_docstring_raises spec route :
  docstring route = None ->
  methods route <> [] ->
  exists e, snd (_add_route_to_spec spec route) = Raise e.
Proof.
  intros Hdoc Hmethods. unfold _add_route_to_spec.
  match goal with
  | |- context [match ?prep with Ok _ => _ | Raise _ => _ end] =>
      destruct prep as [spec'|e]
  end; [|simpl; eauto].
  destruct (methods route) as [|method rest]; [contradiction|].
  simpl. rewrite (build_operation_without_docstring route method Hdoc).
  simpl. eauto.
Qed.

(** C1, at the route extracted from a handler without docstring: the
    extractor stores [None] under ['docstring'], [route.get] returns that
    [None] rather than the default ["{METHOD} {path}"], and the call ends
    in an [AttributeError] after it has made the empty path entry; no
    operation is inserted under ['get'], and the loop over the files leaves
    the specification that way. *)
Theorem C1_route_without_docstring_is_not_inserted :
  _extract_flask_routes users_source = [users_route]
  /\ docstring users_route = None
  /\ _add_route_to_spec _get_base_spec users_route
     = (base_spec_with_empty_users, Raise AttributeError)
  /\ operation_at base_spec_with_empty_users "/users" "get" = None
  /\ _analyze_flask_routes [Ok users_source] = base_spec_with_empty_users.
Proof. repeat split; reflexivity. Qed.

(** ** Framework detection *)

(** A Python file that cannot be read is skipped. *)
Lemma unreadable_source_is_skipped e rest :
  scan_py_files (Raise e :: rest) = scan_py_files rest.
Proof. reflexivity. Qed.

Lemma manifest_framework_kind content framework :
  manifest_framework content = Some framework -> In framework framework_kinds.
Proof.
  unfold manifest_framework, framework_kinds.
  repeat match goal with
         | |- context [if ?c then _ else _] => destruct c
         end; intros [= <-]; simpl; tauto.
Qed.

Lemma import_framework_kind content framework :
  import_framework content = Some framework -> In framework framework_kinds.
Proof.
  unfold import_framework, framework_kinds.
  repeat match goal with
         | |- context [if ?c then _ else _] => destruct c
         end; intros [= <-]; simpl; tauto.
Qed.

Lemma scan_py_files_kind files : In (scan_py_files files) framework_kinds.
Proof.
  induction files as [|[content|e] files IH]; simpl.
  - tauto.
  - destruct (import_framework content) eqn:E; [|exact IH].
    now apply import_framework_kind with (content := content).
  - exact IH.
Qed.

(** When every manifest that exists can be read, detection returns one of
    the five names, unreadable Python files or not. *)
Lemma detect_framework_with_readable_manifests project :
  Forall readable (requirements_files project) ->
  exists framework,
    detect_framework project = Ok framework /\ In framework framework_kinds.
Proof.
  unfold detect_framework. generalize (py_files project) as sources.
  induction (requirements_files project) as [|[[text|e]|] files IH];
    intros sources Hall; simpl.
  - eexists. split; [reflexivity | apply scan_py_files_kind].
  - destruct (manifest_framework (PyStr.lower text)) eqn:E.
    + eexists. split; [reflexivity|].
      now apply manifest_framework_kind with (content := PyStr.lower text).
    + apply IH. now inversion Hall.
  - inversion Hall as [|? ? Hr _]. now destruct (Hr e).
  - apply IH. now inversion Hall.
Qed.

(** C4, at a project whose [requirements.txt] exists and cannot be
    decoded: the first loop reads it outside any [try], and the exception
    leaves [detect_framework].  The same failure on a Python file is caught
    by the second loop, which goes on to the next file. *)
Theorem C4_undecodable_manifest_raises :
  detect_framework undecodable_manifest = Raise UnicodeDecodeError
  /\ detect_framework undecodable_source = Ok "flask".
Proof. split; reflexivity. Qed.

(** * Further properties *)

Unset Implicit Arguments.

(** ** What example synthesis produces *)

Lemma string_example_is_string field_name format_type :
  exists s, string_example field_name format_type = JStr s.
Proof.
  unfold string_example.
  repeat match goal with
         | |- context [if ?c then _ else _] => destruct c
         end; eauto.
Qed.

Lemma integer_example_is_integer field_name :
  exists z, integer_example field_name = JInt z.
Proof.
  unfold integer_example.
  repeat match goal with
         | |- context [if ?c then _ else _] => destruct c
         end; eauto.
Qed.

Lemma number_example_is_number field_name :
  exists m e, number_example field_name = JFloat m e.
Proof.
  unfold number_example.
  repeat match goal with
         | |- context [if ?c then _ else _] => destruct c
         end; eauto.
Qed.

(** X1: without an explicit example the synthesised value has the kind the
    schema declares.  For the four scalar types the synthesis always
    returns; for an array it returns a list of exactly one element and for
    an object a dict, whenever it returns. *)
Theorem X1_example_has_the_declared_kind :
  forall field_name d field_type,
    dict_get "example" d = None ->
    declared_type d = JStr field_type ->
    In field_type ["string"; "integer"; "number"; "boolean"; "array"; "object"] ->
    (In field_type ["string"; "integer"; "number"; "boolean"] ->
     exists v, _create_example_value field_name (JDict d) = Ok v)
    /\ (forall v, _create_example_value field_name (JDict d) = Ok v ->
                  has_kind field_type v = true).
Proof.
  intros field_name d field_type Hex Hty Hin. unfold declared_type in Hty.
  cbn [_create_example_value]. rewrite Hex, Hty.
  destruct Hin as [<-|[<-|[<-|[<-|[<-|[<-|[]]]]]]];
    cbn [py_is_str String.eqb Ascii.eqb Bool.eqb].
  - destruct (string_example_is_string field_name
                match dict_get "format" d with Some f => f | None => JNull end)
      as [s ->].
    split; [eauto|]. now intros v [= <-].
  - destruct (integer_example_is_integer field_name) as [z ->].
    split; [eauto|]. now intros v [= <-].
  - destruct (number_example_is_number field_name) as [m [e ->]].
    split; [eauto|]. now intros v [= <-].
  - split; [eauto|]. now intros v [= <-].
  - split.
    + intros [H|[H|[H|[H|[]]]]]; discriminate.
    + intros v. destruct (dict_case _ _ _ d); [|discriminate]. now intros [= <-].
  - split.
    + intros [H|[H|[H|[H|[]]]]]; discriminate.
    + intros v. rewrite dict_case_get.
      destruct (dict_get "properties" d) as [[| | | | | |items]|]; try discriminate.
      * destruct (for_items _ items []); [|discriminate]. now intros [= <-].
      * now intros [= <-].
Qed.

Lemma X1_example_kind_witness :
  exists v, _create_example_value "tags" (JDict [("type", JStr "array")]) = Ok v
            /\ has_kind "array" v = true.
Proof.
  exists (JList [JStr "example_item"]). split; [reflexivity|].
  apply (proj2 (X1_example_has_the_declared_kind
                  "tags" [("type", JStr "array")] "array" eq_refl eq_refl
                  (or_intror (or_intror (or_intror (or_intror (or_introl eq_refl))))))).
  reflexivity.
Defined.

(** *** Object examples *)

Lemma dict_set_absent (V : Type) k (v : V) d :
  dict_get k d = None -> dict_set k v d = (d ++ [(k, v)])%list.
Proof.
  induction d as [|[k' v'] d IH]; simpl; [reflexivity|].
  destruct (k' =? k); [discriminate|]. intros H. now rewrite IH.
Qed.

Lemma dict_get_app_absent (V : Type) k (d d' : list (string * V)) :
  dict_get k d = None -> dict_get k (d ++ d')%list = dict_get k d'.
Proof.
  induction d as [|[k' v'] d IH]; simpl; [reflexivity|].
  destruct (k' =? k); [discriminate | exact IH].
Qed.

(** The loop over distinct names appends one entry per item, in order. *)
Lemma for_items_appends (V R : Type) (body : string -> V -> result R) items :
  forall acc out,
    for_items body items acc = Ok out ->
    NoDup (map fst items) ->
    (forall k, In k (map fst items) -> dict_get k acc = None) ->
    exists values,
      Forall2 (fun entry value => body (fst entry) (snd entry) = Ok value) items values
      /\ out = (acc ++ combine (map fst items) values)%list.
Proof.
  induction items as [|[k v] items IH]; simpl; intros acc out Hrun Hnd Hfresh.
  - injection Hrun as <-. exists []. split; [constructor | now rewrite app_nil_r].
  - destruct (body k v) as [r|] eqn:Hb; [|discriminate].
    inversion Hnd as [|? ? Hnin Hnd']; subst.
    rewrite dict_set_absent in Hrun by (apply Hfresh; now left).
    destruct (IH _ _ Hrun Hnd') as [values [Hall ->]].
    + intros k' Hk'. rewrite dict_get_app_absent by (apply Hfresh; now right).
      simpl. destruct (String.eqb_spec k k') as [->|_]; [contradiction | reflexivity].
    + exists (r :: values). split; [now constructor|].
      now rewrite <- app_assoc.
Qed.

Lemma combine_keys (V R : Type) (P : string * V -> R -> Prop) items values :
  Forall2 P items values -> map fst (combine (map fst items) values) = map fst items.
Proof. induction 1 as [|[k v] r items values _ _ IH]; simpl; [reflexivity | now rewrite IH]. Qed.

Lemma combine_lookup (V R : Type) (P : string * V -> R -> Prop) items values k s :
  Forall2 P items values ->
  dict_get k items = Some s ->
  exists value, dict_get k (combine (map fst items) values) = Some value /\ P (k, s) value.
Proof.
  induction 1 as [|[k' v] r items values Hp _ IH]; simpl; [discriminate|].
  destruct (String.eqb_spec k' k) as [->|_].
  - intros [= <-]. eauto.
  - exact IH.
Qed.

(** X2: an object schema whose properties have distinct names synthesises,
    when it does, to a dict with exactly the property names, in the order
    they are declared, each holding the example of its own schema. *)
Theorem X2_object_example_has_the_property_names :
  forall d properties example,
    dict_get "type" d = Some (JStr "object") ->
    dict_get "properties" d = Some (JDict properties) ->
    NoDup (dict_keys properties) ->
    _create_example_from_schema (JDict d) = Ok example ->
    exists entries,
      example = JDict entries
      /\ dict_keys entries = dict_keys properties
      /\ (forall name prop_schema,
            dict_get name properties = Some prop_schema ->
            exists value, dict_get name entries = Some value
                          /\ _create_example_value name prop_schema = Ok value).
Proof.
  intros d properties example Hty Hprops Hnd.
  unfold _create_example_from_schema. cbn [py_get bind]. rewrite Hty. cbn [bind py_is_str].
  rewrite Hprops. cbn [bind py_items]. intros Hrun.
  destruct (for_items _create_example_value properties []) as [entries|] eqn:Hloop;
    [|discriminate].
  injection Hrun as <-.
  destruct (for_items_appends _ _ _ _ _ _ Hloop Hnd (fun _ _ => eq_refl))
    as [values [Hall ->]].
  exists (combine (map fst properties) values). split; [reflexivity|]. split.
  - unfold dict_keys. exact (combine_keys _ _ _ _ _ Hall).
  - intros name prop_schema Hget.
    exact (combine_lookup _ _ _ _ _ _ _ Hall Hget).
Qed.

Lemma X2_object_example_witness :
  exists entries,
    _create_example_from_schema account_schema = Ok (JDict entries)
    /\ dict_keys entries = ["email"; "age"; "active"].
Proof.
  destruct (X2_object_example_has_the_property_names
              [("type", JStr "object");
               ("properties",
                JDict [("email", JDict [("type", JStr "string")]);
                       ("age", JDict [("type", JStr "integer")]);
                       ("active", JDict [("type", JStr "boolean")])])]
              [("email", JDict [("type", JStr "string")]);
               ("age", JDict [("type", JStr "integer")]);
               ("active", JDict [("type", JStr "boolean")])]
              (JDict [("email", JStr "user@example.com");
                      ("age", JInt 25);
                      ("active", JBool true)])
              eq_refl eq_refl) as [entries [Heq [Hkeys _]]].
  - repeat constructor; simpl; intuition discriminate.
  - reflexivity.
  - exists entries. split; [now rewrite <- Heq | exact Hkeys].
Defined.

(** *** Minimal examples *)

Lemma dict_get_set_cases (V : Type) k k' (v v' : V) d :
  dict_get k (dict_set k' v' d) = Some v ->
  (k = k' /\ v = v') \/ (k <> k' /\ dict_get k d = Some v).
Proof.
  destruct (String.eqb_spec k' k) as [->|Hne].
  - rewrite dict_get_set_same. intros [= ->]. now left.
  - rewrite dict_get_set_other by assumption. intros H. right. split; congruence.
Qed.

Lemma minimal_fields_collects properties : forall fields acc out,
  minimal_fields properties fields acc = Ok out ->
  (forall k, dict_has k out = true <->
             dict_has k acc = true
             \/ (In (JStr k) fields /\ dict_has k properties = true))
  /\ (forall k v, dict_get k out = Some v ->
        dict_get k acc = Some v
        \/ exists prop_schema,
             In (JStr k) fields
             /\ dict_get k properties = Some prop_schema
             /\ _create_example_value k prop_schema = Ok v).
Proof.
  induction fields as [|field fields IH]; intros acc out Hrun.
  - simpl in Hrun. injection Hrun as <-. split.
    + intros k. split; [tauto|]. intros [H|[[] _]]. exact H.
    + intros k v H. now left.
  - assert (Hskip : minimal_fields properties fields acc = Ok out ->
              (forall name, field = JStr name -> dict_has name properties = false) ->
              (forall k, dict_has k out = true <->
                         dict_has k acc = true
                         \/ (In (JStr k) (field :: fields) /\ dict_has k properties = true))
              /\ (forall k v, dict_get k out = Some v ->
                    dict_get k acc = Some v
                    \/ exists prop_schema,
                         In (JStr k) (field :: fields)
                         /\ dict_get k properties = Some prop_schema
                         /\ _create_example_value k prop_schema = Ok v)).
    { intros Hrest Hnot. destruct (IH _ _ Hrest) as [Hkeys Hvals]. split.
      - intros k. rewrite Hkeys. split.
        + intros [H|[H1 H2]]; [now left | right; split; [now right | exact H2]].
        + intros [H|[[H1|H1] H2]]; [now left | | right; now split].
          rewrite (Hnot k H1) in H2. discriminate.
      - intros k v Hv. destruct (Hvals k v Hv) as [H|[s [H1 [H2 H3]]]]; [now left|].
        right. exists s. split; [now right | now split]. }
    destruct field as [| | | |name| |]; simpl in Hrun;
      try (apply Hskip; [exact Hrun | intros ? [=]]); try discriminate.
    destruct (dict_get name properties) as [prop_schema|] eqn:Hprop.
    + apply bind_ok in Hrun. destruct Hrun as [value [Hvalue Hrun]].
      destruct (IH _ _ Hrun) as [Hkeys Hvals]. split.
      * intros k. rewrite Hkeys. split.
        -- intros [H|[H1 H2]].
           ++ destruct (String.eqb_spec name k) as [->|Hne].
              ** right. split; [now left|]. unfold dict_has. now rewrite Hprop.
              ** left. now rewrite dict_has_set_other in H by assumption.
           ++ right. split; [now right | exact H2].
        -- intros [H|[[H1|H1] H2]].
           ++ left. destruct (String.eqb_spec name k) as [->|Hne].
              ** apply dict_has_set_same.
              ** now rewrite dict_has_set_other by assumption.
           ++ injection H1 as ->. left. apply dict_has_set_same.
           ++ right. now split.
      * intros k v Hv. destruct (Hvals k v Hv) as [H|[s [H1 [H2 H3]]]].
        -- apply dict_get_set_cases in H. destruct H as [[-> ->]|[_ H]]; [|now left].
           right. exists prop_schema. split; [now left | now split].
        -- right. exists s. split; [now right | now split].
    + apply Hskip; [exact Hrun|]. intros n [= <-]. unfold dict_has. now rewrite Hprop.
Qed.

(** X3: the minimal example of a schema holds exactly the names that are
    listed under ['required'] and declared under ['properties'], each with
    the example of its own schema; a required name that is no property is
    left out without an error. *)
Theorem X3_minimal_example_holds_the_required_properties :
  forall d properties fields minimal,
    dict_get "required" d = Some (JList fields) ->
    dict_get "properties" d = Some (JDict properties) ->
    _create_minimal_example (JDict d) = Ok minimal ->
    exists entries,
      minimal = JDict entries
      /\ (forall name, dict_has name entries = true <->
                       In (JStr name) fields /\ dict_has name properties = true)
      /\ (forall name value,
            dict_get name entries = Some value ->
            exists prop_schema,
              dict_get name properties = Some prop_schema
              /\ _create_example_value name prop_schema = Ok value).
Proof.
  intros d properties fields minimal Hreq Hprops.
  unfold _create_minimal_example. cbn [py_get bind]. rewrite Hreq, Hprops.
  cbn [bind py_iter py_items]. intros Hrun.
  destruct (minimal_fields properties fields []) as [entries|] eqn:Hloop; [|discriminate].
  injection Hrun as <-.
  destruct (minimal_fields_collects _ _ _ _ Hloop) as [Hkeys Hvals].
  exists entries. split; [reflexivity|]. split.
  - intros name. rewrite Hkeys. cbn. split; [intros [H|H]; [discriminate | exact H] | tauto].
  - intros name value Hv. destruct (Hvals _ _ Hv) as [H|[s [_ H]]]; [discriminate | eauto].
Qed.

Lemma X3_minimal_example_witness :
  exists entries,
    _create_minimal_example (JDict profile_fields) = Ok (JDict entries)
    /\ dict_has "name" entries = true
    /\ dict_has "email" entries = false
    /\ dict_has "nickname" entries = false.
Proof.
  destruct (X3_minimal_example_holds_the_required_properties
              profile_fields profile_properties [JStr "name"; JStr "nickname"]
              (JDict [("name", JStr "John Doe")]) eq_refl eq_refl eq_refl)
    as [entries [Heq [Hkeys _]]].
  exists entries. split; [now rewrite <- Heq|]. split; [|split].
  - apply Hkeys. split; [now left | reflexivity].
  - destruct (dict_has "email" entries) eqn:E; [|reflexivity].
    apply Hkeys in E. destruct E as [[E|[E|[]]] _]; discriminate.
  - destruct (dict_has "nickname" entries) eqn:E; [|reflexivity].
    apply Hkeys in E. destruct E as [_ E]. discriminate.
Defined.

(** X4: for an object schema whose properties have distinct names, every
    entry of the minimal example is an entry of the full example, with the
    same value. *)
Theorem X4_minimal_example_is_part_of_the_full_one :
  forall d properties fields minimal full,
    dict_get "type" d = Some (JStr "object") ->
    dict_get "required" d = Some (JList fields) ->
    dict_get "properties" d = Some (JDict properties) ->
    NoDup (dict_keys properties) ->
    _create_minimal_example (JDict d) = Ok (JDict minimal) ->
    _create_example_from_schema (JDict d) = Ok (JDict full) ->
    forall name value,
      dict_get name minimal = Some value -> dict_get name full = Some value.
Proof.
  intros d properties fields minimal full Hty Hreq Hprops Hnd Hmin Hfull name value Hv.
  (* the minimal entry comes from the schema of the property *)
  unfold _create_minimal_example in Hmin. cbn [py_get bind] in Hmin.
  rewrite Hreq, Hprops in Hmin. cbn [bind py_iter py_items] in Hmin.
  destruct (minimal_fields properties fields []) as [entries|] eqn:Hloop; [|discriminate].
  injection Hmin as <-.
  destruct (proj2 (minimal_fields_collects _ _ _ _ Hloop) _ _ Hv)
    as [H|[prop_schema [_ [Hget Hvalue]]]]; [discriminate|].
  (* and so does the full one *)
  unfold _create_example_from_schema in Hfull. cbn [py_get bind] in Hfull.
  rewrite Hty in Hfull. cbn [bind py_is_str] in Hfull. rewrite Hprops in Hfull.
  cbn [bind py_items] in Hfull.
  destruct (for_items _create_example_value properties []) as [out|] eqn:Hitems;
    [|discriminate].
  injection Hfull as <-.
  destruct (for_items_appends _ _ _ _ _ _ Hitems Hnd (fun _ _ => eq_refl))
    as [values [Hall ->]].
  destruct (combine_lookup _ _ _ _ _ _ _ Hall Hget) as [value' [Hfound Hsame]].
  simpl in Hsame. rewrite Hvalue in Hsame. injection Hsame as <-. exact Hfound.
Qed.

Lemma X4_minimal_in_full_witness :
  dict_get "name" [("name", JStr "John Doe"); ("email", JStr "user@example.com")]
  = Some (JStr "John Doe").
Proof.
  apply (X4_minimal_example_is_part_of_the_full_one
           profile_fields profile_properties [JStr "name"; JStr "nickname"]
           [("name", JStr "John Doe")]
           [("name", JStr "John Doe"); ("email", JStr "user@example.com")]
           eq_refl eq_refl eq_refl).
  - repeat constructor; simpl; intuition discriminate.
  - reflexivity.
  - reflexivity.
  - reflexivity.
Defined.

(** X5: on a schema without an explicit example the two entry points of
    the synthesis agree: [_create_example_from_schema] gives what
    [_create_example_value] gives for the field name ['value'], and for an
    object or an array schema what it gives for any field name. *)
Theorem X5_entry_points_agree_without_example :
  forall d,
    dict_get "example" d = None ->
    _create_example_from_schema (JDict d) = _create_example_value "value" (JDict d)
    /\ (forall field_name,
          declared_type d = JStr "object" \/ declared_type d = JStr "array" ->
          _create_example_value field_name (JDict d)
          = _create_example_from_schema (JDict d)).
Proof.
  intros d Hex.
  assert (Hany : forall field_name,
             declared_type d = JStr "object" \/ declared_type d = JStr "array" ->
             _create_example_value field_name (JDict d)
             = _create_example_from_schema (JDict d)).
  { intros field_name Hty. rewrite _create_example_value_unfold.
    cbn [py_get py_in bind]. unfold dict_has, declared_type in *. rewrite Hex.
    destruct (dict_get "type" d) as [t|] eqn:Et; [|destruct Hty; discriminate].
    destruct (dict_get "format" d); cbn [bind];
      destruct Hty as [-> | ->]; cbn [py_is_str String.eqb Ascii.eqb Bool.eqb];
      try reflexivity;
      unfold _create_example_from_schema; cbn [py_get bind]; rewrite Et;
      reflexivity. }
  split; [|exact Hany].
  destruct (py_is_str (declared_type d) "object") eqn:Eo.
  { apply py_is_str_true in Eo. symmetry. apply Hany. now left. }
  destruct (py_is_str (declared_type d) "array") eqn:Ea.
  { apply py_is_str_true in Ea. symmetry. apply Hany. now right. }
  unfold _create_example_from_schema, declared_type in *. cbn [py_get bind].
  destruct (dict_get "type" d) as [t|]; cbn [bind]; [|reflexivity].
  now rewrite Eo, Ea.
Qed.

Lemma X5_entry_points_witness :
  _create_example_from_schema account_schema
  = _create_example_value "anything" account_schema.
Proof.
  symmetry.
  apply (proj2 (X5_entry_points_agree_without_example
                  [("type", JStr "object");
                   ("properties",
                    JDict [("email", JDict [("type", JStr "string")]);
                           ("age", JDict [("type", JStr "integer")]);
                           ("active", JDict [("type", JStr "boolean")])])]
                  eq_refl)).
  now left.
Defined.

(** ** What enrichment keeps and what it adds *)

Lemma dict_has_set_mono (V : Type) k k' (v : V) d :
  dict_has k d = true -> dict_has k (dict_set k' v d) = true.
Proof.
  intros H. destruct (String.eqb_spec k' k) as [->|Hne].
  - apply dict_has_set_same.
  - now rewrite dict_has_set_other.
Qed.

(** Each block after the first returns its input or its input with a new
    value under the key of the block. *)
Lemma block_writes_one_key (block : json -> result json) key :
  In (block, key)
     [(enhance_info, "info"); (add_security_schemes, "components");
      (add_tags, "tags"); (enhance_all_paths, "paths")] ->
  forall d out,
    block (JDict d) = Ok out ->
    out = JDict d \/ exists v, out = JDict (dict_set key v d).
Proof.
  intros Hin d out Hrun.
  destruct Hin as [Hin|[Hin|[Hin|[Hin|[]]]]]; injection Hin as <- <-.
  - apply enhance_info_ok in Hrun. destruct Hrun as [i [_ ->]]. eauto.
  - apply add_security_schemes_ok in Hrun.
    destruct Hrun as [[_ ->]|[[c [_ [_ ->]]]|[c [_ [_ ->]]]]]; eauto.
  - apply add_tags_ok in Hrun. destruct Hrun as [[_ ->]|[_ [p [t [_ [_ ->]]]]]]; eauto.
  - apply enhance_all_paths_ok in Hrun.
    destruct Hrun as [[_ ->]|[items [items' [_ [_ ->]]]]]; eauto.
Qed.

Lemma block_keeps_keys (block : json -> result json) key :
  In (block, key)
     [(enhance_info, "info"); (add_security_schemes, "components");
      (add_tags, "tags"); (enhance_all_paths, "paths")] ->
  forall d d',
    block (JDict d) = Ok (JDict d') ->
    forall k, dict_has k d = true -> dict_has k d' = true.
Proof.
  intros Hin d d' H k Hk.
  destruct (block_writes_one_key _ _ Hin _ _ H) as [[= <-]|[v [= ->]]];
    [assumption | now apply dict_has_set_mono].
Qed.

(** X6: the top level of an enriched specification.  Keys other than
    [servers], [info], [components], [tags] and [paths] keep their values
    (the [openapi] version among them), no key is lost, [servers] holds the
    fixed list whatever was there before, and [info], [components] and
    [tags] exist. *)
Theorem X6_top_level_after_enrichment :
  forall d out,
    _enhance_openapi_spec (JDict d) = Ok out ->
    exists d',
      out = JDict d'
      /\ (forall k, ~ In k enriched_keys -> dict_get k d' = dict_get k d)
      /\ (forall k, dict_has k d = true -> dict_has k d' = true)
      /\ dict_get "servers" d' = Some default_servers
      /\ dict_has "info" d' = true
      /\ dict_has "components" d' = true
      /\ dict_has "tags" d' = true.
Proof.
  intros d out Hrun. apply _enhance_openapi_spec_ok in Hrun.
  destruct Hrun as [d0 [s1 [s2 [s3 [s4 [s5 [[= <-] [-> [Hs [Hi [Hc [Ht Hp]]]]]]]]]]]].
  destruct (@enhance_info_frame _ _ Hi) as [x [[= <-] Fi]].
  destruct (@add_security_schemes_frame _ _ Hc) as [y [[= <-] Fc]].
  destruct (@add_tags_frame _ _ Ht) as [z [[= <-] [Ft Htags]]].
  destruct (@enhance_all_paths_frame _ _ Hp) as [w [[= <-] Fp]].
  pose proof (block_keeps_keys enhance_info "info" ltac:(simpl; tauto) _ _ Hi) as Ki.
  pose proof (block_keeps_keys add_security_schemes "components"
                ltac:(simpl; tauto) _ _ Hc) as Kc.
  pose proof (block_keeps_keys add_tags "tags" ltac:(simpl; tauto) _ _ Ht) as Kt.
  pose proof (block_keeps_keys enhance_all_paths "paths" ltac:(simpl; tauto) _ _ Hp) as Kp.
  exists s5. split; [reflexivity|]. repeat split.
  - intros k Hk. unfold enriched_keys in Hk. simpl in Hk.
    rewrite Fp, Ft, Fc, Fi by intuition. subst s1.
    apply dict_get_set_other. intuition.
  - intros k Hk. apply Kp, Kt, Kc, Ki. subst s1. now apply dict_has_set_mono.
  - rewrite Fp, Ft, Fc, Fi by discriminate. subst s1. apply dict_get_set_same.
  - apply Kp, Kt, Kc. apply enhance_info_ok in Hi. destruct Hi as [i [_ [= ->]]].
    apply dict_has_set_same.
  - apply Kp, Kt. apply add_security_schemes_ok in Hc.
    destruct Hc as [[_ [= ->]]|[[c [_ [_ [= ->]]]]|[c [Hd [_ [= ->]]]]]];
      try apply dict_has_set_same.
    unfold dict_has. now rewrite Hd.
  - now apply Kp.
Qed.

Lemma X6_top_level_witness :
  exists d',
    _enhance_openapi_spec shop_spec = Ok (JDict d')
    /\ dict_get "openapi" d' = Some (JStr "3.0.0")
    /\ dict_get "servers" d' = Some default_servers.
Proof.
  destruct (_enhance_openapi_spec_returns shop_spec eq_refl) as [out Hrun].
  destruct (X6_top_level_after_enrichment shop_fields out Hrun)
    as [d' [-> [Hother [_ [Hservers _]]]]].
  exists d'. split; [exact Hrun|]. split; [|exact Hservers].
  rewrite Hother; [reflexivity|].
  unfold enriched_keys. simpl. intuition discriminate.
Defined.

(** *** Paths, methods and operations *)

Lemma for_each_pointwise (V : Type) (body : string -> V -> result V) d :
  forall d',
    for_each body d = Ok d' ->
    Forall2 (fun entry entry' =>
               fst entry' = fst entry /\ body (fst entry) (snd entry) = Ok (snd entry'))
            d d'.
Proof.
  induction d as [|[k v] d IH]; simpl; intros d' H.
  - injection H as <-. constructor.
  - destruct (body k v) as [v'|] eqn:Hb; [|discriminate].
    destruct (for_each body d) as [r|]; [|discriminate].
    injection H as <-. constructor; [now split | now apply IH].
Qed.

Lemma for_each_keys (V : Type) (body : string -> V -> result V) d d' :
  for_each body d = Ok d' -> dict_keys d' = dict_keys d.
Proof.
  intros H. apply for_each_pointwise in H. unfold dict_keys.
  induction H as [|e e' d d' [Hk _] _ IH]; simpl; [reflexivity | now rewrite Hk, IH].
Qed.

Lemma for_each_lookup (V : Type) (body : string -> V -> result V) d d' k :
  for_each body d = Ok d' ->
  (forall v, dict_get k d = Some v ->
             exists v', dict_get k d' = Some v' /\ body k v = Ok v')
  /\ (forall v', dict_get k d' = Some v' ->
                 exists v, dict_get k d = Some v /\ body k v = Ok v').
Proof.
  intros H. apply for_each_pointwise in H.
  induction H as [|[k0 v0] [k0' v0'] d d' [Hk Hb] _ [IH1 IH2]]; simpl in *.
  - split; intros ? [=].
  - subst k0'. destruct (String.eqb_spec k0 k) as [->|_].
    + split; intros ? [= <-]; eauto.
    + split; assumption.
Qed.

Lemma for_each_members (V : Type) (body : string -> V -> result V) d d' k v' :
  for_each body d = Ok d' ->
  In (k, v') d' -> exists v, In (k, v) d /\ body k v = Ok v'.
Proof.
  intros H. apply for_each_pointwise in H.
  induction H as [|[k0 v0] [k0' v0'] d d' [Hk Hb] _ IH]; simpl in *; [tauto|].
  subst k0'. intros [[= -> ->]|Hin].
  - eauto.
  - destruct (IH Hin) as [v [Hv Hbody]]. eauto.
Qed.

Lemma dict_keys_set_present (V : Type) k (v : V) d :
  dict_has k d = true -> dict_keys (dict_set k v d) = dict_keys d.
Proof.
  unfold dict_has, dict_keys. induction d as [|[k' v'] d IH]; simpl; [discriminate|].
  destruct (String.eqb_spec k' k) as [->|_]; simpl; [reflexivity|].
  intros H. now rewrite IH.
Qed.

(** The run of [enhance_contents] that returns. *)
Lemma enhance_contents_ok examples_for holder holder' :
  enhance_contents examples_for holder = Ok holder' ->
  exists h,
    holder = JDict h
    /\ ((dict_get "content" h = None /\ holder' = holder)
        \/ exists items items',
             dict_get "content" h = Some (JDict items)
             /\ for_each (fun _ content => enhance_content examples_for content) items
                = Ok items'
             /\ holder' = JDict (dict_set "content" (JDict items') h)).
Proof.
  unfold enhance_contents. intros H.
  destruct holder as [| | | | | |h]; try discriminate. exists h. split; [reflexivity|].
  cbn [py_get] in H.
  destruct (dict_get "content" h) as [contents|] eqn:E; cbn [bind] in H.
  - destruct contents as [| | | | | |items]; try discriminate. cbn [py_items bind] in H.
    destruct (for_each _ items) as [items'|] eqn:Hloop; [|discriminate].
    cbn [bind] in H. injection H as <-.
    assert (Hh : dict_has "content" h = true) by (unfold dict_has; now rewrite E).
    try rewrite (store_back_present _ _ _ Hh). try rewrite Hh.
    right. exists items, items'. auto.
  - cbn in H. unfold dict_has in H. rewrite E in H. injection H as <-. now left.
Qed.

(** The run of [_enhance_operation] that returns: first the request body,
    then the responses. *)
Lemma _enhance_operation_ok operation operation' :
  _enhance_operation operation = Ok operation' ->
  exists o o1,
    operation = JDict o
    /\ ((dict_get "requestBody" o = None /\ o1 = o)
        \/ exists request_body request_body',
             dict_get "requestBody" o = Some request_body
             /\ enhance_contents _generate_examples_from_schema request_body
                = Ok request_body'
             /\ o1 = dict_set "requestBody" request_body' o)
    /\ ((dict_get "responses" o1 = None /\ operation' = JDict o1)
        \/ exists items items',
             dict_get "responses" o1 = Some (JDict items)
             /\ for_each (fun status_code response =>
                            enhance_contents (_generate_response_examples status_code)
                                             response)
                         items = Ok items'
             /\ operation' = JDict (dict_set "responses" (JDict items') o1)).
Proof.
  unfold _enhance_operation. intros H.
  apply bind_ok in H. destruct H as [has_body [Hin H]].
  apply bind_ok in H. destruct H as [after_body [Hbody H]].
  assert (exists o, operation = JDict o) as [o ->].
  { destruct operation; try discriminate; eauto;
      destruct has_body; try (injection Hbody as <-; discriminate);
      apply bind_ok in Hbody; destruct Hbody as [? [? _]]; discriminate. }
  cbn [py_in] in Hin. injection Hin as <-.
  assert (exists o1, after_body = JDict o1
            /\ ((dict_get "requestBody" o = None /\ o1 = o)
                \/ exists request_body request_body',
                     dict_get "requestBody" o = Some request_body
                     /\ enhance_contents _generate_examples_from_schema request_body
                        = Ok request_body'
                     /\ o1 = dict_set "requestBody" request_body' o))
    as [o1 [-> Hfirst]].
  { unfold dict_has in Hbody. cbn [py_getitem] in Hbody.
    destruct (dict_get "requestBody" o) as [request_body|] eqn:E.
    - cbn [bind] in Hbody. apply bind_ok in Hbody.
      destruct Hbody as [request_body' [Hrb Hbody]]. injection Hbody as <-.
      assert (Hh : dict_has "requestBody" o = true) by (unfold dict_has; now rewrite E).
    try rewrite (store_back_present _ _ _ Hh). try rewrite Hh.
      eexists. split; [reflexivity|]. right. eauto.
    - injection Hbody as <-. exists o. split; [reflexivity | now left]. }
  exists o, o1. split; [reflexivity|]. split; [exact Hfirst|].
  cbn [py_get] in H.
  destruct (dict_get "responses" o1) as [responses|] eqn:E; cbn [bind] in H.
  - destruct responses as [| | | | | |items]; try discriminate. cbn [py_items bind] in H.
    destruct (for_each _ items) as [items'|] eqn:Hloop; [|discriminate].
    cbn [bind] in H. injection H as <-.
    assert (Hh : dict_has "responses" o1 = true) by (unfold dict_has; now rewrite E).
    try rewrite (store_back_present _ _ _ Hh). try rewrite Hh.
    right. exists items, items'. auto.
  - cbn in H. unfold dict_has in H. rewrite E in H. injection H as <-. now left.
Qed.

(** X7: an operation keeps its keys, in their order, and every value that
    is not under ['requestBody'] or ['responses']: its summary, operation
    id, parameters and tags come out of [_enhance_operation] as they went
    in. *)
Theorem X7_operation_keeps_its_other_entries :
  forall operation operation',
    _enhance_operation operation = Ok operation' ->
    exists o o',
      operation = JDict o /\ operation' = JDict o'
      /\ dict_keys o' = dict_keys o
      /\ (forall k, k <> "requestBody" -> k <> "responses" ->
                    dict_get k o' = dict_get k o).
Proof.
  intros operation operation' H.
  destruct (_enhance_operation_ok _ _ H) as [o [o1 [-> [Hfirst Hsecond]]]].
  assert (dict_keys o1 = dict_keys o
          /\ forall k, k <> "requestBody" -> dict_get k o1 = dict_get k o) as [K1 G1].
  { destruct Hfirst as [[_ ->]|[rb [rb' [E [_ ->]]]]]; [now split|]. split.
    - apply dict_keys_set_present. unfold dict_has. now rewrite E.
    - intros k Hk. apply dict_get_set_other. congruence. }
  destruct Hsecond as [[_ ->]|[items [items' [E [_ ->]]]]].
  - exists o, o1. repeat split; auto.
  - eexists o, _. repeat split.
    + rewrite dict_keys_set_present by (unfold dict_has; now rewrite E). exact K1.
    + intros k Hb Hr. rewrite dict_get_set_other by congruence. now apply G1.
Qed.

Lemma X7_operation_witness :
  exists o',
    _enhance_operation
      (JDict [("operationId", JStr "create_order");
              ("responses", JDict [("204", JDict [("description", JStr "Done")])])])
    = Ok (JDict o')
    /\ dict_get "operationId" o' = Some (JStr "create_order").
Proof.
  destruct (X7_operation_keeps_its_other_entries
              (JDict [("operationId", JStr "create_order");
                      ("responses", JDict [("204", JDict [("description", JStr "Done")])])])
              _ eq_refl) as [o [o' [Ho [Ho' [_ Hkeep]]]]].
  exists o'. split; [now rewrite <- Ho'|].
  injection Ho as <-. rewrite Hkeep by discriminate. reflexivity.
Defined.

(** *** Contents *)

Lemma enhance_content_adds examples_for content content' :
  enhance_content examples_for content = Ok content' ->
  adds_examples content content'.
Proof.
  unfold enhance_content, adds_examples. intros H.
  apply bind_ok in H. destruct H as [has_schema [Hs H]].
  destruct has_schema; [|injection H as <-; now left].
  apply bind_ok in H. destruct H as [has_examples [He H]].
  destruct has_examples; cbn [negb] in H; [injection H as <-; now left|].
  apply bind_ok in H. destruct H as [schema [Hget H]].
  apply bind_ok in H. destruct H as [examples [_ H]].
  destruct content as [| | | | | |c]; try discriminate.
  cbn in Hs, He, H. injection Hs as Hs. injection He as He. injection H as <-.
  apply dict_has_false in He.
  right. exists c, examples. rewrite dict_set_absent by assumption. auto.
Qed.

Lemma enhance_content_completes examples_for content content' :
  enhance_content examples_for content = Ok content' ->
  content_complete content'.
Proof.
  unfold enhance_content, content_complete. intros H.
  apply bind_ok in H. destruct H as [has_schema [Hs H]].
  destruct has_schema; [|injection H as <-; congruence].
  apply bind_ok in H. destruct H as [has_examples [He H]].
  destruct has_examples; cbn [negb] in H; [injection H as <-; now intros _|].
  apply bind_ok in H. destruct H as [schema [Hget H]].
  apply bind_ok in H. destruct H as [examples [_ H]].
  destruct content as [| | | | | |c]; try discriminate.
  cbn in H. injection H as <-. intros _. cbn. now rewrite dict_has_set_same.
Qed.

Lemma contents_of_set items h :
  contents_of (JDict (dict_set "content" (JDict items) h)) = items.
Proof. unfold contents_of. now rewrite dict_get_set_same. Qed.

Lemma enhance_contents_extends examples_for holder holder' :
  enhance_contents examples_for holder = Ok holder' ->
  (forall content_type content,
      dict_get content_type (contents_of holder) = Some content ->
      exists content',
        dict_get content_type (contents_of holder') = Some content'
        /\ adds_examples content content')
  /\ (forall content_type content',
        In (content_type, content') (contents_of holder') ->
        content_complete content').
Proof.
  intros H. destruct (enhance_contents_ok _ _ _ H) as [h [-> Hcases]].
  destruct Hcases as [[E ->]|[items [items' [E [Hloop ->]]]]].
  - unfold contents_of. rewrite E. split; [intros ? ? [=] | intros ? ? []].
  - rewrite contents_of_set. unfold contents_of at 1. rewrite E. split.
    + intros content_type content Hget.
      destruct (proj1 (for_each_lookup _ _ _ _ content_type Hloop) _ Hget)
        as [content' [Hget' Hbody]].
      exists content'. split; [exact Hget'|]. now apply enhance_content_adds in Hbody.
    + intros content_type content' Hin.
      destruct (for_each_members _ _ _ _ _ _ Hloop Hin) as [content [_ Hbody]].
      now apply enhance_content_completes in Hbody.
Qed.

(** Where the request body and the responses of an operation are after
    [_enhance_operation], and what was done to each of them. *)
Lemma _enhance_operation_holders operation operation' position :
  _enhance_operation operation = Ok operation' ->
  (forall holder,
      holder_at operation position = Some holder ->
      exists holder' examples_for,
        holder_at operation' position = Some holder'
        /\ enhance_contents examples_for holder = Ok holder')
  /\ (forall holder',
        holder_at operation' position = Some holder' ->
        exists holder examples_for,
          enhance_contents examples_for holder = Ok holder').
Proof.
  intros H. destruct (_enhance_operation_ok _ _ H) as [o [o1 [-> [Hfirst Hsecond]]]].
  assert (Hresp : dict_get "responses" o1 = dict_get "responses" o).
  { destruct Hfirst as [[_ ->]|[rb [rb' [_ [_ ->]]]]]; [reflexivity|].
    now apply dict_get_set_other. }
  assert (Hbody' : forall o',
             operation' = JDict o' ->
             dict_get "requestBody" o' = dict_get "requestBody" o1).
  { intros o' ->. destruct Hsecond as [[_ [= ->]]|[items [items' [_ [_ [= ->]]]]]];
      [reflexivity | now apply dict_get_set_other]. }
  destruct position as [status_code|]; cbn [holder_at].
  - (* a response *)
    unfold responses_of.
    destruct Hsecond as [[E ->]|[items [items' [E [Hloop ->]]]]].
    + rewrite <- Hresp, E. cbn. split; [intros ? [=] | intros ? [=]].
    + rewrite <- Hresp, E, dict_get_set_same.
      destruct (for_each_lookup _ _ _ _ status_code Hloop) as [Hfwd Hback]. split.
      * intros holder Hget. destruct (Hfwd _ Hget) as [holder' [Hget' Hrun]]. eauto.
      * intros holder' Hget'. destruct (Hback _ Hget') as [holder [_ Hrun]]. eauto.
  - (* the request body *)
    assert (exists o', operation' = JDict o') as [o' ->].
    { destruct Hsecond as [[_ ->]|[? [? [_ [_ ->]]]]]; eauto. }
    rewrite (Hbody' o' eq_refl).
    destruct Hfirst as [[E ->]|[rb [rb' [E [Hrun ->]]]]].
    + rewrite E. split; [intros ? [=] | intros ? [=]].
    + rewrite E, dict_get_set_same. split.
      * intros holder [= <-]. eauto.
      * intros holder' [= <-]. eauto.
Qed.

(** X8: [_enhance_operation] only adds examples.  Every content of the
    request body and of every response is still there after the call, under
    the same content type, either unchanged or with an ['examples'] entry
    put after the entries it had: schemas and examples that were present
    are not touched. *)
Theorem X8_contents_only_gain_examples :
  forall operation operation' position holder content_type content,
    _enhance_operation operation = Ok operation' ->
    holder_at operation position = Some holder ->
    dict_get content_type (contents_of holder) = Some content ->
    exists holder' content',
      holder_at operation' position = Some holder'
      /\ dict_get content_type (contents_of holder') = Some content'
      /\ adds_examples content content'.
Proof.
  intros operation operation' position holder content_type content Hrun Hholder Hget.
  destruct (proj1 (_enhance_operation_holders _ _ position Hrun) _ Hholder)
    as [holder' [examples_for [Hat Hcontents]]].
  destruct (proj1 (enhance_contents_extends _ _ _ Hcontents) _ _ Hget)
    as [content' [Hget' Hadds]].
  eauto.
Qed.

(** X9: after [_enhance_operation] every content of the request body and of
    every response that has a schema has examples. *)
Theorem X9_contents_with_schema_have_examples :
  forall operation operation' position holder' content_type content',
    _enhance_operation operation = Ok operation' ->
    holder_at operation' position = Some holder' ->
    In (content_type, content') (contents_of holder') ->
    content_complete content'.
Proof.
  intros operation operation' position holder' content_type content' Hrun Hholder Hin.
  destruct (proj2 (_enhance_operation_holders _ _ position Hrun) _ Hholder)
    as [holder [examples_for Hcontents]].
  exact (proj2 (enhance_contents_extends _ _ _ Hcontents) _ _ Hin).
Qed.

Lemma X8_contents_witness :
  exists operation' holder' content',
    _enhance_operation upload_operation = Ok operation'
    /\ holder_at operation' (Some "200") = Some holder'
    /\ dict_get "application/json" (contents_of holder') = Some content'
    /\ adds_examples
         (JDict [("schema", integer_schema);
                 ("examples", JDict [("stored", JDict [("value", JInt 7)])])])
         content'.
Proof.
  destruct (operation_ok_returns upload_operation eq_refl) as [operation' Hrun].
  destruct (X8_contents_only_gain_examples
              upload_operation operation' (Some "200") upload_response
              "application/json" _ Hrun eq_refl eq_refl)
    as [holder' [content' [Hat [Hget Hadds]]]].
  exists operation', holder', content'. auto.
Defined.

Lemma X9_contents_witness :
  exists operation' holder' content',
    _enhance_operation upload_operation = Ok operation'
    /\ holder_at operation' None = Some holder'
    /\ In ("application/json", content') (contents_of holder')
    /\ content_complete content'.
Proof.
  destruct (operation_ok_returns upload_operation eq_refl) as [operation' Hrun].
  destruct (proj1 (_enhance_operation_holders _ _ None Hrun) upload_body eq_refl)
    as [holder' [examples_for [Hat Hcontents]]].
  destruct (proj1 (enhance_contents_extends _ _ _ Hcontents)
              "application/json" _ eq_refl) as [content' [Hget _]].
  exists operation', holder', content'. repeat split; try assumption.
  - now apply dict_get_in.
  - apply (X9_contents_with_schema_have_examples
             upload_operation operation' None holder' "application/json" content'
             Hrun Hat).
    now apply dict_get_in.
Defined.

(** *** Paths and tags of the whole specification *)

(** What a returning run leaves under ['paths'] and ['tags']. *)
Lemma enriched_paths_and_tags d out :
  _enhance_openapi_spec (JDict d) = Ok out ->
  exists d' s3,
    out = JDict d'
    /\ dict_get "paths" s3 = dict_get "paths" d
    /\ dict_get "tags" s3 = dict_get "tags" d
    /\ ((dict_get "tags" s3 = dict_get "tags" d' /\ dict_has "tags" s3 = true)
        \/ (dict_has "tags" s3 = false
            /\ exists paths tags,
                 py_get (JDict s3) "paths" (JDict []) = Ok paths
                 /\ _generate_tags_from_paths paths = Ok tags
                 /\ dict_get "tags" d' = Some tags))
    /\ ((dict_get "paths" d = None /\ dict_get "paths" d' = None)
        \/ exists items items',
             dict_get "paths" d = Some (JDict items)
             /\ enhance_paths items = Ok items'
             /\ dict_get "paths" d' = Some (JDict items')).
Proof.
  intros Hrun. apply _enhance_openapi_spec_ok in Hrun.
  destruct Hrun as [d0 [s1 [s2 [s3 [s4 [s5 [[= <-] [-> [Hs [Hi [Hc [Ht Hp]]]]]]]]]]]].
  destruct (@enhance_info_frame _ _ Hi) as [x [[= <-] Fi]].
  destruct (@add_security_schemes_frame _ _ Hc) as [y [[= <-] Fc]].
  destruct (@add_tags_frame _ _ Ht) as [z [[= <-] [Ft _]]].
  destruct (@enhance_all_paths_frame _ _ Hp) as [w [[= <-] Fp]].
  assert (G : forall k, k <> "components" -> k <> "info" -> k <> "servers" ->
                        dict_get k s3 = dict_get k d).
  { intros k H1 H2 H3. rewrite Fc, Fi by assumption. subst s1.
    apply dict_get_set_other. congruence. }
  exists s5, s3. split; [reflexivity|].
  split; [apply G; discriminate|]. split; [apply G; discriminate|]. split.
  - rewrite (Fp "tags") by discriminate.
    apply add_tags_ok in Ht.
    destruct Ht as [[Hhas [= ->]]|[Hno [paths [tags [Hget [Hgen [= ->]]]]]]].
    + left. auto.
    + right. split; [assumption|]. exists paths, tags.
      rewrite dict_get_set_same. auto.
  - assert (dict_get "paths" s4 = dict_get "paths" d) as G4.
    { rewrite Ft by discriminate. apply G; discriminate. }
    apply enhance_all_paths_ok in Hp. rewrite G4 in Hp.
    destruct Hp as [[Hnone [= ->]]|[items [items' [Hsome [Henh [= ->]]]]]].
    + left. split; [assumption | congruence].
    + right. exists items, items'. rewrite dict_get_set_same. auto.
Qed.

Lemma enhance_paths_lookup items items' route_path method :
  enhance_paths items = Ok items' ->
  (forall operation,
      operation_at (JDict [("paths", JDict items)]) route_path method = Some operation ->
      exists operation',
        operation_at (JDict [("paths", JDict items')]) route_path method = Some operation'
        /\ _enhance_operation operation = Ok operation')
  /\ (forall operation',
        operation_at (JDict [("paths", JDict items')]) route_path method = Some operation' ->
        exists operation,
          operation_at (JDict [("paths", JDict items)]) route_path method = Some operation
          /\ _enhance_operation operation = Ok operation').
Proof.
  unfold enhance_paths. intros Hloop. cbn [operation_at dict_get String.eqb Ascii.eqb Bool.eqb].
  destruct (for_each_lookup _ _ _ _ route_path Hloop) as [Hfwd Hback]. split.
  - intros operation Hat.
    destruct (dict_get route_path items) as [[| | | | | |ms]|] eqn:E; try discriminate.
    destruct (Hfwd _ eq_refl) as [methods' [Hget' Hbody]].
    cbn [py_items bind] in Hbody. apply bind_ok in Hbody.
    destruct Hbody as [ms' [Hops [= <-]]].
    rewrite Hget'.
    destruct (proj1 (for_each_lookup _ _ _ _ method Hops) _ Hat) as [operation' [H1 H2]].
    eauto.
  - intros operation' Hat.
    destruct (dict_get route_path items') as [[| | | | | |ms']|] eqn:E; try discriminate.
    destruct (Hback _ eq_refl) as [methods [Hget Hbody]].
    apply bind_ok in Hbody. destruct Hbody as [ms [Hitems Hbody]].
    apply bind_ok in Hbody. destruct Hbody as [ms'' [Hops [= <-]]].
    destruct methods as [| | | | | |ms0]; try discriminate. injection Hitems as <-.
    rewrite Hget.
    destruct (proj2 (for_each_lookup _ _ _ _ method Hops) _ Hat) as [operation [H1 H2]].
    eauto.
Qed.

(** X10: enrichment neither adds nor removes a path or a method.  The
    paths keep their order, and the operation found under a path and a
    method afterwards is the one that was there, passed through
    [_enhance_operation]. *)
Theorem X10_enrichment_keeps_paths_and_methods :
  forall d out,
    _enhance_openapi_spec (JDict d) = Ok out ->
    (forall paths,
        dict_get "paths" d = Some (JDict paths) ->
        exists d' paths',
          out = JDict d'
          /\ dict_get "paths" d' = Some (JDict paths')
          /\ dict_keys paths' = dict_keys paths)
    /\ (forall route_path method operation,
          operation_at (JDict d) route_path method = Some operation ->
          exists operation',
            operation_at out route_path method = Some operation'
            /\ _enhance_operation operation = Ok operation')
    /\ (forall route_path method operation',
          operation_at out route_path method = Some operation' ->
          exists operation,
            operation_at (JDict d) route_path method = Some operation
            /\ _enhance_operation operation = Ok operation').
Proof.
  intros d out Hrun.
  destruct (enriched_paths_and_tags _ _ Hrun) as [d' [s3 [-> [_ [_ [_ Hpaths]]]]]].
  destruct Hpaths as [[Hnone Hnone']|[items [items' [Hsome [Henh Hsome']]]]].
  - split; [|split].
    + intros paths H. congruence.
    + intros ? ? ? H. cbn [operation_at] in H. rewrite Hnone in H. discriminate.
    + intros ? ? ? H. cbn [operation_at] in H. rewrite Hnone' in H. discriminate.
  - split; [|split].
    + intros paths H. rewrite Hsome in H. injection H as <-.
      exists d', items'. split; [reflexivity|]. split; [assumption|].
      unfold enhance_paths in Henh. exact (for_each_keys _ _ _ _ Henh).
    + intros route_path method operation H.
      cbn [operation_at] in *. rewrite Hsome in H. rewrite Hsome'.
      exact (proj1 (enhance_paths_lookup _ _ route_path method Henh) _ H).
    + intros route_path method operation' H.
      cbn [operation_at] in *. rewrite Hsome' in H. rewrite Hsome.
      exact (proj2 (enhance_paths_lookup _ _ route_path method Henh) _ H).
Qed.

Lemma X10_paths_witness :
  exists out operation',
    _enhance_openapi_spec shop_spec = Ok out
    /\ operation_at out "/api/orders" "post" = Some operation'
    /\ operation_at out "/api/orders" "get" = None.
Proof.
  destruct (_enhance_openapi_spec_returns shop_spec eq_refl) as [out Hrun].
  destruct (X10_enrichment_keeps_paths_and_methods shop_fields out Hrun)
    as [_ [Hfwd Hback]].
  destruct (operation_at shop_spec "/api/orders" "post") as [operation|] eqn:E;
    [|discriminate].
  destruct (Hfwd "/api/orders" "post" operation E) as [operation' [Hat _]].
  exists out, operation'. split; [exact Hrun|]. split; [exact Hat|].
  destruct (operation_at out "/api/orders" "get") as [stray|] eqn:Eget; [|reflexivity].
  destruct (Hback _ _ _ Eget) as [operation0 [Habs _]]. discriminate.
Defined.

(** X11: tags that the specification brings along are left as they are;
    only when the key ['tags'] is absent are tags derived, from the paths
    the specification has. *)
Theorem X11_tags_are_derived_only_when_absent :
  forall d out,
    _enhance_openapi_spec (JDict d) = Ok out ->
    exists d',
      out = JDict d'
      /\ (forall tags, dict_get "tags" d = Some tags -> dict_get "tags" d' = Some tags)
      /\ (dict_get "tags" d = None ->
          exists paths tags,
            py_get (JDict d) "paths" (JDict []) = Ok paths
            /\ _generate_tags_from_paths paths = Ok tags
            /\ dict_get "tags" d' = Some tags).
Proof.
  intros d out Hrun.
  destruct (enriched_paths_and_tags _ _ Hrun) as [d' [s3 [-> [Hp [Ht [Htags _]]]]]].
  exists d'. split; [reflexivity|]. split.
  - intros tags Hsome. rewrite Ht in Htags.
    destruct Htags as [[Heq _]|[Hno _]].
    + now rewrite <- Heq.
    + unfold dict_has in Hno. rewrite Ht, Hsome in Hno. discriminate.
  - intros Hnone. destruct Htags as [[_ Hhas]|[_ [paths [tags [Hget [Hgen Hout]]]]]].
    + unfold dict_has in Hhas. rewrite Ht, Hnone in Hhas. discriminate.
    + exists paths, tags. cbn [py_get] in *. rewrite Hp in Hget. auto.
Qed.

Lemma X11_tags_witness :
  exists d',
    _enhance_openapi_spec shop_spec = Ok (JDict d')
    /\ dict_get "tags" d'
       = Some (JList [JDict [("name", JStr "orders");
                             ("description", JStr "Orders operations")]]).
Proof.
  destruct (_enhance_openapi_spec_returns shop_spec eq_refl) as [out Hrun].
  destruct (X11_tags_are_derived_only_when_absent shop_fields out Hrun)
    as [d' [-> [_ Hderived]]].
  destruct (Hderived eq_refl) as [paths [tags [Hget [Hgen Htags]]]].
  exists d'. split; [exact Hrun|].
  injection Hget as <-. vm_compute in Hgen. injection Hgen as <-. exact Htags.
Defined.

(** *** Well-formed specifications stay well-formed *)

Lemma dict_get_app_present (V : Type) k (v : V) (d d' : list (string * V)) :
  dict_get k d = Some v -> dict_get k (d ++ d')%list = Some v.
Proof.
  induction d as [|[k' v'] d IH]; simpl; [discriminate|].
  destruct (k' =? k); [trivial | exact IH].
Qed.

Lemma content_ok_after accepts examples_for content content' :
  content_ok accepts content = true ->
  enhance_content examples_for content = Ok content' ->
  content_ok accepts content' = true.
Proof.
  intros Hok Hrun. apply enhance_content_adds in Hrun.
  destruct Hrun as [->|[c [examples [-> [Hs [He ->]]]]]]; [assumption|].
  apply dict_has_true in Hs. destruct Hs as [schema Hs].
  unfold content_ok, dict_has.
  rewrite (dict_get_app_present _ _ _ _ _ Hs).
  rewrite dict_get_app_absent by assumption. reflexivity.
Qed.

Lemma holder_ok_after accepts examples_for holder holder' :
  holder_ok accepts holder = true ->
  enhance_contents examples_for holder = Ok holder' ->
  holder_ok accepts holder' = true.
Proof.
  intros Hok Hrun. destruct (enhance_contents_ok _ _ _ Hrun) as [h [-> Hcases]].
  destruct Hcases as [[_ ->]|[items [items' [E [Hloop ->]]]]]; [assumption|].
  unfold holder_ok in *. rewrite E in Hok. rewrite dict_get_set_same.
  apply forallb_forall. intros [content_type content'] Hin.
  destruct (for_each_members _ _ _ _ _ _ Hloop Hin) as [content [Hin0 Hbody]].
  rewrite forallb_forall in Hok. specialize (Hok _ Hin0).
  exact (content_ok_after _ _ _ _ Hok Hbody).
Qed.

Lemma operation_ok_after operation operation' :
  operation_ok operation = true ->
  _enhance_operation operation = Ok operation' ->
  operation_ok operation' = true.
Proof.
  intros Hok Hrun.
  destruct (_enhance_operation_ok _ _ Hrun) as [o [o1 [-> [Hfirst Hsecond]]]].
  unfold operation_ok in Hok. apply andb_prop in Hok. destruct Hok as [Hbody Hresp].
  assert (operation_ok (JDict o1) = true /\ dict_get "responses" o1 = dict_get "responses" o)
    as [Hok1 Hsame].
  { destruct Hfirst as [[_ ->]|[rb [rb' [E [Hrb ->]]]]].
    - split; [|reflexivity]. unfold operation_ok. now rewrite Hbody, Hresp.
    - split; [|now apply dict_get_set_other].
      unfold operation_ok. rewrite dict_get_set_same.
      rewrite dict_get_set_other by discriminate. rewrite Hresp, Bool.andb_true_r.
      rewrite E in Hbody. exact (holder_ok_after _ _ _ _ Hbody Hrb). }
  destruct Hsecond as [[_ ->]|[items [items' [E [Hloop ->]]]]]; [assumption|].
  unfold operation_ok in *. apply andb_prop in Hok1. destruct Hok1 as [Hbody1 _].
  rewrite dict_get_set_other by discriminate. rewrite Hbody1.
  rewrite dict_get_set_same. cbn [andb].
  rewrite Hsame in E. rewrite E in Hresp.
  apply forallb_forall. intros [status_code response'] Hin.
  destruct (for_each_members _ _ _ _ _ _ Hloop Hin) as [response [Hin0 Hrun0]].
  rewrite forallb_forall in Hresp. specialize (Hresp _ Hin0). simpl in *.
  exact (holder_ok_after _ _ _ _ Hresp Hrun0).
Qed.

Lemma paths_ok_after items items' :
  forallb (fun entry => methods_ok (snd entry)) items = true ->
  enhance_paths items = Ok items' ->
  forallb (fun entry => methods_ok (snd entry)) items' = true.
Proof.
  unfold enhance_paths. intros Hok Hloop.
  apply forallb_forall. intros [route_path methods'] Hin.
  destruct (for_each_members _ _ _ _ _ _ Hloop Hin) as [methods [Hin0 Hbody]].
  rewrite forallb_forall in Hok. specialize (Hok _ Hin0). simpl in *.
  destruct methods as [| | | | | |ms]; try discriminate.
  cbn [py_items bind] in Hbody. apply bind_ok in Hbody.
  destruct Hbody as [ms' [Hops [= <-]]]. cbn [methods_ok] in *.
  apply forallb_forall. intros [method operation'] Hin'.
  destruct (for_each_members _ _ _ _ _ _ Hops Hin') as [operation [Hin1 Hrun]].
  rewrite forallb_forall in Hok. specialize (Hok _ Hin1). simpl in *.
  exact (operation_ok_after _ _ Hok Hrun).
Qed.

(** X12: enrichment returns on every well-formed specification, and what
    it returns is well-formed again. *)
Theorem X12_enrichment_of_well_formed_specifications :
  forall spec,
    spec_ok spec = true ->
    exists out, _enhance_openapi_spec spec = Ok out /\ spec_ok out = true.
Proof.
  intros spec Hok. destruct (_enhance_openapi_spec_returns spec Hok) as [out Hrun].
  exists out. split; [exact Hrun|].
  destruct spec as [| | | | | |d]; try discriminate.
  pose proof Hrun as Hchain. apply _enhance_openapi_spec_ok in Hchain.
  destruct Hchain as [d0 [s1 [s2 [s3 [s4 [s5 [[= <-] [-> [Hs [Hi [Hc [Ht Hp]]]]]]]]]]]].
  destruct (@enhance_info_frame _ _ Hi) as [x [[= <-] Fi]].
  destruct (@add_security_schemes_frame _ _ Hc) as [y [[= <-] Fc]].
  destruct (@add_tags_frame _ _ Ht) as [z [[= <-] [Ft _]]].
  destruct (@enhance_all_paths_frame _ _ Hp) as [w [[= <-] Fp]].
  unfold spec_ok in Hok.
  apply andb_prop in Hok. destruct Hok as [Hok Hpaths].
  apply andb_prop in Hok. destruct Hok as [_ Hcomp].
  unfold spec_ok. apply andb_true_intro. split; [apply andb_true_intro; split|].
  - rewrite Fp, Ft, Fc by discriminate.
    apply enhance_info_ok in Hi. destruct Hi as [i [_ [= ->]]].
    now rewrite dict_get_set_same.
  - rewrite Fp, Ft by discriminate.
    assert (dict_get "components" s2 = dict_get "components" d) as G.
    { rewrite Fi by discriminate. subst s1. now apply dict_get_set_other. }
    apply add_security_schemes_ok in Hc. rewrite G in Hc.
    destruct Hc as [[_ [= ->]]|[[c [_ [_ [= ->]]]]|[c [Hd [_ [= ->]]]]]].
    + now rewrite dict_get_set_same.
    + now rewrite dict_get_set_same.
    + rewrite G. exact Hcomp.
  - destruct (enriched_paths_and_tags _ _ Hrun) as [d' [s3' [[= <-] [_ [_ [_ Hcases]]]]]].
    destruct Hcases as [[_ ->]|[items [items' [Hsome [Henh ->]]]]]; [reflexivity|].
    rewrite Hsome in Hpaths. cbn [absent_or] in *.
    exact (paths_ok_after _ _ Hpaths Henh).
Qed.

Lemma X12_well_formed_witness :
  exists out, _enhance_openapi_spec shop_spec = Ok out /\ spec_ok out = true.
Proof. exact (X12_enrichment_of_well_formed_specifications shop_spec eq_refl). Defined.

(** X13: what enrichment raises on a malformed top level.  A specification
    that is no dict and an ['info'] that is no dict end in a [TypeError];
    with ['info'] and ['components'] in order, a ['paths'] that is no dict
    ends in an [AttributeError]. *)
Theorem X13_malformed_top_level_raises :
  (forall spec, is_dict spec = false -> _enhance_openapi_spec spec = Raise TypeError)
  /\ (forall d info,
        dict_get "info" d = Some info ->
        is_dict info = false ->
        _enhance_openapi_spec (JDict d) = Raise TypeError)
  /\ (forall d paths,
        absent_or is_dict (dict_get "info" d) = true ->
        absent_or is_dict (dict_get "components" d) = true ->
        dict_get "paths" d = Some paths ->
        is_dict paths = false ->
        _enhance_openapi_spec (JDict d) = Raise AttributeError).
Proof.
  split; [|split].
  - intros spec H. destruct spec; try discriminate; reflexivity.
  - intros d info Hget Hno.
    unfold _enhance_openapi_spec, add_servers, enhance_info. cbn [py_setitem bind py_get].
    rewrite dict_get_set_other by discriminate. rewrite Hget. cbn [bind].
    destruct info; try discriminate; reflexivity.
  - intros d paths Hinfo Hcomp Hpaths Hno.
    unfold _enhance_openapi_spec, add_servers. cbn [py_setitem bind].
    set (s1 := dict_set "servers" default_servers d).
    assert (exists s2, enhance_info (JDict s1) = Ok (JDict s2)
                       /\ same_except "info" s1 s2) as [s2 [-> F2]].
    { unfold enhance_info. cbn [py_get]. unfold s1.
      rewrite dict_get_set_other by discriminate.
      destruct (dict_get "info" d) as [[| | | | | |i]|]; try discriminate;
        cbn [bind merge_info py_setitem];
        (eexists; split; [reflexivity | apply same_except_set]). }
    cbn [bind].
    assert (forall k, k <> "info" -> k <> "servers" -> dict_get k s2 = dict_get k d) as G2.
    { intros k H1 H2. rewrite F2 by assumption. unfold s1.
      apply dict_get_set_other. congruence. }
    assert (exists s3, add_security_schemes (JDict s2) = Ok (JDict s3)
                       /\ same_except "components" s2 s3) as [s3 [-> F3]].
    { unfold add_security_schemes. cbn [py_in bind]. unfold dict_has.
      rewrite G2 by discriminate.
      destruct (dict_get "components" d) as [[| | | | | |c]|] eqn:Ec; try discriminate;
        cbn [negb bind py_setitem py_getitem].
      - rewrite G2, Ec by discriminate. cbn [bind py_in].
        destruct (dict_has "securitySchemes" c); cbn [negb bind py_setitem];
          (eexists; split; [reflexivity|]);
          auto using same_except_set, same_except_refl.
      - rewrite dict_get_set_same. cbn. rewrite dict_set_twice.
        eexists; split; [reflexivity | apply same_except_set]. }
    cbn [bind].
    assert (dict_get "paths" s3 = Some paths) as G3.
    { rewrite F3 by discriminate. rewrite G2 by discriminate. exact Hpaths. }
    unfold add_tags. cbn [py_in bind].
    destruct (dict_has "tags" s3); cbn [negb bind py_get].
    + unfold enhance_all_paths. cbn [py_get]. rewrite G3. cbn [bind].
      destruct paths; try discriminate; reflexivity.
    + rewrite G3. cbn [bind].
      destruct paths; try discriminate; reflexivity.
Qed.

Lemma X13_malformed_witness :
  _enhance_openapi_spec (JList []) = Raise TypeError
  /\ _enhance_openapi_spec (JDict [("info", JStr "Shop")]) = Raise TypeError
  /\ _enhance_openapi_spec (JDict [("paths", JList [])]) = Raise AttributeError.
Proof.
  destruct X13_malformed_top_level_raises as [H1 [H2 H3]].
  split; [|split].
  - apply H1. reflexivity.
  - apply (H2 _ (JStr "Shop")); reflexivity.
  - apply (H3 _ (JList [])); reflexivity.
Defined.

(** ** What route extraction yields *)

Lemma span_all p s : all_chars p (fst (span p s)) = true.
Proof.
  induction s as [|c t IH]; simpl; [reflexivity|].
  destruct (p c) eqn:E; [|reflexivity].
  destruct (span p t) as [a b]. unfold all_chars in *. simpl in *. now rewrite E.
Qed.

Lemma re_search_found (G : Type) (match_at : string -> option G) s g :
  re_search match_at s = Some g -> exists t, match_at t = Some g.
Proof.
  induction s as [|c t IH]; simpl.
  - destruct (match_at EmptyString) eqn:E; [intros [= <-]; eauto | discriminate].
  - destruct (match_at (String c t)) eqn:E; [intros [= <-]; eauto | exact IH].
Qed.

Lemma route_match_at_groups s route_path group2 :
  route_match_at s = Some (route_path, group2) ->
  route_path <> EmptyString
  /\ all_chars (fun c => negb (is_quote c)) route_path = true
  /\ (forall method_list, group2 = Some method_list -> method_list <> EmptyString).
Proof.
  unfold route_match_at.
  destruct (after "@app.route(" s) as [[|q r2]|]; try discriminate.
  destruct (is_quote q); [|discriminate].
  pose proof (span_all (fun c => negb (is_quote c)) r2) as Hall.
  destruct (span (fun c => negb (is_quote c)) r2) as [[|p ps] [|c r4]]; try discriminate.
  simpl in Hall.
  destruct (prefix ")" r4).
  - intros [= <- <-]. repeat split; try discriminate; assumption.
  - destruct (after "," r4) as [r5|]; [|discriminate].
    destruct (after "methods=[" (PyStr.lstrip PyStr.is_space r5)) as [r6|]; [|discriminate].
    destruct (span (fun c => negb (c =? "]")%char) r6) as [[|m ms] r7]; try discriminate.
    destruct (prefix "])" r7); [|discriminate].
    intros [= <- <-]. repeat split; try discriminate; try assumption.
    intros ? [= <-]. discriminate.
Qed.

Lemma func_match_at_group s name :
  func_match_at s = Some name ->
  name <> EmptyString /\ all_chars PyStr.is_word name = true.
Proof.
  unfold func_match_at.
  destruct (after "def" s) as [r1|]; [|discriminate].
  destruct (span PyStr.is_space r1) as [[|w ws] r2]; try discriminate.
  pose proof (span_all PyStr.is_word r2) as Hall.
  destruct (span PyStr.is_word r2) as [[|n ns] r3]; try discriminate.
  destruct (after "(" r3) as [r4|]; [|discriminate].
  destruct (prefix "):" _); [|discriminate].
  intros [= <-]. split; [discriminate | exact Hall].
Qed.

Lemma split_not_empty sep s : PyStr.split sep s <> [].
Proof.
  destruct s as [|c t]; simpl; [discriminate|].
  destruct (c =? sep)%char; [discriminate|].
  destruct (PyStr.split sep t); discriminate.
Qed.

Lemma route_at_invariant lines i raw after_i route :
  In route (route_at lines i raw after_i) ->
  path route <> EmptyString
  /\ all_chars (fun c => negb (is_quote c)) (path route) = true
  /\ methods route <> []
  /\ function route <> EmptyString
  /\ all_chars PyStr.is_word (function route) = true
  /\ exists j, docstring route = _extract_docstring lines j.
Proof.
  unfold route_at.
  destruct (re_search route_match_at _) as [[route_path group2]|] eqn:Hr; [|intros []].
  destruct (nth_error lines _) as [def_line|]; [|intros []].
  destruct (re_search func_match_at def_line) as [name|] eqn:Hf; [|intros []].
  intros [<-|[]]. cbn [path methods function docstring].
  apply re_search_found in Hr. destruct Hr as [t Hr].
  apply re_search_found in Hf. destruct Hf as [t' Hf].
  destruct (route_match_at_groups _ _ _ Hr) as [Hp1 [Hp2 _]].
  destruct (func_match_at_group _ _ Hf) as [Hf1 Hf2].
  repeat split; try assumption.
  - intros H. apply map_eq_nil in H. now apply split_not_empty in H.
  - eauto.
Qed.

Lemma scan_routes_invariant lines : forall from_i i route,
  In route (scan_routes lines from_i i) ->
  exists raw after_i j, In route (route_at lines j raw after_i).
Proof.
  induction from_i as [|raw after_i IH]; simpl; intros i route Hin; [destruct Hin|].
  apply in_app_or in Hin. destruct Hin as [Hin|Hin]; eauto.
Qed.

(** *** Docstrings come out stripped *)

Lemma lstrip_head p s :
  match PyStr.lstrip p s with
  | EmptyString => True
  | String c _ => p c = false
  end.
Proof.
  induction s as [|c t IH]; simpl; [exact I|].
  destruct (p c) eqn:E; [exact IH | exact E].
Qed.

Lemma rstrip_twice p s : PyStr.rstrip p (PyStr.rstrip p s) = PyStr.rstrip p s.
Proof.
  induction s as [|c t IH]; simpl; [reflexivity|].
  destruct (PyStr.rstrip p t) as [|c' t'] eqn:E.
  - destruct (p c) eqn:Ec; simpl; [reflexivity | now rewrite Ec].
  - simpl. simpl in IH. now rewrite IH.
Qed.

Lemma rstrip_keeps_head p c t :
  p c = false -> exists t', PyStr.rstrip p (String c t) = String c t'.
Proof.
  intros H. simpl. destruct (PyStr.rstrip p t); rewrite ?H; eauto.
Qed.

Lemma strip_twice p s : PyStr.strip p (PyStr.strip p s) = PyStr.strip p s.
Proof.
  unfold PyStr.strip. pose proof (lstrip_head p s) as Hhead.
  destruct (PyStr.lstrip p s) as [|c t]; [reflexivity|].
  destruct (rstrip_keeps_head p c t Hhead) as [t' Heq].
  rewrite Heq. simpl PyStr.lstrip at 1. rewrite Hhead. rewrite <- Heq.
  apply rstrip_twice.
Qed.

(** X14: every route the extractor yields has a path that is not empty and
    holds no quote, at least one method, and a handler name that is not
    empty and made of word characters. *)
Theorem X14_extracted_routes_are_complete :
  forall content route,
    In route (_extract_flask_routes content) ->
    path route <> EmptyString
    /\ all_chars (fun c => negb (is_quote c)) (path route) = true
    /\ methods route <> []
    /\ function route <> EmptyString
    /\ all_chars PyStr.is_word (function route) = true.
Proof.
  intros content route Hin. unfold _extract_flask_routes in Hin.
  destruct (scan_routes_invariant _ _ _ _ Hin) as [raw [after_i [j Hat]]].
  destruct (route_at_invariant _ _ _ _ _ Hat) as [H1 [H2 [H3 [H4 [H5 _]]]]].
  auto.
Qed.

Lemma X14_extracted_routes_witness :
  path users_route <> EmptyString /\ methods users_route <> [].
Proof.
  destruct (X14_extracted_routes_are_complete users_source users_route)
    as [H1 [_ [H3 _]]].
  - now left.
  - split; assumption.
Defined.

(** X15: [_extract_docstring] returns [None] when the start line lies
    beyond the last line, and a docstring it returns has no white space at
    either end. *)
Theorem X15_docstrings_are_stripped :
  forall lines start_line,
    (List.length lines <= start_line -> _extract_docstring lines start_line = None)
    /\ (forall text,
          _extract_docstring lines start_line = Some text ->
          PyStr.strip PyStr.is_space text = text).
Proof.
  intros lines start_line. unfold _extract_docstring. split.
  - intros H. now rewrite skipn_all2.
  - intros text.
    destruct (skip_blank (skipn start_line lines)) as [|raw rest]; [discriminate|].
    cbv zeta.
    destruct (PyStr.startswith _ _ || PyStr.startswith _ _); [|discriminate].
    destruct (PyStr.endswith _ _ && _); intros [= <-]; apply strip_twice.
Qed.

Lemma X15_docstrings_witness :
  _extract_docstring ["def f():"; "    return 1"] 2 = None.
Proof.
  apply (proj1 (X15_docstrings_are_stripped ["def f():"; "    return 1"] 2)).
  simpl. apply le_n.
Defined.

(** ** What route insertion builds *)


Lemma split_head_is_prefix sep s :
  prefix (hd EmptyString (PyStr.split sep s)) s = true.
Proof.
  induction s as [|c t IH]; simpl; [reflexivity|].
  destruct (c =? sep)%char; [reflexivity|].
  destruct (PyStr.split sep t) as [|h r]; simpl in *;
    destruct (ascii_dec c c); try contradiction; try assumption; try reflexivity.
Qed.


Lemma build_operation_returns route method text :
  docstring route = Some text ->
  exists op, build_operation route method = Ok (JDict op).
Proof.
  intros H. unfold build_operation, get_docstring. rewrite H. simpl. eauto.
Qed.

(** The operation depends on the method through its lower-cased form only. *)
Lemma build_operation_lower route method method' :
  PyStr.lower method = PyStr.lower method' ->
  build_operation route method = build_operation route method'.
Proof. intros H. unfold build_operation, get_docstring. now rewrite H. Qed.



(** *** Where the operations go *)

Lemma set_in_path_ok spec route_path key value spec' :
  set_in_path spec route_path key value = Ok spec' ->
  exists d ps ms,
    spec = JDict d
    /\ dict_get "paths" d = Some (JDict ps)
    /\ dict_get route_path ps = Some (JDict ms)
    /\ spec' = JDict (dict_set "paths"
                        (JDict (dict_set route_path (JDict (dict_set key value ms)) ps)) d).
Proof.
  unfold set_in_path. intros H.
  destruct spec as [| | | | | |d]; try discriminate. cbn [py_getitem bind] in H.
  destruct (dict_get "paths" d) as [[| | | | | |ps]|] eqn:Ep; try discriminate.
  cbn [py_getitem bind] in H.
  destruct (dict_get route_path ps) as [[| | | | | |ms]|] eqn:Em; try discriminate.
  cbn [py_getitem py_setitem bind] in H.
  injection H as <-. eauto 10.
Qed.

Lemma operation_at_set d ps ms route_path key value p k :
  dict_get "paths" d = Some (JDict ps) ->
  dict_get route_path ps = Some (JDict ms) ->
  operation_at
    (JDict (dict_set "paths"
              (JDict (dict_set route_path (JDict (dict_set key value ms)) ps)) d)) p k
  = if (p =? route_path) && (k =? key) then Some value else operation_at (JDict d) p k.
Proof.
  intros Hp Hm. unfold operation_at. rewrite dict_get_set_same, Hp.
  destruct (String.eqb_spec p route_path) as [->|Hne]; simpl.
  - rewrite dict_get_set_same, Hm.
    destruct (String.eqb_spec k key) as [->|Hne].
    + apply dict_get_set_same.
    + apply dict_get_set_other. congruence.
  - rewrite dict_get_set_other by congruence. reflexivity.
Qed.

Lemma set_in_path_top_level spec route_path key value spec' k :
  set_in_path spec route_path key value = Ok spec' ->
  k <> "paths" -> top_level spec' k = top_level spec k.
Proof.
  intros H Hk. apply set_in_path_ok in H.
  destruct H as [d [ps [ms [-> [_ [_ ->]]]]]]. simpl.
  apply dict_get_set_other. congruence.
Qed.

(** After the loop over the methods an operation is either the one that
    was there or the one built for one of the methods. *)
Lemma add_methods_lookup route p k : forall todo spec,
  operation_at (fst (add_methods spec route todo)) p k = operation_at spec p k
  \/ (p = path route
      /\ exists method op,
           In method todo /\ k = PyStr.lower method
           /\ build_operation route method = Ok op
           /\ operation_at (fst (add_methods spec route todo)) p k = Some op).
Proof.
  induction todo as [|method rest IH]; intros spec; [now left|].
  cbn [add_methods].
  destruct (build_operation route method) as [op|e] eqn:Hop; [|now left].
  cbn [bind].
  destruct (set_in_path spec (path route) (PyStr.lower method) op) as [spec1|e] eqn:Hset;
    [|now left].
  destruct (IH spec1) as [Hsame|[Hp [method' [op' [Hin [Hk [Hop' Hat]]]]]]].
  - rewrite Hsame. apply set_in_path_ok in Hset.
    destruct Hset as [d [ps [ms [-> [Hps [Hms ->]]]]]].
    rewrite (operation_at_set _ _ _ _ _ _ _ _ Hps Hms).
    destruct (String.eqb_spec p (path route)) as [->|_]; [|now left].
    destruct (String.eqb_spec k (PyStr.lower method)) as [->|_]; [|now left].
    simpl. right. split; [reflexivity|]. exists method, op.
    repeat split; try assumption; try reflexivity. now left.
  - right. split; [assumption|]. exists method', op'.
    repeat split; try assumption. now right.
Qed.

Lemma add_methods_frame route p k todo spec :
  p <> path route \/ ~ In k (map PyStr.lower todo) ->
  operation_at (fst (add_methods spec route todo)) p k = operation_at spec p k.
Proof.
  intros Hout.
  destruct (add_methods_lookup route p k todo spec)
    as [Hsame|[Hp [method [op [Hin [Hk _]]]]]]; [exact Hsame|].
  destruct Hout as [Hout|Hout]; [contradiction|].
  exfalso. apply Hout. subst k. now apply in_map.
Qed.

Lemma add_methods_top_level route k : forall todo spec,
  k <> "paths" -> top_level (fst (add_methods spec route todo)) k = top_level spec k.
Proof.
  induction todo as [|method rest IH]; intros spec Hk; [reflexivity|].
  cbn [add_methods].
  destruct (build_operation route method) as [op|e]; [|reflexivity]. cbn [bind].
  destruct (set_in_path spec (path route) (PyStr.lower method) op) as [spec1|e] eqn:Hset;
    [|reflexivity].
  rewrite IH by assumption. now apply set_in_path_top_level with (1 := Hset).
Qed.

(** The loop returns on a route with a docstring whose path entry is a
    dict, and then every method finds its operation. *)
Lemma add_methods_ok route text : forall todo d ps ms,
  docstring route = Some text ->
  dict_get "paths" d = Some (JDict ps) ->
  dict_get (path route) ps = Some (JDict ms) ->
  snd (add_methods (JDict d) route todo) = Ok tt
  /\ forall method,
       In method todo ->
       exists op,
         build_operation route method = Ok op
         /\ operation_at (fst (add_methods (JDict d) route todo)) (path route)
              (PyStr.lower method) = Some op.
Proof.
  induction todo as [|method rest IH]; intros d ps ms Hdoc Hps Hms.
  - split; [reflexivity | intros ? []].
  - cbn [add_methods].
    destruct (build_operation_returns route method text Hdoc) as [op Hop].
    rewrite Hop. cbn [bind]. unfold set_in_path.
    cbn [py_getitem bind]. rewrite Hps. cbn [py_getitem bind]. rewrite Hms.
    cbn [py_getitem py_setitem bind].
    set (ms1 := dict_set (PyStr.lower method) (JDict op) ms).
    set (ps1 := dict_set (path route) (JDict ms1) ps).
    set (d1 := dict_set "paths" (JDict ps1) d).
    assert (Hps1 : dict_get "paths" d1 = Some (JDict ps1)) by apply dict_get_set_same.
    assert (Hms1 : dict_get (path route) ps1 = Some (JDict ms1)) by apply dict_get_set_same.
    destruct (IH d1 ps1 ms1 Hdoc Hps1 Hms1) as [Hend Hall].
    split; [exact Hend|].
    intros method' [<-|Hin]; [|now apply Hall].
    destruct (in_dec string_dec (PyStr.lower method) (map PyStr.lower rest)) as [Hlater|Hlast].
    + apply in_map_iff in Hlater. destruct Hlater as [method' [Hlow Hin]].
      destruct (Hall method' Hin) as [op' [Hop' Hat]].
      exists op'. split.
      * now rewrite <- (build_operation_lower route method' method Hlow).
      * now rewrite <- Hlow.
    + exists (JDict op). split; [exact Hop|].
      rewrite add_methods_frame by now right.
      unfold d1, ps1, ms1. rewrite (operation_at_set _ _ _ _ _ _ _ _ Hps Hms).
      now rewrite !String.eqb_refl.
Qed.

(** The entry [_add_route_to_spec] makes for a new path holds no
    operation. *)
Lemma new_path_entry spec route spec' :
  (paths <- py_getitem spec "paths" ;;
   known <- py_in (path route) paths ;;
   if negb known then
     paths' <- py_setitem paths (path route) (JDict []) ;;
     py_setitem spec "paths" paths'
   else Ok spec) = Ok spec' ->
  (forall p k, operation_at spec' p k = operation_at spec p k)
  /\ (forall k, k <> "paths" -> top_level spec' k = top_level spec k).
Proof.
  intros H. bind_inv H. bind_inv H.
  destruct a0; cbn [negb] in H.
  - injection H as <-. split; reflexivity.
  - bind_inv H.
    destruct spec as [| | | | | |d]; try discriminate.
    destruct a as [| | | | | |ps]; try discriminate.
    cbn [py_getitem] in Ha.
    destruct (dict_get "paths" d) as [paths|] eqn:Hps; [|discriminate].
    injection Ha as ->.
    cbn [py_in] in Ha0. injection Ha0 as Hnew. apply dict_has_false in Hnew.
    cbn [py_setitem] in Ha1, H. injection Ha1 as <-. injection H as <-.
    split.
    + intros p k. unfold operation_at. rewrite dict_get_set_same, Hps.
      destruct (String.eqb_spec p (path route)) as [->|Hne].
      * now rewrite dict_get_set_same, Hnew.
      * rewrite dict_get_set_other by congruence. reflexivity.
    + intros k Hk. simpl. apply dict_get_set_other. congruence.
Qed.

Lemma add_route_lookup spec route p k :
  operation_at (fst (_add_route_to_spec spec route)) p k = operation_at spec p k
  \/ (p = path route
      /\ exists method op,
           In method (methods route) /\ k = PyStr.lower method
           /\ build_operation route method = Ok op
           /\ operation_at (fst (_add_route_to_spec spec route)) p k = Some op).
Proof.
  unfold _add_route_to_spec.
  match goal with
  | |- context [match ?prep with Ok _ => _ | Raise _ => _ end] =>
      destruct prep as [spec'|e] eqn:Hprep
  end; [|now left].
  apply new_path_entry in Hprep. destruct Hprep as [Hsame _].
  rewrite <- Hsame. apply add_methods_lookup.
Qed.

Lemma add_route_top_level spec route k :
  k <> "paths" -> top_level (fst (_add_route_to_spec spec route)) k = top_level spec k.
Proof.
  intros Hk. unfold _add_route_to_spec.
  match goal with
  | |- context [match ?prep with Ok _ => _ | Raise _ => _ end] =>
      destruct prep as [spec'|e] eqn:Hprep
  end; [|reflexivity].
  apply new_path_entry in Hprep. destruct Hprep as [_ Hsame].
  rewrite add_methods_top_level by assumption. now apply Hsame.
Qed.

(** X17: on a specification whose ['paths'] is a dict in which the route's
    path is new or holds a dict, the insertion of a route with a docstring
    returns, and afterwards every method of the route finds the operation
    built for it under the route's path and the lower-cased method. *)
Theorem X17_documented_route_is_inserted :
  forall d ps route text,
    docstring route = Some text ->
    dict_get "paths" d = Some (JDict ps) ->
    (forall entry, dict_get (path route) ps = Some entry -> is_dict entry = true) ->
    snd (_add_route_to_spec (JDict d) route) = Ok tt
    /\ forall method,
         In method (methods route) ->
         exists op,
           build_operation route method = Ok op
           /\ operation_at (fst (_add_route_to_spec (JDict d) route)) (path route)
                (PyStr.lower method) = Some op.
Proof.
  intros d ps route text Hdoc Hps Hentry. unfold _add_route_to_spec.
  cbn [py_getitem bind]. rewrite Hps. cbn [py_in bind]. unfold dict_has.
  destruct (dict_get (path route) ps) as [entry|] eqn:Hms; cbn [negb py_setitem bind].
  - specialize (Hentry entry eq_refl).
    destruct entry as [| | | | | |ms]; try discriminate.
    exact (add_methods_ok route text (methods route) d ps ms Hdoc Hps Hms).
  - apply (add_methods_ok route text (methods route) _
             (dict_set (path route) (JDict []) ps) [] Hdoc);
      apply dict_get_set_same.
Qed.

Lemma X17_documented_route_witness :
  exists op,
    build_operation orders_route "POST" = Ok op
    /\ operation_at (fst (_add_route_to_spec _get_base_spec orders_route)) "/orders" "post"
       = Some op.
Proof.
  assert (Hnew : forall entry : json,
             dict_get (path orders_route) ([] : dict) = Some entry -> is_dict entry = true)
    by (intros entry H; discriminate H).
  apply (proj2 (X17_documented_route_is_inserted
                  (match _get_base_spec with JDict d => d | _ => [] end)
                  [] orders_route _ eq_refl eq_refl Hnew) "POST").
  simpl. tauto.
Defined.

(** X18: whether it returns or raises, the insertion of a route leaves the
    top-level entries other than ['paths'] as they were, and leaves every
    operation under another path, or under a method that is none of the
    route's, as it was. *)
Theorem X18_insertion_touches_only_its_route :
  forall spec route,
    (forall k, k <> "paths" ->
               top_level (fst (_add_route_to_spec spec route)) k = top_level spec k)
    /\ (forall p k,
          p <> path route \/ ~ In k (map PyStr.lower (methods route)) ->
          operation_at (fst (_add_route_to_spec spec route)) p k = operation_at spec p k).
Proof.
  intros spec route. split.
  - intros k Hk. now apply add_route_top_level.
  - intros p k Hout.
    destruct (add_route_lookup spec route p k)
      as [Hsame|[Hp [method [op [Hin [Hk _]]]]]]; [exact Hsame|].
    destruct Hout as [Hout|Hout]; [contradiction|].
    exfalso. apply Hout. subst k. now apply in_map.
Qed.

Lemma X18_insertion_witness :
  operation_at (fst (_add_route_to_spec _get_base_spec orders_route)) "/orders" "put"
  = operation_at _get_base_spec "/orders" "put".
Proof.
  apply (proj2 (X18_insertion_touches_only_its_route _get_base_spec orders_route)).
  right. simpl. intros [H|[H|[]]]; discriminate.
Defined.

(** *** The analysis of a project *)

Lemma add_route_builds known spec route :
  known route -> built_from known spec ->
  built_from known (fst (_add_route_to_spec spec route)).
Proof.
  intros Hknown Hspec p k op Hat.
  destruct (add_route_lookup spec route p k)
    as [Hsame|[Hp [method [op' [Hin [Hk [Hop Hat']]]]]]].
  - apply Hspec. now rewrite <- Hsame.
  - exists route, method. rewrite Hat in Hat'. injection Hat' as <-. auto.
Qed.

Lemma add_routes_build known : forall routes spec,
  (forall route, In route routes -> known route) ->
  built_from known spec ->
  built_from known (fst (add_routes spec routes)).
Proof.
  induction routes as [|route rest IH]; intros spec Hknown Hspec; [exact Hspec|].
  cbn [add_routes].
  pose proof (add_route_builds known spec route (Hknown route (or_introl eq_refl)) Hspec)
    as Hnext.
  destruct (_add_route_to_spec spec route) as [spec' [[]|e]]; [|exact Hnext].
  apply IH; [|exact Hnext]. intros r Hr. apply Hknown. now right.
Qed.

Lemma add_routes_top_level k : forall routes spec,
  k <> "paths" -> top_level (fst (add_routes spec routes)) k = top_level spec k.
Proof.
  induction routes as [|route rest IH]; intros spec Hk; [reflexivity|].
  cbn [add_routes].
  pose proof (add_route_top_level spec route k Hk) as Hnext.
  destruct (_add_route_to_spec spec route) as [spec' [[]|e]]; [|exact Hnext].
  rewrite IH by assumption. exact Hnext.
Qed.

Lemma analyze_files_builds known : forall files spec,
  (forall content route,
     In (Ok content) files -> In route (_extract_flask_routes content) -> known route) ->
  built_from known spec ->
  built_from known (analyze_files spec files).
Proof.
  induction files as [|[content|e] files IH]; intros spec Hknown Hspec; cbn [analyze_files].
  - exact Hspec.
  - apply IH.
    + intros c r Hc. apply Hknown. now right.
    + apply add_routes_build; [|exact Hspec].
      intros r Hr. apply (Hknown content); [now left | exact Hr].
  - apply IH; [|exact Hspec]. intros c r Hc. apply Hknown. now right.
Qed.

Lemma analyze_files_top_level k : forall files spec,
  k <> "paths" -> top_level (analyze_files spec files) k = top_level spec k.
Proof.
  induction files as [|[content|e] files IH]; intros spec Hk; cbn [analyze_files].
  - reflexivity.
  - rewrite IH by assumption. now apply add_routes_top_level.
  - now apply IH.
Qed.

(** X19: in the specification the route analysis returns, the top-level
    entries other than ['paths'] are those of the base specification, and
    every operation is the one built for a method of a route that the
    extractor yields on one of the files that could be read, under that
    route's path and the lower-cased method. *)
Theorem X19_analysis_holds_only_extracted_routes :
  forall files,
    (forall k, k <> "paths" ->
               top_level (_analyze_flask_routes files) k = top_level _get_base_spec k)
    /\ (forall p k op,
          operation_at (_analyze_flask_routes files) p k = Some op ->
          exists content route method,
            In (Ok content) files
            /\ In route (_extract_flask_routes content)
            /\ In method (methods route)
            /\ p = path route
            /\ k = PyStr.lower method
            /\ build_operation route method = Ok op).
Proof.
  intros files. split.
  - intros k Hk. now apply analyze_files_top_level.
  - intros p k op Hat.
    pose (known := fun route =>
                     exists content,
                       In (Ok content) files /\ In route (_extract_flask_routes content)).
    assert (Hbuilt : built_from known (_analyze_flask_routes files)).
    { apply analyze_files_builds.
      - intros content route Hc Hr. exists content. now split.
      - intros p' k' op' H. discriminate H. }
    destruct (Hbuilt p k op Hat) as [route [method [[content [Hc Hr]] H]]].
    exists content, route, method. tauto.
Qed.

Lemma X19_analysis_witness :
  exists content route method,
    In (Ok content) [Raise OSError; Ok orders_source]
    /\ In route (_extract_flask_routes content)
    /\ In method (methods route)
    /\ "/orders" = path route
    /\ "post" = PyStr.lower method.
Proof.
  destruct (proj2 (X19_analysis_holds_only_extracted_routes
                     [Raise OSError; Ok orders_source])
              "/orders" "post"
              (JDict [("summary", JStr "List or create orders.");
                      ("operationId", JStr "post_orders");
                      ("responses",
                       JDict [("200", JDict [("description", JStr "Successful response");
                                             ("content", object_schema_content)])]);
                      ("description",
                       JStr (PyStr.join (String newline EmptyString)
                               ["List or create orders."; EmptyString; "Returns JSON."]));
                      ("requestBody", JDict [("content", object_schema_content)])])
              eq_refl)
    as [content [route [method [H1 [H2 [H3 [H4 [H5 _]]]]]]]].
  exists content, route, method. auto.
Defined.

(** ** Where extracted routes come from *)

Lemma prefix_empty s : prefix EmptyString s = true.
Proof. now destruct s. Qed.

Lemma prefix_trans : forall a b c,
  prefix a b = true -> prefix b c = true -> prefix a c = true.
Proof.
  induction a as [|x a IH]; intros b c Hab Hbc; [apply prefix_empty|].
  destruct b as [|y b]; [discriminate|]. destruct c as [|z c]; [discriminate|].
  simpl in *.
  destruct (ascii_dec x y) as [->|]; [|discriminate].
  destruct (ascii_dec y z) as [->|]; [|discriminate].
  now apply IH with (b := b).
Qed.

Lemma contains_prefix sub s : prefix sub s = true -> PyStr.contains sub s = true.
Proof. intros H. destruct s; simpl in *; now rewrite H. Qed.

Lemma contains_tail sub c t :
  PyStr.contains sub t = true -> PyStr.contains sub (String c t) = true.
Proof. intros H. cbn [PyStr.contains]. rewrite H. apply Bool.orb_true_r. Qed.

Lemma contains_cases sub s :
  PyStr.contains sub s = true ->
  prefix sub s = true \/ exists c t, s = String c t /\ PyStr.contains sub t = true.
Proof.
  destruct s as [|c t]; cbn [PyStr.contains]; intros H;
    apply Bool.orb_prop in H; destruct H as [H|H]; eauto; discriminate.
Qed.

(** A match found by [re.search] for a pattern that starts with the
    literal [sub] shows that the string contains [sub]. *)
Lemma re_search_contains (G : Type) (match_at : string -> option G) sub :
  (forall t g, match_at t = Some g -> prefix sub t = true) ->
  forall s g, re_search match_at s = Some g -> PyStr.contains sub s = true.
Proof.
  intros Hlit. induction s as [|c t IH]; intros g; cbn [re_search].
  - destruct (match_at EmptyString) eqn:E; [|discriminate].
    intros _. apply contains_prefix. now apply Hlit with (g := g0).
  - destruct (match_at (String c t)) eqn:E.
    + intros _. apply contains_prefix. now apply Hlit with (g := g0).
    + intros H. apply contains_tail. now apply IH with (g := g).
Qed.

Lemma contains_lstrip p sub s :
  PyStr.contains sub (PyStr.lstrip p s) = true -> PyStr.contains sub s = true.
Proof.
  induction s as [|c t IH]; cbn [PyStr.lstrip]; [auto|].
  destruct (p c); [|auto]. intros H. apply contains_tail. auto.
Qed.

Lemma rstrip_cons p c t :
  PyStr.rstrip p (String c t) = EmptyString
  \/ PyStr.rstrip p (String c t) = String c (PyStr.rstrip p t).
Proof. simpl. destruct (PyStr.rstrip p t); destruct (p c); auto. Qed.

Lemma prefix_rstrip p : forall s sub,
  prefix sub (PyStr.rstrip p s) = true -> prefix sub s = true.
Proof.
  induction s as [|c t IH]; intros sub; [auto|].
  destruct (rstrip_cons p c t) as [-> | ->].
  - destruct sub; [reflexivity | discriminate].
  - destruct sub as [|x sub]; [reflexivity|]. simpl.
    destruct (ascii_dec x c); [apply IH | auto].
Qed.

Lemma contains_rstrip p sub : forall s,
  PyStr.contains sub (PyStr.rstrip p s) = true -> PyStr.contains sub s = true.
Proof.
  induction s as [|c t IH]; [auto|]. intros H.
  apply contains_cases in H. destruct H as [H|[c' [t' [Heq H]]]].
  - apply contains_prefix. now apply prefix_rstrip with (p := p).
  - destruct (rstrip_cons p c t) as [E|E]; rewrite E in Heq; [discriminate|].
    injection Heq as <- <-. apply contains_tail. auto.
Qed.

Lemma contains_strip p sub s :
  PyStr.contains sub (PyStr.strip p s) = true -> PyStr.contains sub s = true.
Proof. intros H. apply contains_lstrip with (p := p). now apply contains_rstrip in H. Qed.

(** What a line of the text contains, the text contains. *)
Lemma contains_line sep sub : forall content raw,
  In raw (PyStr.split sep content) ->
  PyStr.contains sub raw = true -> PyStr.contains sub content = true.
Proof.
  induction content as [|c t IH]; intros raw Hin Hsub.
  - destruct Hin as [<-|[]]. exact Hsub.
  - cbn [PyStr.split] in Hin.
    pose proof (split_head_is_prefix sep t) as Hhead.
    destruct (c =? sep)%char.
    + destruct Hin as [<-|Hin].
      * apply contains_prefix. destruct sub; [reflexivity | discriminate].
      * apply contains_tail. now apply IH with (raw := raw).
    + destruct (PyStr.split sep t) as [|h r].
      * destruct Hin as [<-|[]].
        apply contains_cases in Hsub. destruct Hsub as [H|[c' [t' [Heq H]]]].
        -- apply contains_prefix. destruct sub as [|x sub]; [reflexivity|].
           simpl in *. destruct (ascii_dec x c); [|discriminate].
           destruct sub; [apply prefix_empty | discriminate].
        -- injection Heq as <- <-. apply contains_prefix.
           destruct sub; [reflexivity | discriminate].
      * destruct Hin as [<-|Hin].
        -- apply contains_cases in Hsub. destruct Hsub as [H|[c' [t' [Heq H]]]].
           ++ apply contains_prefix. destruct sub as [|x sub]; [reflexivity|].
              simpl in *. destruct (ascii_dec x c); [|discriminate].
              now apply prefix_trans with (b := h).
           ++ injection Heq as <- <-. apply contains_tail.
              apply IH with (raw := h); [now left | exact H].
        -- apply contains_tail. apply IH with (raw := raw); [now right | exact Hsub].
Qed.

Lemma route_match_at_literal t g :
  route_match_at t = Some g -> prefix "@app.route(" t = true.
Proof.
  unfold route_match_at, after.
  destruct (prefix "@app.route(" t); [reflexivity | discriminate].
Qed.

Lemma func_match_at_literal t g :
  func_match_at t = Some g -> prefix "def" t = true.
Proof.
  unfold func_match_at, after. destruct (prefix "def" t); [reflexivity | discriminate].
Qed.

Lemma route_at_needs lines i raw after_i route :
  In route (route_at lines i raw after_i) ->
  PyStr.contains "@app.route(" raw = true
  /\ exists def_line, In def_line lines /\ PyStr.contains "def" def_line = true.
Proof.
  unfold route_at.
  destruct (re_search route_match_at _) as [[route_path group2]|] eqn:Hr; [|intros []].
  destruct (nth_error lines _) as [def_line|] eqn:Hnth; [|intros []].
  destruct (re_search func_match_at def_line) as [name|] eqn:Hf; [|intros []].
  intros _. split.
  - apply contains_strip with (p := PyStr.is_space).
    exact (re_search_contains _ _ _ route_match_at_literal _ _ Hr).
  - exists def_line. split; [now apply nth_error_In with (1 := Hnth)|].
    exact (re_search_contains _ _ _ func_match_at_literal _ _ Hf).
Qed.

Lemma scan_routes_needs lines route : forall from_i i,
  In route (scan_routes lines from_i i) ->
  (exists raw, In raw from_i /\ PyStr.contains "@app.route(" raw = true)
  /\ exists def_line, In def_line lines /\ PyStr.contains "def" def_line = true.
Proof.
  induction from_i as [|raw after_i IH]; simpl; intros i Hin; [destruct Hin|].
  apply in_app_or in Hin. destruct Hin as [Hin|Hin].
  - apply route_at_needs in Hin. destruct Hin as [Hraw Hdef]. eauto.
  - destruct (IH _ Hin) as [[raw' [Hin' Hraw]] Hdef]. eauto.
Qed.

(** X20: a text in which the extractor finds a route contains the opening
    of a route decorator and the keyword of a function definition; on a
    text without either, it finds no route. *)
Theorem X20_routes_need_a_decorator_and_a_definition :
  forall content,
    _extract_flask_routes content <> [] ->
    PyStr.contains "@app.route(" content = true
    /\ PyStr.contains "def" content = true.
Proof.
  intros content Hsome. unfold _extract_flask_routes in Hsome.
  destruct (scan_routes _ _ 0) as [|route rest] eqn:Hscan; [contradiction|].
  assert (Hin : In route (scan_routes (PyStr.split newline content)
                            (PyStr.split newline content) 0))
    by (rewrite Hscan; now left).
  apply scan_routes_needs in Hin.
  destruct Hin as [[raw [Hraw Hdeco]] [def_line [Hline Hdef]]].
  split.
  - exact (contains_line newline _ content raw Hraw Hdeco).
  - exact (contains_line newline _ content def_line Hline Hdef).
Qed.

Lemma X20_routes_witness :
  PyStr.contains "@app.route(" orders_source = true
  /\ PyStr.contains "def" orders_source = true.
Proof.
  apply (X20_routes_need_a_decorator_and_a_definition orders_source).
  discriminate.
Defined.

(** ** What framework detection answers *)

Lemma manifest_framework_known content framework :
  manifest_framework content = Some framework -> framework <> "unknown".
Proof.
  unfold manifest_framework.
  repeat match goal with
         | |- context [if ?c then _ else _] => destruct c
         end; intros [= <-]; discriminate.
Qed.

Lemma import_framework_known content framework :
  import_framework content = Some framework -> framework <> "unknown".
Proof.
  unfold import_framework.
  repeat match goal with
         | |- context [if ?c then _ else _] => destruct c
         end; intros [= <-]; discriminate.
Qed.

Lemma scan_py_files_unknown files :
  scan_py_files files = "unknown"
  <-> forall content, In (Ok content) files -> import_framework content = None.
Proof.
  induction files as [|[content|e] files IH]; cbn [scan_py_files].
  - split; [intros _ ? [] | reflexivity].
  - destruct (import_framework content) as [framework|] eqn:E.
    + split.
      * intros H. now apply import_framework_known in E.
      * intros H. rewrite (H content (or_introl eq_refl)) in E. discriminate.
    + rewrite IH. split.
      * intros H c [[= <-]|Hc]; auto.
      * intros H c Hc. apply H. now right.
  - rewrite IH. split.
    + intros H c [Hc|Hc]; [discriminate | auto].
    + intros H c Hc. apply H. now right.
Qed.

(** X21: when every manifest that exists can be read, detection returns
    one of the five names, and it returns ["unknown"] exactly when no
    manifest names a framework and no Python file that can be read imports
    one. *)
Theorem X21_detection_answers :
  forall project,
    Forall readable (requirements_files project) ->
    exists framework,
      detect_framework project = Ok framework
      /\ In framework framework_kinds
      /\ (framework = "unknown"
          <-> (forall text,
                 In (Some (Ok text)) (requirements_files project) ->
                 manifest_framework (PyStr.lower text) = None)
              /\ (forall content,
                    In (Ok content) (py_files project) ->
                    import_framework content = None)).
Proof.
  intros project. unfold detect_framework. generalize (py_files project) as sources.
  induction (requirements_files project) as [|[[text|e]|] files IH];
    intros sources Hall; cbn [scan_requirements].
  - eexists. split; [reflexivity|]. split; [apply scan_py_files_kind|].
    rewrite scan_py_files_unknown. split; [intros H; split; [intros ? []|exact H] | tauto].
  - destruct (manifest_framework (PyStr.lower text)) as [framework|] eqn:E.
    + exists framework. split; [reflexivity|].
      split; [now apply manifest_framework_kind with (content := PyStr.lower text)|].
      split.
      * intros H. now apply manifest_framework_known in E.
      * intros [H _]. rewrite (H text (or_introl eq_refl)) in E. discriminate.
    + assert (Hrest : Forall readable files) by now inversion Hall.
      destruct (IH sources Hrest) as [framework [Hrun [Hkind Hiff]]].
      exists framework. split; [exact Hrun|]. split; [exact Hkind|].
      rewrite Hiff. split; intros [Hm Hs]; (split; [|exact Hs]).
      * intros t [[= <-]|Ht]; auto.
      * intros t Ht. apply Hm. now right.
  - inversion Hall as [|? ? Hr _]. now destruct (Hr e).
  - assert (Hrest : Forall readable files) by now inversion Hall.
    destruct (IH sources Hrest) as [framework [Hrun [Hkind Hiff]]].
    exists framework. split; [exact Hrun|]. split; [exact Hkind|].
    rewrite Hiff. split; intros [Hm Hs]; (split; [|exact Hs]).
    + intros t [Ht|Ht]; [discriminate | auto].
    + intros t Ht. apply Hm. now right.
Qed.

Lemma X21_detection_witness :
  exists framework,
    detect_framework undecodable_source = Ok framework
    /\ In framework framework_kinds.
Proof.
  destruct (X21_detection_answers undecodable_source) as [framework [Hrun [Hkind _]]].
  - repeat constructor; intros e H; discriminate H.
  - exists framework. now split.
Defined.

(** X22: the first manifest that names a framework decides.  The manifests
    before it exist and name none, or are absent; what the later manifests
    and the Python files hold, readable or not, plays no part. *)
Theorem X22_first_naming_manifest_decides :
  forall before text after sources framework,
    Forall (fun file =>
              file = None
              \/ exists earlier,
                   file = Some (Ok earlier)
                   /\ manifest_framework (PyStr.lower earlier) = None) before ->
    manifest_framework (PyStr.lower text) = Some framework ->
    detect_framework {| requirements_files := before ++ Some (Ok text) :: after;
                        py_files := sources |} = Ok framework.
Proof.
  intros before text after sources framework Hbefore Hnames.
  unfold detect_framework. cbn [requirements_files py_files].
  induction Hbefore as [|file before [->|[earlier [-> Hnone]]] _ IH];
    cbn [app scan_requirements].
  - now rewrite Hnames.
  - exact IH.
  - rewrite Hnone. exact IH.
Qed.

Lemma X22_first_manifest_witness :
  detect_framework
    {| requirements_files := [None; Some (Ok "Flask-RESTX==1.3"); Some (Raise OSError)];
       py_files := [Ok "from fastapi import FastAPI"] |} = Ok "flask-restx".
Proof.
  apply (X22_first_naming_manifest_decides
           [None] "Flask-RESTX==1.3" [Some (Raise OSError)]
           [Ok "from fastapi import FastAPI"] "flask-restx").
  - constructor; [now left | constructor].
  - reflexivity.
Defined.

(** ** Finding the FastAPI application *)







(** ** Method names of the Python client *)

Lemma all_chars_cons p c t : all_chars p (String c t) = p c && all_chars p t.
Proof. reflexivity. Qed.

Lemma all_chars_app p s t :
  all_chars p (s ++ t) = all_chars p s && all_chars p t.
Proof.
  induction s as [|c s IH]; [reflexivity|].
  cbn [append]. rewrite !all_chars_cons, IH. apply Bool.andb_assoc.
Qed.

Lemma clean_words s : all_chars PyStr.is_word (clean s) = true.
Proof.
  induction s as [|c t IH]; [reflexivity|].
  cbn [clean]. rewrite all_chars_cons, IH.
  destruct (PyStr.is_word c) eqn:E; [now rewrite E | reflexivity].
Qed.

Lemma squeeze_head : forall t c, exists r, squeeze (String c t) = String c r.
Proof.
  induction t as [|c' t IH]; intros c; [now exists EmptyString|].
  cbn [squeeze].
  destruct (Ascii.eqb_spec c "_"%char) as [->|_]; [|eexists; reflexivity].
  destruct (Ascii.eqb_spec c' "_"%char) as [->|_]; [|eexists; reflexivity].
  apply IH.
Qed.

Lemma squeeze_cons c c' t :
  squeeze (String c (String c' t))
  = if (c =? "_")%char && (c' =? "_")%char then squeeze (String c' t)
    else String c (squeeze (String c' t)).
Proof. reflexivity. Qed.

Lemma all_chars_squeeze p : forall s,
  all_chars p s = true -> all_chars p (squeeze s) = true.
Proof.
  induction s as [|c t IH]; [auto|]. rewrite all_chars_cons. intros H.
  apply andb_prop in H. destruct H as [Hc Ht].
  destruct t as [|c' t]; [cbn; now rewrite Hc|].
  rewrite squeeze_cons. destruct (_ && _); [auto|].
  rewrite all_chars_cons, Hc. auto.
Qed.

Lemma all_chars_lstrip p drop : forall s,
  all_chars p s = true -> all_chars p (PyStr.lstrip drop s) = true.
Proof.
  induction s as [|c t IH]; [auto|]. intros H. cbn [PyStr.lstrip].
  destruct (drop c); [|exact H].
  rewrite all_chars_cons in H. apply andb_prop in H. now apply IH.
Qed.

Lemma all_chars_rstrip p drop : forall s,
  all_chars p s = true -> all_chars p (PyStr.rstrip drop s) = true.
Proof.
  induction s as [|c t IH]; [auto|]. rewrite all_chars_cons. intros H.
  apply andb_prop in H. destruct H as [Hc Ht].
  destruct (rstrip_cons drop c t) as [-> | ->]; [reflexivity|].
  rewrite all_chars_cons, Hc. auto.
Qed.

Lemma has_run_cons c c' t :
  has_run (String c (String c' t))
  = ((c =? "_")%char && (c' =? "_")%char) || has_run (String c' t).
Proof. reflexivity. Qed.

Lemma contains_run : forall s, PyStr.contains "__" s = has_run s.
Proof.
  induction s as [|c t IH]; [reflexivity|].
  cbn [PyStr.contains]. rewrite IH.
  destruct t as [|c' t].
  - cbn [prefix has_run]. destruct (ascii_dec "_" c); reflexivity.
  - rewrite has_run_cons. f_equal. cbn [prefix].
    destruct (ascii_dec "_" c) as [<-|Hc].
    + destruct (ascii_dec "_" c') as [<-|Hc'].
      * now rewrite prefix_empty.
      * destruct (Ascii.eqb_spec c' "_"%char); [congruence | reflexivity].
    + destruct (Ascii.eqb_spec c "_"%char); [congruence | reflexivity].
Qed.

Lemma has_run_squeeze : forall s, has_run (squeeze s) = false.
Proof.
  induction s as [|c t IH]; [reflexivity|].
  destruct t as [|c' t]; [reflexivity|].
  rewrite squeeze_cons. destruct (_ && _) eqn:E; [exact IH|].
  destruct (squeeze_head t c') as [r Hr]. rewrite Hr in *.
  rewrite has_run_cons, E, IH. reflexivity.
Qed.

Lemma has_run_lstrip drop : forall s,
  has_run s = false -> has_run (PyStr.lstrip drop s) = false.
Proof.
  induction s as [|c t IH]; [auto|]. intros H. cbn [PyStr.lstrip].
  destruct (drop c); [|exact H]. apply IH.
  destruct t as [|c' t]; [reflexivity|].
  rewrite has_run_cons in H. now apply Bool.orb_false_elim in H.
Qed.

Lemma has_run_rstrip drop : forall s,
  has_run s = false -> has_run (PyStr.rstrip drop s) = false.
Proof.
  induction s as [|c t IH]; [auto|]. intros H.
  destruct (rstrip_cons drop c t) as [-> | ->]; [reflexivity|].
  destruct t as [|c' t]; [reflexivity|].
  rewrite has_run_cons in H. apply Bool.orb_false_elim in H. destruct H as [Hpair Hrest].
  specialize (IH Hrest).
  destruct (rstrip_cons drop c' t) as [E | E]; rewrite E in *; [reflexivity|].
  now rewrite has_run_cons, Hpair, IH.
Qed.

(** X24: for an operation without operation id, or with one that counts
    as false, the method name is made of letters, digits and underscores,
    holds no two underscores in a row, and neither starts nor ends with an
    underscore. *)
Theorem X24_method_name_from_the_path :
  forall route_path method d,
    py_truthy (match dict_get "operationId" d with
               | Some operation_id => operation_id
               | None => JNull
               end) = false ->
    exists name,
      _generate_python_method_name route_path method (JDict d) = Ok name
      /\ all_chars PyStr.is_word name = true
      /\ PyStr.contains "__" name = false
      /\ PyStr.strip (PyStr.one_of "_") name = name.
Proof.
  intros route_path method d Hfalse. unfold _generate_python_method_name.
  cbn [py_get].
  destruct (dict_get "operationId" d) as [operation_id|]; cbn [bind]; rewrite Hfalse;
    (eexists; split; [reflexivity|]; split; [|split]);
    try (apply all_chars_rstrip, all_chars_lstrip, all_chars_squeeze, clean_words);
    try (rewrite contains_run; apply has_run_rstrip, has_run_lstrip, has_run_squeeze);
    apply strip_twice.
Qed.

Lemma X24_method_name_witness :
  exists name,
    _generate_python_method_name "/api/v1/users/{user_id}/" "GET" (JDict []) = Ok name
    /\ all_chars PyStr.is_word name = true
    /\ PyStr.contains "__" name = false
    /\ PyStr.strip (PyStr.one_of "_") name = name.
Proof.
  apply (X24_method_name_from_the_path "/api/v1/users/{user_id}/" "GET" []).
  reflexivity.
Defined.

Example method_name_of_a_versioned_path :
  _generate_python_method_name "/api/v1/users/{user_id}/" "GET" (JDict [])
  = Ok "get_api_v1_users".
Proof. reflexivity. Qed.

Example method_name_of_a_dashed_path :
  _generate_python_method_name "/user-profiles/_search" "Post"
    (JDict [("operationId", JStr EmptyString)])
  = Ok "post_user_profiles_search".
Proof. reflexivity. Qed.

(** *** Names from an operation id *)

Lemma lower_char_is_not_upper c : PyStr.is_upper (PyStr.lower_char c) = false.
Proof. destruct c as [[] [] [] [] [] [] [] []]; reflexivity. Qed.

Lemma lower_has_no_capital s : no_capital (PyStr.lower s) = true.
Proof.
  unfold no_capital. induction s as [|c t IH]; [reflexivity|].
  cbn [PyStr.lower]. now rewrite all_chars_cons, lower_char_is_not_upper, IH.
Qed.

Lemma lower_without_capital s : no_capital s = true -> PyStr.lower s = s.
Proof.
  unfold no_capital. induction s as [|c t IH]; [reflexivity|].
  rewrite all_chars_cons. intros H. apply andb_prop in H. destruct H as [Hc Ht].
  cbn [PyStr.lower]. rewrite (IH Ht). unfold PyStr.lower_char.
  now destruct (PyStr.is_upper c).
Qed.

Lemma underscore_capitals_without_capital s :
  no_capital s = true -> underscore_capitals s = s.
Proof.
  unfold no_capital. induction s as [|c t IH]; [reflexivity|].
  rewrite all_chars_cons. intros H. apply andb_prop in H. destruct H as [Hc Ht].
  cbn [underscore_capitals]. rewrite (IH Ht). now destruct (PyStr.is_upper c).
Qed.

Lemma underscore_capitals_only_adds s :
  without_underscores (PyStr.lower (underscore_capitals s))
  = without_underscores (PyStr.lower s).
Proof.
  induction s as [|c t IH]; [reflexivity|].
  cbn [underscore_capitals]. destruct (PyStr.is_upper c).
  - change (PyStr.lower (String "_" (String c (underscore_capitals t))))
      with (String "_" (PyStr.lower (String c (underscore_capitals t)))).
    cbn [without_underscores Ascii.eqb Bool.eqb]. cbn [PyStr.lower without_underscores].
    now rewrite IH.
  - cbn [PyStr.lower without_underscores]. now rewrite IH.
Qed.

(** X25: for an operation with a non-empty string as operation id, the
    method name is taken from the id alone, whatever the path and the
    method.  It holds no capital letter, differs from the lower-cased id
    only by underscores, and is the id itself when that holds no capital
    letter. *)
Theorem X25_method_name_from_the_operation_id :
  forall route_path method d operation_id,
    dict_get "operationId" d = Some (JStr operation_id) ->
    operation_id <> EmptyString ->
    exists name,
      _generate_python_method_name route_path method (JDict d) = Ok name
      /\ (forall other_path other_method,
            _generate_python_method_name other_path other_method (JDict d) = Ok name)
      /\ no_capital name = true
      /\ without_underscores name = without_underscores (PyStr.lower operation_id)
      /\ (no_capital operation_id = true -> name = operation_id).
Proof.
  intros route_path method d operation_id Hid Hfull.
  unfold _generate_python_method_name. cbn [py_get]. rewrite Hid. cbn [bind py_truthy].
  destruct operation_id as [|c t]; [contradiction|]. cbn [String.eqb negb].
  eexists. split; [reflexivity|]. split; [reflexivity|].
  split; [apply lower_has_no_capital|]. split.
  - cbn [snake PyStr.lower without_underscores].
    now rewrite underscore_capitals_only_adds.
  - intros Hlow. pose proof Hlow as Htail. unfold no_capital in Htail.
    rewrite all_chars_cons in Htail. apply andb_prop in Htail.
    cbn [snake]. rewrite underscore_capitals_without_capital by apply Htail.
    now apply lower_without_capital.
Qed.

Lemma X25_operation_id_witness :
  exists name,
    _generate_python_method_name "/users/{id}" "get"
      (JDict [("operationId", JStr "getUserById")]) = Ok name
    /\ no_capital name = true.
Proof.
  destruct (X25_method_name_from_the_operation_id
              "/users/{id}" "get" [("operationId", JStr "getUserById")] "getUserById"
              eq_refl)
    as [name [Hrun [_ [Hlow _]]]].
  - discriminate.
  - exists name. now split.
Defined.

Example method_name_of_a_camel_case_id :
  _generate_python_method_name "/users/{id}" "get"
    (JDict [("operationId", JStr "getUserByID")])
  = Ok "get_user_by_i_d".
Proof. reflexivity. Qed.

(** X26: [_generate_python_method_name] raises an [AttributeError] on an
    operation that is no dict, and a [TypeError] on an operation id that
    counts as true and is no string. *)
Theorem X26_method_name_errors :
  forall route_path method operation,
    (is_dict operation = false ->
     _generate_python_method_name route_path method operation = Raise AttributeError)
    /\ (forall d operation_id,
          operation = JDict d ->
          dict_get "operationId" d = Some operation_id ->
          py_truthy operation_id = true ->
          (forall s, operation_id <> JStr s) ->
          _generate_python_method_name route_path method operation = Raise TypeError).
Proof.
  intros route_path method operation. split.
  - intros H. destruct operation; try reflexivity. discriminate.
  - intros d operation_id -> Hid Htrue Hother.
    unfold _generate_python_method_name. cbn [py_get]. rewrite Hid. cbn [bind].
    rewrite Htrue. destruct operation_id; try reflexivity. now destruct (Hother s).
Qed.

Lemma X26_method_name_errors_witness :
  _generate_python_method_name "/users" "get" (JDict [("operationId", JInt 7)])
  = Raise TypeError.
Proof.
  apply (proj2 (X26_method_name_errors "/users" "get" (JDict [("operationId", JInt 7)]))
           [("operationId", JInt 7)] (JInt 7) eq_refl eq_refl eq_refl).
  intros s H. discriminate H.
Defined.

(** ** Tags and the order of the paths *)

Lemma ascending_irrefl a : ~ ascending a a.
Proof.
  unfold ascending, String.ltb. pose proof (String.compare_antisym a a) as H.
  destruct (a ?= a); try discriminate.
Qed.

Lemma ascending_asym a b : ascending a b -> ascending b a -> False.
Proof. intros Hab Hba. exact (ascending_irrefl a (ascending_trans Hab Hba)). Qed.

(** A strictly ascending list is determined by its elements. *)
Lemma ascending_unique : forall l l' : list string,
  StronglySorted ascending l -> StronglySorted ascending l' ->
  (forall x, In x l <-> In x l') -> l = l'.
Proof.
  induction l as [|a l IH]; intros [|b l'] Hl Hl' Hsame.
  - reflexivity.
  - destruct (proj2 (Hsame b) (or_introl eq_refl)).
  - destruct (proj1 (Hsame a) (or_introl eq_refl)).
  - apply StronglySorted_inv in Hl, Hl'.
    destruct Hl as [Hl Ha], Hl' as [Hl' Hb].
    rewrite Forall_forall in Ha, Hb.
    assert (Hab : a = b).
    { destruct (proj1 (Hsame a) (or_introl eq_refl)) as [Heq|Hin]; [now symmetry|].
      destruct (proj2 (Hsame b) (or_introl eq_refl)) as [Heq|Hin']; [assumption|].
      destruct (ascending_asym a b); auto. }
    subst b. f_equal. apply IH; try assumption.
    intros x. split; intros Hx.
    + destruct (proj1 (Hsame x) (or_intror Hx)) as [<-|Hin]; [|assumption].
      destruct (ascending_irrefl a). auto.
    + destruct (proj2 (Hsame x) (or_intror Hx)) as [<-|Hin]; [|assumption].
      destruct (ascending_irrefl a). auto.
Qed.

(** X27: the tags depend on the set of paths only: two path maps with the
    same keys, in whatever order and with whatever under them, give the
    same list of tags. *)
Theorem X27_tags_depend_on_the_set_of_paths :
  forall d d',
    (forall p, In p (dict_keys d) <-> In p (dict_keys d')) ->
    _generate_tags_from_paths (JDict d) = _generate_tags_from_paths (JDict d').
Proof.
  intros d d' Hsame. unfold _generate_tags_from_paths. cbn [py_items bind].
  do 3 f_equal. apply ascending_unique.
  - apply sorted_ascending, collect_from_nodup. constructor.
  - apply sorted_ascending, collect_from_nodup. constructor.
  - intros tag. rewrite !sorted_in. unfold collect_tags. rewrite !collect_from_spec.
    split; (intros [[]|[p [Hp Htag]]]; right; exists p; split; [now apply Hsame | exact Htag]).
Qed.

Lemma X27_tags_witness :
  _generate_tags_from_paths
    (JDict [("/users", JNull); ("/api/orders", JNull)])
  = _generate_tags_from_paths (JDict [("/api/orders", JDict []); ("/users", JDict [])]).
Proof.
  apply X27_tags_depend_on_the_set_of_paths. intros p. simpl. tauto.
Defined.
